(** * everyday_my_arxiv: paper ranking and scoring-response recovery

    A shallow embedding of [src/utils/ranking.py] (class [PaperRanker]), of
    the scoring part of [src/llm/gemini.py] (class [GeminiClient]:
    [score_paper_relevance] and [batch_score_papers]) and of the citation
    and download part of [src/arxiv/client.py] (class [ArxivClient]).

    Python objects that the code shares and mutates (the paper dicts and the
    lists holding them) live in an explicit store and are passed around by
    reference; every function of the source is a computation in a state and
    exception monad over that store. *)

From Stdlib Require Import ZArith QArith Qabs Ascii String List.
From stdpp Require Import gmap strings list fin_maps sorting pretty.

Local Open Scope string_scope.
Local Open Scope list_scope.
Local Open Scope Z_scope.

(** ** Python values *)

(** The reply object of the generation API. Only its [text] attribute is
    read by the code; the attribute is [None] when the reply has no text
    part. *)
Record response := Response { text : option string }.

(** The values that occur in paper records and in decoded scoring replies.
    Floats are not part of the universe, and a list is a list of strings
    (the authors and categories of a record). *)
#[warnings="-register-all"]
Inductive pyval :=
  | PNone
  | PBool (b : bool)
  | PInt (z : Z)
  | PStr (s : string)
  | PStrs (l : list string)
  | PDict (d : gmap string pyval)
  | PResponse (r : response).

(** A Python dict with string keys. *)
Abbreviation pydict := (gmap string pyval).

(** ** Exceptions and results *)

Inductive exn :=
  | TypeError
  | ValueError
  | AttributeError
  | ZeroDivisionError
  | OverflowError
  | JSONDecodeError
  | OtherError (name : string)
  | Unbound.   (* a reference that denotes no live object of the expected
                  kind; cannot happen in Python, where references never
                  dangle *)

Inductive result (A : Type) :=
  | Ok (a : A)
  | Raise (e : exn).
Arguments Ok {A} a.
Arguments Raise {A} e.

#[global] Instance result_ret : MRet result := λ A a, Ok a.
#[global] Instance result_bind : MBind result := λ A B f r,
  match r with
  | Ok a => f a
  | Raise e => Raise e
  end.

(** ** Operators on values *)

(** [bool] is a subclass of [int]: [True] counts as 1 and [False] as 0 in
    arithmetic and comparisons. *)
Definition as_int (v : pyval) : option Z :=
  match v with
  | PInt z => Some z
  | PBool b => Some (if b then 1 else 0)
  | _ => None
  end.

(** Lexicographic [<] on lists of strings, as Python compares lists: at the
    first index where the elements differ the elements decide, otherwise
    the shorter list is the smaller. *)
Fixpoint strs_ltb (l1 l2 : list string) : bool :=
  match l1, l2 with
  | _, [] => false
  | [], _ :: _ => true
  | x :: l1', y :: l2' =>
      if String.eqb x y then strs_ltb l1' l2' else String.ltb x y
  end.

(** [v < w]. Numbers compare with numbers, strings with strings, lists
    with lists; every other pair raises [TypeError]. *)
Definition py_lt (v w : pyval) : result bool :=
  match as_int v, as_int w with
  | Some a, Some b => Ok (a <? b)
  | _, _ =>
      match v, w with
      | PStr s, PStr t => Ok (String.ltb s t)
      | PStrs l, PStrs m => Ok (strs_ltb l m)
      | _, _ => Raise TypeError
      end
  end.

(** [v >= w]. *)
Definition py_ge (v w : pyval) : result bool :=
  match as_int v, as_int w with
  | Some a, Some b => Ok (a >=? b)
  | _, _ =>
      match v, w with
      | PStr s, PStr t => Ok (negb (String.ltb s t))
      | PStrs l, PStrs m => Ok (negb (strs_ltb l m))
      | _, _ => Raise TypeError
      end
  end.

(** [v + w]. *)
Definition py_add (v w : pyval) : result pyval :=
  match as_int v, as_int w with
  | Some a, Some b => Ok (PInt (a + b))
  | _, _ =>
      match v, w with
      | PStr s, PStr t => Ok (PStr (String.append s t))
      | PStrs l, PStrs m => Ok (PStrs (l ++ m))
      | _, _ => Raise TypeError
      end
  end.

(** [v == n] for an integer literal [n]; [==] never raises. *)
Definition py_eq_int (v : pyval) (n : Z) : bool :=
  match as_int v with
  | Some a => a =? n
  | None => false
  end.

(** The least magnitude that rounds to no finite double: halfway between
    the largest double and [2 ^ 1024]. *)
Definition float_limit : Z := 2 ^ 1024 - 2 ^ 970.

(** [num / den] rounded to the nearest integer, a tie going to the even
    one; [0 <= num] and [0 < den]. *)
Definition round_half_even (num den : Z) : Z :=
  let q := num / den in
  let r := num mod den in
  if 2 * r <? den then q
  else if den <? 2 * r then q + 1
  else if Z.even q then q else q + 1.

(** Whether [2 ^ d <= a / n], for positive [a] and [n] and any [d]. *)
Definition pow2_le (d a n : Z) : bool :=
  n * 2 ^ Z.max 0 d <=? a * 2 ^ Z.max 0 (- d).

(** The binade of [a / n], for positive [a] and [n]: the [d] with
    [2 ^ d <= a / n < 2 ^ (d + 1)]. *)
Definition binade (a n : Z) : Z :=
  let d := Z.log2 a - Z.log2 n in
  if pow2_le d a n then d else d - 1.

(** The double nearest to [a / n], [n] not 0, as a rational: 53 bits of
    mantissa, the exponent of the last bit not below -1074, a tie going to
    the even mantissa. Python's doubles that are no numbers and the sign of
    its zero have no counterpart here. *)
Definition nearest_double (a n : Z) : Q :=
  if a =? 0 then 0%Q
  else
    let e := Z.max (binade (Z.abs a) (Z.abs n) - 52) (- 1074) in
    let m := round_half_even (Z.abs a * 2 ^ Z.max 0 (- e))
                             (Z.abs n * 2 ^ Z.max 0 e) in
    let s := Z.sgn a * Z.sgn n in
    if 0 <=? e then inject_Z (s * m * 2 ^ e)
    else Qmake (s * m) (Z.to_pos (2 ^ (- e))).

(** [v / n] for an integer [n] (true division of integers): the float that
    Python returns is the double nearest to the exact quotient. A quotient
    that rounds to no finite double raises [OverflowError]. *)
Definition py_truediv (v : pyval) (n : Z) : result Q :=
  match as_int v with
  | Some a =>
      if n =? 0 then Raise ZeroDivisionError
      else if float_limit * Z.abs n <=? Z.abs a then Raise OverflowError
      else Ok (nearest_double a n)
  | None => Raise TypeError
  end.

(** [d.get(key, default)]. *)
Definition dict_get (d : pydict) (key : string) (default : pyval) : pyval :=
  match d !! key with
  | Some v => v
  | None => default
  end.


(** ** The store *)

Definition loc := positive.

(** Paper dicts and lists of papers are mutable objects held by reference.
    [llm_calls] counts the requests sent to the generation API so far and
    [stdout] is what [print] has written. *)
Record store := Store {
  dicts : gmap loc pydict;
  lists : gmap loc (list loc);
  llm_calls : nat;
  stdout : list string
}.

Definition set_dicts (f : gmap loc pydict → gmap loc pydict) (st : store) : store :=
  Store (f (dicts st)) (lists st) (llm_calls st) (stdout st).
Definition set_lists (f : gmap loc (list loc) → gmap loc (list loc)) (st : store) : store :=
  Store (dicts st) (f (lists st)) (llm_calls st) (stdout st).

(** Computations that read and write the store and may raise. *)
Definition M (A : Type) : Type := store → result (A * store).

#[global] Instance M_ret : MRet M := λ A a st, Ok (a, st).
#[global] Instance M_bind : MBind M := λ A B f m st,
  match m st with
  | Ok (a, st') => f a st'
  | Raise e => Raise e
  end.

Definition lift {A} (r : result A) : M A := λ st,
  match r with
  | Ok a => Ok (a, st)
  | Raise e => Raise e
  end.

Definition read_dict (p : loc) : M pydict := λ st,
  match dicts st !! p with
  | Some d => Ok (d, st)
  | None => Raise Unbound
  end.

(** [p[key] = v]: the dict object behind [p] is updated in place. *)
Definition dict_setitem (p : loc) (key : string) (v : pyval) : M unit := λ st,
  match dicts st !! p with
  | Some d => Ok (tt, set_dicts <[p := <[key := v]> d]> st)
  | None => Raise Unbound
  end.

Definition read_list (l : loc) : M (list loc) := λ st,
  match lists st !! l with
  | Some xs => Ok (xs, st)
  | None => Raise Unbound
  end.

(** A new list object, at a reference that no live list has. *)
Definition alloc_list (xs : list loc) : M loc := λ st,
  let l := fresh (dom (lists st)) in
  Ok (l, set_lists <[l := xs]> st).

(** [l.append(x)]. *)
Definition list_append (l : loc) (x : loc) : M unit := λ st,
  match lists st !! l with
  | Some xs => Ok (tt, set_lists <[l := xs ++ [x]]> st)
  | None => Raise Unbound
  end.

(** [print(s)]. *)
Definition print (s : string) : M unit := λ st,
  Ok (tt, Store (dicts st) (lists st) (llm_calls st) (stdout st ++ [s])).

(** [for x in xs: body]. *)
Fixpoint for_each {A} (xs : list A) (body : A → M unit) : M unit :=
  match xs with
  | [] => mret tt
  | x :: xs' => _ ← body x; for_each xs' body
  end.

(** A list display or generator: [f x for x in xs], left to right. *)
Fixpoint for_collect {A B} (xs : list A) (f : A → M B) : M (list B) :=
  match xs with
  | [] => mret []
  | x :: xs' => y ← f x; ys ← for_collect xs' f; mret (y :: ys)
  end.

(** A list comprehension with a condition: [x for x in xs if cond x]. *)
Fixpoint for_filter {A} (xs : list A) (cond : A → M bool) : M (list A) :=
  match xs with
  | [] => mret []
  | x :: xs' =>
      b ← cond x; ys ← for_filter xs' cond;
      mret (if b : bool then x :: ys else ys)
  end.

(** ** Built-ins: slices, [range], [sorted] *)

(** A slice bound [i] on a list of length [n]: a negative bound counts
    from the end, and the result is clamped to [0 .. n]. *)
Definition slice_index (n : nat) (i : Z) : nat :=
  if i <? 0 then Z.to_nat (Z.max 0 (Z.of_nat n + i))
  else Z.to_nat (Z.min (Z.of_nat n) i).

(** [xs[start:stop]]; a slice never raises. *)
Definition slice {A} (xs : list A) (start stop : Z) : list A :=
  drop (slice_index (length xs) start) (take (slice_index (length xs) stop) xs).

(** [l[start:stop]] on a list object: a new list. *)
Definition list_slice (l : loc) (start stop : Z) : M loc :=
  xs ← read_list l; alloc_list (slice xs start stop).

(** [range(start, stop, step)], as the list of its values. *)
Fixpoint range_from (start step : Z) (count : nat) : list Z :=
  match count with
  | O => []
  | S c => start :: range_from (start + step) step c
  end.

Definition range_len (start stop step : Z) : nat :=
  if 0 <? step then
    if start <? stop then Z.to_nat ((stop - start - 1) / step + 1) else 0%nat
  else
    if stop <? start then Z.to_nat ((start - stop - 1) / (- step) + 1) else 0%nat.

Definition py_range (start stop step : Z) : result (list Z) :=
  if step =? 0 then Raise ValueError
  else Ok (range_from start step (range_len start stop step)).

(** [list.sort] is stable and decides every order question with [<] on
    the keys. Insertion from the left, each element going behind the
    elements that are not greater, is the stable sort that the built-in one
    runs on short lists; on keys that [<] orders totally every stable sort
    returns the same list. *)
Fixpoint insort {A} (x : pyval * A) (s : list (pyval * A))
    : result (list (pyval * A)) :=
  match s with
  | [] => Ok [x]
  | y :: s' =>
      b ← py_lt x.1 y.1;
      if b : bool then Ok (x :: y :: s') else r ← insort x s'; Ok (y :: r)
  end.

Fixpoint sort_into {A} (acc : list (pyval * A)) (l : list (pyval * A))
    : result (list (pyval * A)) :=
  match l with
  | [] => Ok acc
  | x :: l' => acc' ← insort x acc; sort_into acc' l'
  end.

Definition reverse_if {A} (b : bool) (l : list A) : list A :=
  if b then reverse l else l.

(** [list.sort(reverse=...)] on a list of (key, item) pairs. With
    [reverse] the list is reversed before and after the ascending sort,
    which is how descending order keeps equal keys in their first order. *)
Definition sort_keyed {A} (reverse : bool) (l : list (pyval * A))
    : result (list (pyval * A)) :=
  s ← sort_into [] (reverse_if reverse l);
  Ok (reverse_if reverse s).

(** [sorted(iterable, key=key, reverse=reverse)]: a new list; the keys of
    all items are computed first, then the pairs are sorted. *)
Definition sorted (iterable : loc) (key : loc → M pyval) (reverse : bool) : M loc :=
  items ← read_list iterable;
  keys ← for_collect items key;
  keyed ← lift (sort_keyed reverse (zip keys items));
  alloc_list (keyed.*2).

(** ** [PaperRanker] (src/utils/ranking.py) *)

Module PaperRanker.

Record t := Build { min_combined_score : Z }.

(** [__init__(self, min_combined_score=4)] *)
Definition __init__ (min_combined_score : option Z) : t :=
  Build (default 4 min_combined_score).

(** [p.get(key, 0)] on the paper behind reference [p]. *)
Definition get_score (key : string) (p : loc) : M pyval :=
  d ← read_dict p; mret (dict_get d key (PInt 0)).

Definition rank_papers_by_scores (self : t) (papers : loc) : M loc :=
  sorted papers (get_score "combined_score") true.

Definition filter_by_minimum_score (self : t) (papers : loc) : M loc :=
  ps ← read_list papers;
  kept ← for_filter ps (λ p,
    v ← get_score "combined_score" p;
    lift (py_ge v (PInt (min_combined_score self))));
  alloc_list kept.

(** [limit] defaults to 10. *)
Definition select_top_papers (self : t) (papers : loc) (limit : option Z) : M loc :=
  let limit := default 10 limit in
  filtered_papers ← filter_by_minimum_score self papers;
  ranked_papers ← rank_papers_by_scores self filtered_papers;
  list_slice ranked_papers 0 limit.

(** The dict that [get_selection_stats] returns, one field per key. *)
Record stats := Stats {
  total : Z;
  avg_relevance : Q;
  avg_significance : Q;
  avg_combined : Q;
  high_relevance_count : Z;
  high_significance_count : Z
}.

(** [sum(p.get(key, 0) for p in papers)] *)
Fixpoint sum_scores (key : string) (acc : pyval) (ps : list loc) : M pyval :=
  match ps with
  | [] => mret acc
  | p :: ps' =>
      v ← get_score key p;
      acc' ← lift (py_add acc v);
      sum_scores key acc' ps'
  end.

(** [sum(1 for p in papers if p.get(key, 0) == 3)] *)
Fixpoint count_high (key : string) (acc : Z) (ps : list loc) : M Z :=
  match ps with
  | [] => mret acc
  | p :: ps' =>
      v ← get_score key p;
      count_high key (if py_eq_int v 3 then acc + 1 else acc) ps'
  end.

Definition get_selection_stats (self : t) (papers : loc) : M stats :=
  ps ← read_list papers;
  match ps with
  | [] => mret (Stats 0 0 0 0 0 0)
  | _ :: _ =>
      let total := Z.of_nat (length ps) in
      s ← sum_scores "relevance_score" (PInt 0) ps;
      avg_relevance ← lift (py_truediv s total);
      s ← sum_scores "significance_score" (PInt 0) ps;
      avg_significance ← lift (py_truediv s total);
      s ← sum_scores "combined_score" (PInt 0) ps;
      avg_combined ← lift (py_truediv s total);
      high_relevance_count ← count_high "relevance_score" 0 ps;
      high_significance_count ← count_high "significance_score" 0 ps;
      mret (Stats total avg_relevance avg_significance avg_combined
                  high_relevance_count high_significance_count)
  end.

End PaperRanker.

(** ** Regular-expression search for the scoring reply *)

Definition lbrace : ascii := "{"%char.
Definition rbrace : ascii := "}"%char.

(** [.*\}] with [re.DOTALL], anchored at the start of [s]: the star takes
    as many characters as it can and gives them back one by one until a
    closing brace follows. The result is the matched prefix. *)
Fixpoint match_rest (s : string) : option string :=
  match s with
  | EmptyString => None
  | String c s' =>
      match match_rest s' with
      | Some m => Some (String c m)
      | None => if Ascii.eqb c rbrace then Some (String c EmptyString) else None
      end
  end.

(** [\{.*\}] anchored at the start of [s]. *)
Definition match_here (s : string) : option string :=
  match s with
  | EmptyString => None
  | String c s' =>
      if Ascii.eqb c lbrace then String c <$> match_rest s' else None
  end.

(** [re.search(r"\{.*\}", s, re.DOTALL)] followed by [.group()]: the match
    at the leftmost offset where the pattern matches. A text is the string
    of its UTF-8 bytes; no byte of a longer character is a brace, so the
    span is the same as on the characters. *)
Fixpoint re_search (s : string) : option string :=
  match match_here s with
  | Some m => Some m
  | None =>
      match s with
      | EmptyString => None
      | String _ s' => re_search s'
      end
  end.

(** ** [GeminiClient] (src/llm/gemini.py) *)

#[global] Instance exn_eq_dec : EqDecision exn.
Proof. solve_decision. Defined.

(** [try: body except e: handler], for a body that does not write the
    store. *)
Definition try_except {A} (body : result A) (e : exn) (handler : result A)
    : result A :=
  match body with
  | Ok a => Ok a
  | Raise e' => if decide (e' = e) then handler else Raise e'
  end.

(** What the client takes from outside the repository.
    - [request_scoring n model paper keywords negative_keywords] stands for
      lines 216-242 of [score_paper_relevance]: the prompt template is read
      from its file, filled in from the record and the keyword profile with
      [str.format], and sent to the model; the reply object comes back.
      [n] is the number of requests sent before this one, so that equal
      prompts need not get equal replies. Any of these steps may raise.
    - [json_loads] is [json.loads]. *)
Class Collaborators := {
  request_scoring :
    nat → string → pydict → list string → option (list string) → result response;
  json_loads : string → result pyval
}.

Module GeminiClient.

(** The attributes that scoring reads. *)
Record t := Build { model_name : string; batch_size : Z }.

Section Client.
Context `{Collaborators}.

(** Lines 216-242: the prompt for the paper behind [paper] is built and
    sent with [generate_content]; one request to the model. *)
Definition generate_content (self : t) (paper : loc) (keywords : list string)
    (negative_keywords : option (list string)) : M response := λ st,
  match dicts st !! paper with
  | None => Raise Unbound
  | Some d =>
      match request_scoring (llm_calls st) (model_name self) d keywords
              negative_keywords with
      | Ok r => Ok (r, Store (dicts st) (lists st) (S (llm_calls st)) (stdout st))
      | Raise e => Raise e
      end
  end.

(** The result that stands in for a reply whose JSON does not decode. *)
Definition degraded_scores : pydict :=
  {[ "relevance_score" := PInt 1;
     "significance_score" := PInt 1;
     "combined_score" := PInt 2 ]}.

(** The result for a reply in which no JSON object is found. *)
Definition scoring_failure (response : response) : pydict :=
  {[ "error" := PStr "No valid JSON found in scoring";
     "raw_response" := PResponse response ]}.

(** Lines 244-259: the [try] block that turns the reply into scores. *)
Definition parse_scoring_response (response : response) : result pyval :=
  try_except
    (match text response with
     | None => Raise TypeError   (* re.search on None *)
     | Some t =>
         match re_search t with
         | Some json_str => result ← json_loads json_str; Ok result
         | None => Ok (PDict (scoring_failure response))
         end
     end)
    JSONDecodeError
    (Ok (PDict degraded_scores)).

Definition score_paper_relevance (self : t) (paper : loc)
    (keywords : list string) (negative_keywords : option (list string))
    : M pyval :=
  response ← generate_content self paper keywords negative_keywords;
  lift (parse_scoring_response response).

(** [scores.get(key, default)]: only a dict has the method. *)
Definition py_get (scores : pyval) (key : string) (default : pyval)
    : result pyval :=
  match scores with
  | PDict d => Ok (dict_get d key default)
  | _ => Raise AttributeError
  end.

(** The progress line of one batch. *)
Definition progress_line (self : t) (i : Z) (len_papers len_batch : nat) : string :=
  String.concat "" [
    "Scoring batch "; pretty (i / batch_size self + 1); "/";
    pretty ((Z.of_nat len_papers - 1) / batch_size self + 1); " (";
    pretty len_batch; " papers)" ].

(** Lines 283-291: the body of the inner loop. *)
Definition score_one (self : t) (scored_papers : loc)
    (keywords : list string) (negative_keywords : option (list string))
    (paper : loc) : M unit :=
  scores ← score_paper_relevance self paper keywords negative_keywords;
  v ← lift (py_get scores "relevance_score" (PInt 1));
  _ ← dict_setitem paper "relevance_score" v;
  v ← lift (py_get scores "significance_score" (PInt 1));
  _ ← dict_setitem paper "significance_score" v;
  v ← lift (py_get scores "combined_score" (PInt 2));
  _ ← dict_setitem paper "combined_score" v;
  list_append scored_papers paper.

(** Lines 278-291: the body of the outer loop, for the batch that starts
    at index [i]. *)
Definition score_batch (self : t) (papers scored_papers : loc)
    (keywords : list string) (negative_keywords : option (list string))
    (i : Z) : M unit :=
  batch ← list_slice papers i (i + batch_size self);
  b ← read_list batch;
  ps ← read_list papers;
  _ ← print (progress_line self i (length ps) (length b));
  for_each b (score_one self scored_papers keywords negative_keywords).

Definition batch_score_papers (self : t) (papers : loc)
    (keywords : list string) (negative_keywords : option (list string))
    : M loc :=
  scored_papers ← alloc_list [];
  ps ← read_list papers;
  starts ← lift (py_range 0 (Z.of_nat (length ps)) (batch_size self));
  _ ← for_each starts
        (score_batch self papers scored_papers keywords negative_keywords);
  mret scored_papers.

End Client.
End GeminiClient.

(** ** A concrete environment for the examples *)

Module Fake.

Definition dquote : ascii := ascii_of_nat 34.

Definition is_space (c : ascii) : bool :=
  (Ascii.eqb c " " || Ascii.eqb c "009" || Ascii.eqb c "010" || Ascii.eqb c "013")%char.

Definition digit_of (c : ascii) : option Z :=
  let n := Z.of_nat (nat_of_ascii c) in
  if (48 <=? n) && (n <=? 57) then Some (n - 48) else None.

(** The states of a one-pass decoder for JSON objects whose members are
    integers, [{"k": 1, ...}]: the reply format that the scoring prompt
    asks for. The decoder refuses every other text, other JSON too; it
    stands in for [json.loads] in the examples only. *)
Inductive jstate :=
  | JStart
  | JFirst (d : pydict)
  | JNext (d : pydict)
  | JKey (d : pydict) (k : string)
  | JColon (d : pydict) (k : string)
  | JValue (d : pydict) (k : string)
  | JMinus (d : pydict) (k : string)
  | JZero (d : pydict) (k : string)
  | JDigits (d : pydict) (k : string) (neg : bool) (n : Z)
  | JAfter (d : pydict)
  | JDone (d : pydict)
  | JFail.

Definition signed (neg : bool) (n : Z) : Z := if neg then - n else n.

Definition after_value (d : pydict) (c : ascii) : jstate :=
  if is_space c then JAfter d
  else if Ascii.eqb c "," then JNext d
  else if Ascii.eqb c rbrace then JDone d
  else JFail.

Definition jstep (s : jstate) (c : ascii) : jstate :=
  match s with
  | JStart =>
      if is_space c then JStart
      else if Ascii.eqb c lbrace then JFirst ∅ else JFail
  | JFirst d =>
      if is_space c then JFirst d
      else if Ascii.eqb c dquote then JKey d ""
      else if Ascii.eqb c rbrace then JDone d else JFail
  | JNext d =>
      if is_space c then JNext d
      else if Ascii.eqb c dquote then JKey d "" else JFail
  | JKey d k =>
      if Ascii.eqb c dquote then JColon d k
      else if Ascii.eqb c "092" || (nat_of_ascii c <? 32)%nat then JFail
      else JKey d (k +:+ String c "")
  | JColon d k =>
      if is_space c then JColon d k
      else if Ascii.eqb c ":" then JValue d k else JFail
  | JValue d k =>
      if is_space c then JValue d k
      else if Ascii.eqb c "-" then JMinus d k
      else match digit_of c with
           | Some 0 => JZero d k
           | Some n => JDigits d k false n
           | None => JFail
           end
  | JMinus d k =>
      match digit_of c with
      | Some 0 => JZero d k
      | Some n => JDigits d k true n
      | None => JFail
      end
  | JZero d k => after_value (<[k := PInt 0]> d) c
  | JDigits d k neg n =>
      match digit_of c with
      | Some m => JDigits d k neg (10 * n + m)
      | None => after_value (<[k := PInt (signed neg n)]> d) c
      end
  | JAfter d => after_value d c
  | JDone d => if is_space c then JDone d else JFail
  | JFail => JFail
  end.

Fixpoint jrun (s : jstate) (t : string) : jstate :=
  match t with
  | EmptyString => s
  | String c t' => jrun (jstep s c) t'
  end.

Definition json_loads_flat (t : string) : result pyval :=
  match jrun JStart t with
  | JDone d => Ok (PDict d)
  | _ => Raise JSONDecodeError
  end.

(** The model answers the [n]-th request with the [n]-th of [replies] and
    refuses further requests. *)
Definition canned (replies : list string) : Collaborators := {|
  request_scoring n _ _ _ _ :=
    match replies !! n with
    | Some t => Ok (Response (Some t))
    | None => Raise (OtherError "ServerError")
    end;
  json_loads := json_loads_flat
|}.

(** ["k":n] *)
Definition member (k : string) (n : string) : string :=
  String dquote k +:+ String dquote ":" +:+ n.

Definition reply_325 : string :=
  "Here is my answer: {" +:+ member "relevance_score" "3" +:+ "," +:+
  member "significance_score" "2" +:+ "," +:+
  member "combined_score" "5" +:+ "} thanks".

End Fake.

(** ** Example stores *)

Module Examples.

(** A record that has only a [combined_score]. *)
Definition combined (n : Z) : pydict := {[ "combined_score" := PInt n ]}.

(** A record with all three scores. *)
Definition rated (r s c : Z) : pydict :=
  {[ "relevance_score" := PInt r; "significance_score" := PInt s;
     "combined_score" := PInt c ]}.

(** Papers A (5), B (5), C (7) and D (no score) at references 1 to 4, and
    the list [A, B, C, D] at reference 10. *)
Definition shelf : store :=
  Store
    {[ 1%positive := combined 5; 2%positive := combined 5;
       3%positive := combined 7; 4%positive := ∅ ]}
    {[ 10%positive := [1; 2; 3; 4]%positive ]}
    0 [].

(** Papers rated (3, 3, 6) and (1, 1, 2), the list of both at reference
    10, and an empty list at reference 11. *)
Definition pair_shelf : store :=
  Store
    {[ 1%positive := rated 3 3 6; 2%positive := rated 1 1 2 ]}
    {[ 10%positive := [1; 2]%positive; 11%positive := [] ]}
    0 [].

(** The replies of the model to four requests, and what the recovery
    step makes of each. *)
Definition replies : list string :=
  [Fake.reply_325; "no json here"; "{invalid json}"; "{}"].

Definition reply_scores (i : nat) : pydict :=
  match i with
  | 0%nat => rated 3 2 5
  | 1%nat => GeminiClient.scoring_failure (Response (Some "no json here"))
  | 2%nat => GeminiClient.degraded_scores
  | _ => ∅
  end.

(** [shelf] after one request. *)
Definition shelf_asked : store :=
  Store (dicts shelf) (lists shelf) 1 [].

(** The three score entries of the paper behind [p]. *)
Definition scores_of (st : store) (p : loc) : list (option pyval) :=
  (λ k, dicts st !! p ≫= (.!! k)) <$>
    ["relevance_score"; "significance_score"; "combined_score"].

(** What a run of [batch_score_papers] on [shelf] leaves: the returned
    list, the scores of the four papers, and the lines printed. *)
Definition outcome (r : result (loc * store)) :=
  match r with
  | Ok (out, st) =>
      Some (lists st !! out, scores_of st <$> [1; 2; 3; 4]%positive, stdout st)
  | Raise _ => None
  end.

End Examples.

(** ** Vocabulary of the statements *)

(** The value of [p.get(key, 0)] for the paper behind [p] in store [st]. *)
Definition field (st : store) (key : string) (p : loc) : pyval :=
  dict_get (default ∅ (dicts st !! p)) key (PInt 0).

(** A paper record with a well-typed score: [p] denotes a dict whose [key]
    entry, when present, is an integer. *)
Definition scored (st : store) (key : string) (p : loc) : Prop :=
  is_Some (dicts st !! p) ∧ is_Some (as_int (field st key p)).

(** The integer score of a paper record; 0 when the entry is absent. *)
Definition score (st : store) (key : string) (p : loc) : Z :=
  default 0 (as_int (field st key p)).

(** A paper record with a small score: well typed, and of at most 1000
    bits. *)
Definition small (st : store) (key : string) (p : loc) : Prop :=
  scored st key p ∧ Z.abs (score st key p) ≤ 2 ^ 1000.

(** The sum of the [key] scores of the records [ps]. *)
Definition score_sum (st : store) (key : string) (ps : list loc) : Z :=
  foldr (λ p acc, score st key p + acc) 0 ps.

(** The number of records of [ps] whose [key] score is [n]. *)
Definition score_count (st : store) (key : string) (n : Z) (ps : list loc) : Z :=
  Z.of_nat (length (filter (λ p, score st key p = n) ps)).

(** The exact quotient of two integers. *)
Definition quotient (a b : Z) : Q := (inject_Z a / inject_Z b)%Q.

(** [r] is as near to [q] as a double can be asked to be: within the
    relative error [2 ^ -53], or, for the doubles next to 0, within the
    absolute error [2 ^ -1075]. *)
Definition close (r q : Q) : Prop :=
  (Qabs (r - q) * inject_Z (2 ^ 53) <= Qabs q)%Q
  ∨ (Qabs (r - q) * inject_Z (2 ^ 1075) <= 1)%Q.

(** The exponent of the last bit and the mantissa of the double nearest
    to [a / n], for positive [a] and [n]. *)
Definition last_bit (a n : Z) : Z := Z.max (binade a n - 52) (- 1074).
Definition mantissa (a n : Z) : Z :=
  round_half_even (a * 2 ^ Z.max 0 (- last_bit a n))
                  (n * 2 ^ Z.max 0 (last_bit a n)).

(** Whether the character [c] occurs in [s]. *)
Fixpoint occurs (c : ascii) (s : string) : bool :=
  match s with
  | EmptyString => false
  | String x s' => Ascii.eqb x c || occurs c s'
  end.

(** [braced mid] is the text ["{" ++ mid ++ "}"]. *)
Definition braced (mid : string) : string :=
  String lbrace (mid +:+ String rbrace "").

(** [t] has an opening brace followed, later, by a closing brace. *)
Definition has_brace_span (t : string) : Prop :=
  ∃ a b c, t = a +:+ braced b +:+ c.

(** A paper record [d] after the scores of the scoring result [scores]
    have been written to it, each with its default. *)
Definition attach (scores d : pydict) : pydict :=
  <["combined_score" := dict_get scores "combined_score" (PInt 2)]>
    (<["significance_score" := dict_get scores "significance_score" (PInt 1)]>
       (<["relevance_score" := dict_get scores "relevance_score" (PInt 1)]> d)).

(** The paper records after the papers [ps] have been scored from left to
    right, the paper at position [x] of [ps] with result [scores (i + x)].
    A paper that occurs twice is written twice. *)
Fixpoint attach_all (scores : nat → pydict) (i : nat) (ps : list loc)
    (m : gmap loc pydict) : gmap loc pydict :=
  match ps with
  | [] => m
  | p :: ps' => attach_all scores (S i) ps' (alter (attach (scores i)) p m)
  end.

(** The three keys that scoring writes. *)
Definition score_key (k : string) : Prop :=
  k = "relevance_score" ∨ k = "significance_score" ∨ k = "combined_score".

(** Insertion sort on integer keys, the reading of [sort_keyed] on
    well-typed keys. *)
Section KeySort.
Context {A : Type} (k : A → Z).

Fixpoint insert_by (x : A) (s : list A) : list A :=
  match s with
  | [] => [x]
  | y :: s' => if k x <? k y then x :: y :: s' else y :: insert_by x s'
  end.

Fixpoint sort_from (acc l : list A) : list A :=
  match l with
  | [] => acc
  | x :: l' => sort_from (insert_by x acc) l'
  end.

Definition sort_desc (l : list A) : list A :=
  reverse (sort_from [] (reverse l)).

(** The orders by key. *)
Definition le_k (a b : A) : Prop := k a ≤ k b.
Definition ge_k (a b : A) : Prop := k b ≤ k a.
End KeySort.

(** An item with its Python key in front, as [sorted] pairs them, and the
    items whose Python key is the integer that [k] gives. *)
Definition keyed {A} (f : A → pyval) (a : A) : pyval * A := (f a, a).
Definition typed {A} (f : A → pyval) (k : A → Z) (a : A) : Prop :=
  as_int (f a) = Some (k a).

(** The store after a list object with contents [xs] has been created. *)
Definition with_list (st : store) (xs : list loc) : store :=
  set_lists <[fresh (dom (lists st)) := xs]> st.

(** ** [ArxivClient] (src/arxiv/client.py) *)

(** [d[key]]. *)
Definition dict_getitem (d : pydict) (key : string) : result pyval :=
  match d !! key with
  | Some v => Ok v
  | None => Raise (OtherError "KeyError")
  end.

(** [v[0]]: the first element of a list, the first character of a string;
    a dict has no key 0, and the other values cannot be indexed. *)
Definition py_first (v : pyval) : result pyval :=
  match v with
  | PStrs (a :: _) => Ok (PStr a)
  | PStr (String c _) => Ok (PStr (String c ""))
  | PStrs [] | PStr "" => Raise (OtherError "IndexError")
  | PDict _ => Raise (OtherError "KeyError")
  | PNone | PBool _ | PInt _ | PResponse _ => Raise TypeError
  end.

(** [s.replace(old, new)], [old] not empty: the occurrences of [old] are
    found from left to right and do not overlap. [skip] counts the
    characters of the occurrence just replaced that are still to pass. *)
Fixpoint replace_from (old new : string) (skip : nat) (s : string) : string :=
  match s with
  | "" => ""
  | String c s' =>
      match skip with
      | S k => replace_from old new k s'
      | O =>
          if String.prefix old s
          then new +:+ replace_from old new (String.length old - 1) s'
          else String c (replace_from old new 0 s')
      end
  end.

(** [s.replace(old, new)]; with an empty [old], [new] goes before every
    character and at the end. *)
Definition str_replace (s old new : string) : string :=
  match old with
  | "" => new +:+ String.concat "" ((λ c, String c new) <$> list_ascii_of_string s)
  | _ => replace_from old new 0 s
  end.

(** [sub in s]. *)
Fixpoint contains (sub s : string) : bool :=
  String.prefix sub s ||
  match s with
  | "" => false
  | String _ s' => contains sub s'
  end.

(** [s.split(sep)], [sep] not empty, as the list of the pieces between
    the occurrences of [sep], which are found from left to right and do
    not overlap. [skip] counts the characters of the occurrence just found
    that are still to pass. *)
Fixpoint split_from (sep : string) (skip : nat) (s : string) : list string :=
  match s with
  | "" => [""]
  | String c s' =>
      match skip with
      | S k => split_from sep k s'
      | O =>
          if String.prefix sep s
          then "" :: split_from sep (String.length sep - 1) s'
          else
            match split_from sep 0 s' with
            | piece :: pieces => String c piece :: pieces
            | [] => [String c ""]
            end
      end
  end.

(** [s.split(sep)[-1]]; an empty separator is refused. *)
Definition split_last (s sep : string) : result string :=
  match sep with
  | "" => Raise ValueError
  | _ => Ok (List.last (split_from sep 0 s) "")
  end.

(** What [get_citation_data] takes from outside the repository.
    - [search_pubs n query] stands for lines 238-239,
      [scholarly.search_pubs(query)] and [next(search_query, None)]: the
      first publication that Google Scholar finds, if there is one. [n] is
      the number of searches made before this one. Either call may raise.
    - [repr v] is the text that an f-string puts for a list, a dict or an
      object, and [exn_message e] the text that it puts for an
      exception. *)
Class Scholar := {
  search_pubs : nat → string → result (option pydict);
  repr : pyval → string;
  exn_message : exn → string
}.

(** What [get_pdf_content] takes from outside the repository.
    - [http_head url] stands for lines 271-275: the [HEAD] request,
      [raise_for_status] and the [Content-Length] header of the reply, if
      it has one;
    - [http_get url] stands for lines 285-287: the [GET] request,
      [raise_for_status] and the content of the reply;
    - [py_int s] is [int(s)];
    - [megabytes n] is the text of [n / (1024 * 1024)] with two decimals,
      which a size too large for a float does not have. *)
Class Web := {
  http_head : string → result (option string);
  http_get : string → result (list Byte.byte);
  py_int : string → result Z;
  megabytes : Z → result string;
  error_text : exn → string
}.

Module ArxivClient.

(** What the client does outside the store: the number of searches sent
    to Google Scholar, and the seconds spent in [time.sleep]. *)
Record outside := Outside { searches : nat; slept : Z }.

(** Lines 169 and 171 of [_parse_arxiv_response]: the link of an entry. *)
Definition secure_link (link_href : string) : string :=
  str_replace link_href "http://" "https://".

(** Line 333 of [get_most_cited_papers]: the [pdf_url] of a paper. *)
Definition cited_pdf_url (pdf_url : string) : string :=
  str_replace pdf_url "http" "https".

(** Line 188 of [_parse_arxiv_response]: the identifier of an entry. *)
Definition parsed_id (entry_id : string) : result string :=
  if contains "/abs/" entry_id
  then split_last entry_id "/abs/"
  else split_last entry_id "/".

(** Line 329 of [get_most_cited_papers]: the identifier of a result. *)
Definition cited_id (entry_id : string) : result string :=
  split_last entry_id "/".

Section Client.
Context `{Scholar}.

(** [f"{v}"]. *)
Definition py_format (v : pyval) : string :=
  match v with
  | PStr s => s
  | PInt z => pretty z
  | PBool true => "True"
  | PBool false => "False"
  | PNone => "None"
  | PStrs _ | PDict _ | PResponse _ => repr v
  end.

(** Line 233. *)
Definition checking_line (i total : nat) (title : pyval) : string :=
  String.concat "" [
    "Checking citations for paper "; pretty (S i); "/"; pretty total; ": ";
    py_format title ].

(** Line 253. *)
Definition error_line (e : exn) : string :=
  "Error fetching citation data: " +:+ exn_message e.

(** Line 237: [f"{paper['title']} {paper['authors'][0]}"]. *)
Definition citation_query (d : pydict) : result string :=
  title ← dict_getitem d "title";
  authors ← dict_getitem d "authors";
  author ← py_first authors;
  Ok (String.concat "" [py_format title; " "; py_format author]).

(** Lines 237-239, the part of the [try] block that writes nothing: the
    query and the search. A search counts once it is sent, whether or
    not it raises. *)
Definition look_up (d : pydict) (o : outside) : result (option pydict) * outside :=
  match citation_query d with
  | Ok query =>
      (search_pubs (searches o) query, Outside (S (searches o)) (slept o))
  | Raise e => (Raise e, o)
  end.

Definition set_citations (paper : loc) (count url : pyval) : M unit :=
  _ ← dict_setitem paper "citation_count" count;
  dict_setitem paper "citation_url" url.

(** Lines 241-247. [if result:] takes an empty dict for no result. *)
Definition write_citations (paper : loc) (result : option pydict) : M unit :=
  match result with
  | Some r =>
      if decide (r = ∅)
      then set_citations paper (PInt 0) (PStr "")
      else set_citations paper (dict_get r "num_citations" (PInt 0))
             (dict_get r "citedby_url" (PStr ""))
  | None => set_citations paper (PInt 0) (PStr "")
  end.

(** Lines 233-255: the body of the loop for the paper at index [i] of
    [total]. The title for the progress line is read outside the [try]
    block. *)
Definition check_paper (total i : nat) (paper : loc) (o : outside) : M outside :=
  d ← read_dict paper;
  title ← lift (dict_getitem d "title");
  _ ← print (checking_line i total title);
  match look_up d o with
  | (Ok result, o1) =>
      _ ← write_citations paper result;
      mret (Outside (searches o1) (slept o1 + 2))
  | (Raise e, o1) =>
      _ ← print (error_line e);
      _ ← set_citations paper (PInt 0) (PStr "");
      mret o1
  end.

(** [for i, paper in enumerate(papers_to_check)], from index [i] on. *)
Fixpoint check_papers (total i : nat) (ps : list loc) (o : outside) : M outside :=
  match ps with
  | [] => mret o
  | p :: ps' => o1 ← check_paper total i p o; check_papers total (S i) ps' o1
  end.

(** Lines 218-257. The list that is returned is the one that was passed. *)
Definition get_citation_data (papers : loc) (max_papers : option Z)
    (o : outside) : M (loc * outside) :=
  papers_to_check ← list_slice papers 0 (default 20 max_papers);
  to_check ← read_list papers_to_check;
  o1 ← check_papers (length to_check) 0 to_check o;
  mret (papers, o1).

(** [x.get('citation_count', 0)], the sort key of line 346. *)
Definition citation_count (p : loc) : M pyval :=
  d ← read_dict p; mret (dict_get d "citation_count" (PInt 0)).

(** Lines 340-350 of [get_most_cited_papers]: what is done with the
    papers that the arXiv search has returned. *)
Definition cite_and_sort (papers : loc) (o : outside) : M (loc * outside) :=
  r ← get_citation_data papers None o;
  sorted_papers ← sorted r.1 citation_count true;
  mret (sorted_papers, r.2).

End Client.

(** The requests that a call has sent. *)
Inductive request := HEAD (url : string) | GET (url : string).

Section Pdf.
Context `{Web}.

(** Line 281. *)
Definition too_large_line (pdf_url mb : string) : string :=
  String.concat "" [
    "PDF from "; pdf_url; " is too large ("; mb; " MB), skipping download" ].

(** Line 289. *)
Definition download_error_line (pdf_url : string) (e : exn) : string :=
  String.concat "" ["Error downloading PDF from "; pdf_url; ": "; error_text e].

(** Lines 276-282: the line to print when the download is to be skipped.
    An empty header counts as no header. *)
Definition size_check (pdf_url : string) (content_length : option string)
    : result (option string) :=
  match content_length with
  | None | Some "" => Ok None
  | Some s =>
      file_size ← py_int s;
      if 20 * 1024 * 1024 <? file_size
      then mb ← megabytes file_size; Ok (Some (too_large_line pdf_url mb))
      else Ok None
  end.

(** Lines 288-290. *)
Definition on_exception (pdf_url : string) (e : exn) (sent : list request)
    : M (list Byte.byte * list request) :=
  _ ← print (download_error_line pdf_url e); mret ([], sent).

(** Lines 259-290: the content, and the requests sent. *)
Definition get_pdf_content (pdf_url : string) : M (list Byte.byte * list request) :=
  match http_head pdf_url with
  | Raise e => on_exception pdf_url e [HEAD pdf_url]
  | Ok content_length =>
      match size_check pdf_url content_length with
      | Raise e => on_exception pdf_url e [HEAD pdf_url]
      | Ok (Some line) => _ ← print line; mret ([], [HEAD pdf_url])
      | Ok None =>
          match http_get pdf_url with
          | Raise e => on_exception pdf_url e [HEAD pdf_url; GET pdf_url]
          | Ok content => mret (content, [HEAD pdf_url; GET pdf_url])
          end
      end
  end.

End Pdf.

End ArxivClient.

(** ** Further vocabulary *)

(** The kind of a value for [<]: numbers, strings and lists are ordered
    among themselves; a value of no kind is ordered with nothing, not even
    with itself. *)
Definition kind (v : pyval) : option nat :=
  match v with
  | PInt _ | PBool _ => Some 0%nat
  | PStr _ => Some 1%nat
  | PStrs _ => Some 2%nat
  | PNone | PDict _ | PResponse _ => None
  end.

(** The result of one scoring: the reply to request number [n] for a
    record with content [d], and what the recovery step makes of it. *)
Definition scoring `{Collaborators} (n : nat) (model : string) (d : pydict)
    (keywords : list string) (negative_keywords : option (list string))
    : result pyval :=
  r ← request_scoring n model d keywords negative_keywords;
  GeminiClient.parse_scoring_response r.

(** A paper record after the citation data [count] and [url] have been
    written to it. *)
Definition cited (count url : pyval) (d : pydict) : pydict :=
  <["citation_url" := url]> (<["citation_count" := count]> d).

(** The papers that [get_citation_data] checks. *)
Definition checked (ps : list loc) (max_papers : option Z) : list loc :=
  slice ps 0 (default 20 max_papers).

(** ** Further examples *)

Module Cases.

(** A paper with the score 5 and a paper whose [relevance_score] is [None]
    and whose [combined_score] is a string; the list of both at reference
    10 and the list of the second at reference 11. *)
Definition odd_shelf : store :=
  Store
    {[ 1%positive := Examples.combined 5;
       2%positive := {[ "relevance_score" := PNone;
                        "combined_score" := PStr "high" ]} ]}
    {[ 10%positive := [1; 2]%positive; 11%positive := [2]%positive ]}
    0 [].

(** [Examples.pair_shelf] with its two papers listed in the other order at
    reference 12. *)
Definition pair_shelf_swapped : store :=
  Store (dicts Examples.pair_shelf)
    (<[12%positive := [2; 1]%positive]> (lists Examples.pair_shelf))
    0 [].

(** A model whose replies have no text. *)
Definition silent : Collaborators := {|
  request_scoring _ _ _ _ _ := Ok (Response None);
  json_loads := Fake.json_loads_flat
|}.





(** A decoder that gives up on every text with an exception of its own. *)
Definition deep : Collaborators := {|
  request_scoring _ _ _ _ _ := Ok (Response (Some "{}"));
  json_loads _ := Raise (OtherError "RecursionError")
|}.

(** A paper as the arXiv search gives it, with or without a title. *)
Definition paper (title : option string) (authors : list string) : pydict :=
  match title with
  | Some t => {[ "title" := PStr t; "authors" := PStrs authors ]}
  | None => {[ "authors" := PStrs authors ]}
  end.

(** Three papers, the second without authors and the third without a
    title; at reference 10 the list of the first two, at reference 11 the
    list of all three. *)
Definition desk : store :=
  Store
    {[ 1%positive := paper (Some "Sorting") ["Ada"; "Bob"];
       2%positive := paper (Some "Searching") [];
       3%positive := paper None ["Cy"] ]}
    {[ 10%positive := [1; 2]%positive; 11%positive := [1; 2; 3]%positive ]}
    0 [].

(** Google Scholar finds a publication with 12 citations at the first
    search and refuses the second; later searches find nothing. *)
Definition library : Scholar := {|
  search_pubs n _ :=
    match n with
    | 0%nat => Ok (Some {[ "num_citations" := PInt 12;
                           "citedby_url" := PStr "/scholar?cites=1" ]})
    | 1%nat => Raise (OtherError "MaxTriesExceededException")
    | _ => Ok None
    end;
  repr _ := "<object>";
  exn_message _ := "Cannot Fetch from Google Scholar."
|}.

(** Google Scholar finds nothing. *)
Definition nothing : Scholar := {|
  search_pubs _ _ := Ok None;
  repr _ := "<object>";
  exn_message _ := "Cannot Fetch from Google Scholar."
|}.

(** The citation data of the paper behind [p]. *)
Definition citations_of (st : store) (p : loc) : list (option pyval) :=
  (λ k, dicts st !! p ≫= (.!! k)) <$> ["citation_count"; "citation_url"].

(** What a run of [get_citation_data] or [cite_and_sort] on [desk]
    leaves: the list returned, the citation data of the three papers, the
    searches and the seconds slept, and the lines printed. *)
Definition citation_outcome (r : result (loc * ArxivClient.outside * store)) :=
  match r with
  | Ok (out, o, st) =>
      Some (out, lists st !! out, citations_of st <$> [1; 2; 3]%positive,
            ArxivClient.searches o, ArxivClient.slept o, stdout st)
  | Raise _ => None
  end.

(** [int(s)] for a text of decimal digits. *)
Fixpoint decimal_from (acc : Z) (s : string) : result Z :=
  match s with
  | "" => Ok acc
  | String c s' =>
      match Fake.digit_of c with
      | Some d => decimal_from (10 * acc + d) s'
      | None => Raise ValueError
      end
  end.

(** A server with a file of 30 000 000 bytes, a file of exactly 20 MB,
    and nothing else. *)
Definition server : Web := {|
  http_head url :=
    if String.eqb url "https://arxiv.org/pdf/1" then Ok (Some "30000000")
    else if String.eqb url "https://arxiv.org/pdf/2" then Ok (Some "20971520")
    else Raise (OtherError "HTTPStatusError");
  http_get _ := Ok [Byte.x25; Byte.x50; Byte.x44; Byte.x46];
  py_int := decimal_from 0;
  megabytes n := Ok (pretty (n / (1024 * 1024)));
  error_text _ := "Client error"
|}.

End Cases.

(** * Properties *)

(** ** Stable sorting on integer keys *)

Lemma filter_none {A} (P : A → Prop) `{!∀ x, Decision (P x)} (l : list A) :
  Forall (λ a, ¬ P a) l → filter P l = [].
Proof.
  induction 1 as [|a l Ha _ IH]; [done|].
  by rewrite filter_cons_False.
Qed.

Section KeySortFacts.
Context {A : Type} (k : A → Z).

Lemma insert_by_perm x s : insert_by k x s ≡ₚ x :: s.
Proof.
  induction s as [|y s IH]; simpl; [done|].
  destruct (k x <? k y); [done|].
  rewrite IH. apply Permutation_swap.
Qed.

Lemma insert_by_sorted x s :
  StronglySorted (le_k k) s → StronglySorted (le_k k) (insert_by k x s).
Proof.
  induction s as [|y s IH]; simpl; intros Hs.
  - repeat constructor.
  - apply StronglySorted_cons in Hs as [Hy Hs].
    destruct (Z.ltb_spec (k x) (k y)) as [Hlt|Hge].
    + apply StronglySorted_cons. split; [|by apply StronglySorted_cons].
      constructor; [unfold le_k; lia|].
      eapply Forall_impl; [exact Hy|]. unfold le_k. intros; simpl in *; lia.
    + apply StronglySorted_cons. split; [|by apply IH].
      rewrite insert_by_perm. constructor; [exact Hge|exact Hy].
Qed.

(** Insertion puts the new element behind the elements with its key. *)
Lemma insert_by_filter x s (n : Z) :
  StronglySorted (le_k k) s →
  filter (λ a, k a = n) (insert_by k x s)
  = filter (λ a, k a = n) s ++ filter (λ a, k a = n) [x].
Proof.
  induction s as [|y s IH]; simpl; intros Hs.
  - done.
  - apply StronglySorted_cons in Hs as [Hy Hs].
    destruct (Z.ltb_spec (k x) (k y)) as [Hlt|Hge].
    + rewrite (filter_cons _ x (y :: s)), (filter_cons _ x []), filter_nil.
      destruct (decide (k x = n)) as [Hx|Hx]; [|by rewrite app_nil_r].
      assert (filter (λ a, k a = n) (y :: s) = []) as ->; [|done].
      apply filter_none. constructor; [lia|].
      eapply Forall_impl; [exact Hy|]. unfold le_k. intros; simpl in *; lia.
    + rewrite !(filter_cons _ y), IH by done.
      destruct (decide (k y = n)); done.
Qed.

Lemma sort_from_perm acc l : sort_from k acc l ≡ₚ acc ++ l.
Proof.
  revert acc. induction l as [|x l IH]; intros acc; simpl.
  - by rewrite app_nil_r.
  - rewrite IH, insert_by_perm. simpl. apply Permutation_middle.
Qed.

Lemma sort_from_sorted acc l :
  StronglySorted (le_k k) acc → StronglySorted (le_k k) (sort_from k acc l).
Proof.
  revert acc. induction l as [|x l IH]; intros acc Hacc; simpl; [done|].
  by apply IH, insert_by_sorted.
Qed.

Lemma sort_from_filter acc l (n : Z) :
  StronglySorted (le_k k) acc →
  filter (λ a, k a = n) (sort_from k acc l)
  = filter (λ a, k a = n) acc ++ filter (λ a, k a = n) l.
Proof.
  revert acc. induction l as [|x l IH]; intros acc Hacc; simpl.
  - by rewrite filter_nil, app_nil_r.
  - rewrite IH by by apply insert_by_sorted.
    rewrite insert_by_filter by done.
    change (x :: l) with ([x] ++ l).
    by rewrite filter_app, app_assoc.
Qed.

Lemma StronglySorted_reverse (R : relation A) l :
  StronglySorted R l → StronglySorted (flip R) (reverse l).
Proof.
  induction 1 as [|a l Hl IH Ha]; [constructor|].
  rewrite reverse_cons. apply StronglySorted_app. split_and!.
  - intros x1 x2 Hx1 ->%list_elem_of_singleton.
    rewrite elem_of_reverse in Hx1.
    rewrite Forall_forall in Ha. by apply Ha.
  - done.
  - repeat constructor.
Qed.

Lemma sort_desc_perm l : sort_desc k l ≡ₚ l.
Proof.
  unfold sort_desc.
  by rewrite reverse_Permutation, sort_from_perm, reverse_Permutation.
Qed.

Lemma sort_desc_sorted l : StronglySorted (ge_k k) (sort_desc k l).
Proof.
  unfold sort_desc.
  apply (StronglySorted_reverse (le_k k)), sort_from_sorted. constructor.
Qed.

Lemma sort_desc_stable l (n : Z) :
  filter (λ a, k a = n) (sort_desc k l) = filter (λ a, k a = n) l.
Proof.
  unfold sort_desc.
  rewrite filter_reverse, sort_from_filter by constructor.
  by rewrite filter_nil, app_nil_l, filter_reverse, reverse_involutive.
Qed.
End KeySortFacts.

(** ** From the sort on Python keys to the sort on integer keys *)

Section Refine.
Context {A : Type} (f : A → pyval) (k : A → Z).

Local Abbreviation keyed := (keyed f).
Local Abbreviation typed := (typed f k).

Lemma zip_keys l : zip (f <$> l) l = keyed <$> l.
Proof. induction l as [|a l IH]; [done|]. cbn. by f_equal. Qed.

Lemma insort_keyed x s :
  typed x → Forall typed s →
  insort (keyed x) (keyed <$> s) = Ok (keyed <$> insert_by k x s).
Proof.
  intros Hx. induction 1 as [|y s Hy Hs IH]; csimpl; [done|].
  unfold py_lt. rewrite Hx, Hy. csimpl.
  destruct (k x <? k y); [done|].
  by rewrite IH.
Qed.

Lemma insert_by_typed x s :
  typed x → Forall typed s → Forall typed (insert_by k x s).
Proof. intros Hx Hs. rewrite insert_by_perm. by constructor. Qed.

Lemma sort_into_keyed acc l :
  Forall typed acc → Forall typed l →
  sort_into (keyed <$> acc) (keyed <$> l) = Ok (keyed <$> sort_from k acc l).
Proof.
  intros Hacc Hl. revert acc Hacc.
  induction Hl as [|x l Hx Hl IH]; intros acc Hacc; csimpl; [done|].
  rewrite insort_keyed by done. csimpl.
  by apply IH, insert_by_typed.
Qed.

Lemma sort_keyed_desc l :
  Forall typed l →
  sort_keyed true (keyed <$> l) = Ok (keyed <$> sort_desc k l).
Proof.
  intros Hl. unfold sort_keyed, reverse_if, sort_desc.
  rewrite <-fmap_reverse.
  change (@nil (pyval * A)) with (keyed <$> []).
  rewrite (sort_into_keyed [] (reverse l)); [|constructor|by apply Forall_reverse].
  csimpl. by rewrite fmap_reverse.
Qed.

Lemma keyed_snd l : (keyed <$> l).*2 = l.
Proof. rewrite <-list_fmap_compose. apply list_fmap_id. Qed.
End Refine.

(** ** Running the store primitives *)

Lemma bind_ok {A B} (m : M A) (f : A → M B) st a st' :
  m st = Ok (a, st') → (m ≫= f) st = f a st'.
Proof. unfold mbind, M_bind. by intros ->. Qed.

Lemma bind_lift_ok {A B} (a : A) (f : A → M B) st :
  (lift (Ok a) ≫= f) st = f a st.
Proof. done. Qed.

Lemma read_list_ok st l xs :
  lists st !! l = Some xs → read_list l st = Ok (xs, st).
Proof. unfold read_list. by intros ->. Qed.

Lemma read_dict_ok st p d :
  dicts st !! p = Some d → read_dict p st = Ok (d, st).
Proof. unfold read_dict. by intros ->. Qed.

Lemma get_score_ok st key p :
  is_Some (dicts st !! p) →
  PaperRanker.get_score key p st = Ok (field st key p, st).
Proof.
  intros [d Hd]. unfold PaperRanker.get_score.
  rewrite (bind_ok _ _ _ _ _ (read_dict_ok _ _ _ Hd)).
  unfold field. by rewrite Hd.
Qed.

Lemma for_collect_get_score st key ps :
  Forall (λ p, is_Some (dicts st !! p)) ps →
  for_collect ps (PaperRanker.get_score key) st = Ok (field st key <$> ps, st).
Proof.
  induction 1 as [|p ps Hp _ IH]; simpl; [done|].
  rewrite (bind_ok _ _ _ _ _ (get_score_ok _ key _ Hp)).
  by rewrite (bind_ok _ _ _ _ _ IH).
Qed.

Lemma fresh_list st : lists st !! fresh (dom (lists st)) = None.
Proof. apply not_elem_of_dom, is_fresh. Qed.

Lemma with_list_new st xs :
  lists (with_list st xs) !! fresh (dom (lists st)) = Some xs.
Proof. unfold with_list; simpl. apply lookup_insert_eq. Qed.

Lemma with_list_old st xs l ys :
  lists st !! l = Some ys → lists (with_list st xs) !! l = Some ys.
Proof.
  intros Hl. unfold with_list; simpl. rewrite lookup_insert_ne; [done|].
  intros <-. by rewrite fresh_list in Hl.
Qed.

(** ** [rank_papers_by_scores] *)

Lemma scored_typed st key p :
  scored st key p → as_int (field st key p) = Some (score st key p).
Proof. intros [_ [z Hz]]. unfold score. by rewrite Hz. Qed.

Lemma rank_papers_by_scores_run self st papers ps :
  lists st !! papers = Some ps →
  Forall (scored st "combined_score") ps →
  PaperRanker.rank_papers_by_scores self papers st
  = Ok (fresh (dom (lists st)),
        with_list st (sort_desc (score st "combined_score") ps)).
Proof.
  intros Hps Hsc.
  unfold PaperRanker.rank_papers_by_scores, sorted.
  rewrite (bind_ok _ _ _ _ _ (read_list_ok _ _ _ Hps)).
  assert (Forall (λ p, is_Some (dicts st !! p)) ps) as Hbound.
  { eapply Forall_impl; [exact Hsc|]. by intros p [? _]. }
  rewrite (bind_ok _ _ _ _ _ (for_collect_get_score st _ ps Hbound)).
  rewrite zip_keys.
  rewrite (sort_keyed_desc _ (score st "combined_score")); last first.
  { eapply Forall_impl; [exact Hsc|]. intros p. apply scored_typed. }
  unfold mbind, M_bind, lift, alloc_list. by rewrite keyed_snd.
Qed.

(** C1. On a list of paper records, [rank_papers_by_scores] returns a list
    that is a permutation of the input, of the same length, in
    non-increasing order of [combined_score], where a record without the
    field counts as 0, and records with equal scores keep the order that
    they have in the input. *)
Theorem rank_papers_by_scores_sorted_stable self st papers ps :
  lists st !! papers = Some ps →
  Forall (scored st "combined_score") ps →
  ∃ out st' ranked,
    PaperRanker.rank_papers_by_scores self papers st = Ok (out, st') ∧
    lists st' !! out = Some ranked ∧
    ranked ≡ₚ ps ∧
    length ranked = length ps ∧
    StronglySorted
      (λ p q, score st "combined_score" q ≤ score st "combined_score" p)
      ranked ∧
    (∀ n : Z,
      filter (λ p, score st "combined_score" p = n) ranked
      = filter (λ p, score st "combined_score" p = n) ps) ∧
    (∀ p d, dicts st !! p = Some d → d !! "combined_score" = None →
      score st "combined_score" p = 0).
Proof.
  intros Hps Hsc.
  eexists _, _, _. split; [by apply rank_papers_by_scores_run|].
  split; [apply with_list_new|].
  split; [apply sort_desc_perm|].
  split; [by rewrite sort_desc_perm|].
  split; [apply sort_desc_sorted|].
  split; [apply sort_desc_stable|].
  intros p d Hd Hnone. unfold score, field, dict_get. by rewrite Hd; simpl; rewrite Hnone.
Qed.

(** C9. [rank_papers_by_scores] returns a list object that did not exist
    before the call; the caller's list holds the same records in the same
    order afterwards, and so does every other list; no paper record is
    changed. *)
Theorem rank_papers_by_scores_leaves_input self st papers ps :
  lists st !! papers = Some ps →
  Forall (scored st "combined_score") ps →
  ∃ out st',
    PaperRanker.rank_papers_by_scores self papers st = Ok (out, st') ∧
    lists st !! out = None ∧
    out ≠ papers ∧
    lists st' !! papers = Some ps ∧
    (∀ l xs, lists st !! l = Some xs → lists st' !! l = Some xs) ∧
    dicts st' = dicts st.
Proof.
  intros Hps Hsc.
  eexists _, _. split; [by apply rank_papers_by_scores_run|].
  split; [apply fresh_list|].
  split; [intros Heq; pose proof (fresh_list st) as Hf; by rewrite Heq, Hps in Hf|].
  split; [by apply with_list_old|].
  split; [intros l xs; apply with_list_old|done].
Qed.

(** ** [filter_by_minimum_score] *)

Lemma minimum_test m st p :
  scored st "combined_score" p →
  (v ← PaperRanker.get_score "combined_score" p; lift (py_ge v (PInt m))) st
  = Ok (bool_decide (m ≤ score st "combined_score" p), st).
Proof.
  intros Hp.
  rewrite (bind_ok _ _ _ _ _ (get_score_ok _ _ _ (proj1 Hp))).
  unfold lift, py_ge. rewrite (scored_typed _ _ _ Hp). cbn [as_int].
  do 2 f_equal.
  destruct (Z.geb_spec (score st "combined_score" p) m);
    [by rewrite bool_decide_eq_true_2 by lia
    |by rewrite bool_decide_eq_false_2 by lia].
Qed.

Lemma for_filter_minimum m st ps :
  Forall (scored st "combined_score") ps →
  for_filter ps (λ p,
    v ← PaperRanker.get_score "combined_score" p;
    lift (py_ge v (PInt m))) st
  = Ok (filter (λ p, m ≤ score st "combined_score" p) ps, st).
Proof.
  induction 1 as [|p ps Hp _ IH]; [done|].
  cbn [for_filter].
  rewrite (bind_ok _ _ _ _ _ (minimum_test m _ _ Hp)).
  rewrite (bind_ok _ _ _ _ _ IH).
  rewrite filter_cons. unfold mret, M_ret.
  case_bool_decide; case_decide; done.
Qed.

Lemma filter_by_minimum_score_run self st papers ps :
  lists st !! papers = Some ps →
  Forall (scored st "combined_score") ps →
  PaperRanker.filter_by_minimum_score self papers st
  = Ok (fresh (dom (lists st)),
        with_list st
          (filter (λ p, PaperRanker.min_combined_score self
                        ≤ score st "combined_score" p) ps)).
Proof.
  intros Hps Hsc. unfold PaperRanker.filter_by_minimum_score.
  rewrite (bind_ok _ _ _ _ _ (read_list_ok _ _ _ Hps)).
  by rewrite (bind_ok _ _ _ _ _ (for_filter_minimum _ _ _ Hsc)).
Qed.

(** C3. [filter_by_minimum_score] returns exactly the records whose
    [combined_score], 0 when the field is absent, is at least
    [min_combined_score], in the order that they have in the input. *)
Theorem filter_by_minimum_score_exact self st papers ps :
  lists st !! papers = Some ps →
  Forall (scored st "combined_score") ps →
  ∃ out st' kept,
    PaperRanker.filter_by_minimum_score self papers st = Ok (out, st') ∧
    lists st' !! out = Some kept ∧
    kept = filter (λ p, PaperRanker.min_combined_score self
                        ≤ score st "combined_score" p) ps ∧
    kept `sublist_of` ps ∧
    (∀ p, p ∈ kept ↔
          p ∈ ps ∧ PaperRanker.min_combined_score self
                   ≤ score st "combined_score" p) ∧
    (∀ p d, dicts st !! p = Some d → d !! "combined_score" = None →
      score st "combined_score" p = 0).
Proof.
  intros Hps Hsc.
  eexists _, _, _. split; [by apply filter_by_minimum_score_run|].
  split; [apply with_list_new|].
  split; [done|].
  split; [apply sublist_filter|].
  split; [intros p; rewrite list_elem_of_filter; tauto|].
  intros p d Hd Hnone. unfold score, field, dict_get. by rewrite Hd; simpl; rewrite Hnone.
Qed.

(** ** [select_top_papers] *)

Lemma slice_prefix {A} (xs : list A) (n : Z) :
  0 ≤ n → slice xs 0 n = take (Z.to_nat n) xs.
Proof.
  intros Hn. unfold slice, slice_index.
  replace (0 <? 0) with false by done.
  replace (n <? 0) with false by (symmetry; apply Z.ltb_ge; lia).
  replace (Z.to_nat (Z.of_nat (length xs) `min` 0)) with 0%nat by lia.
  rewrite drop_0.
  destruct (decide (Z.of_nat (length xs) ≤ n)).
  - rewrite !take_ge; [done|lia|lia].
  - f_equal. lia.
Qed.

(** [xs[:n]] for a negative [n] drops the last [-n] elements. *)
Lemma slice_negative {A} (xs : list A) (n : Z) :
  n < 0 → slice xs 0 n = take (length xs - Z.to_nat (- n)) xs.
Proof.
  intros Hn. unfold slice, slice_index.
  replace (0 <? 0) with false by done.
  replace (n <? 0) with true by (symmetry; apply Z.ltb_lt; lia).
  replace (Z.to_nat (Z.of_nat (length xs) `min` 0)) with 0%nat by lia.
  rewrite drop_0. f_equal. lia.
Qed.

Lemma list_slice_run st l xs start stop :
  lists st !! l = Some xs →
  list_slice l start stop st
  = Ok (fresh (dom (lists st)), with_list st (slice xs start stop)).
Proof.
  intros Hl. unfold list_slice.
  by rewrite (bind_ok _ _ _ _ _ (read_list_ok _ _ _ Hl)).
Qed.

(** C2, as the code has it. For a limit that is not negative (10 when
    none is given), [select_top_papers] returns the first [limit] records
    of the stable descending ranking of the records that pass the minimum
    score: the list that [rank_papers_by_scores] returns on the list that
    [filter_by_minimum_score] returns. With fewer than [limit] such
    records all of them are returned, and with limit 0 none. *)
Theorem select_top_papers_prefix self st papers ps (limit : option Z) :
  lists st !! papers = Some ps →
  Forall (scored st "combined_score") ps →
  0 ≤ default 10 limit →
  ∃ out st' filtered st1 ranked_papers st2 kept ranked top,
    PaperRanker.select_top_papers self papers limit st = Ok (out, st') ∧
    lists st' !! out = Some top ∧
    PaperRanker.filter_by_minimum_score self papers st = Ok (filtered, st1) ∧
    lists st1 !! filtered = Some kept ∧
    PaperRanker.rank_papers_by_scores self filtered st1
      = Ok (ranked_papers, st2) ∧
    lists st2 !! ranked_papers = Some ranked ∧
    kept = filter (λ p, PaperRanker.min_combined_score self
                        ≤ score st "combined_score" p) ps ∧
    ranked ≡ₚ kept ∧
    StronglySorted
      (λ p q, score st "combined_score" q ≤ score st "combined_score" p)
      ranked ∧
    (∀ n : Z,
      filter (λ p, score st "combined_score" p = n) ranked
      = filter (λ p, score st "combined_score" p = n) kept) ∧
    top = take (Z.to_nat (default 10 limit)) ranked ∧
    length top = Nat.min (Z.to_nat (default 10 limit)) (length kept) ∧
    (Z.of_nat (length kept) ≤ default 10 limit → top = ranked) ∧
    (default 10 limit = 0 → top = []).
Proof.
  intros Hps Hsc Hlim.
  set (kept := filter (λ p, PaperRanker.min_combined_score self
                            ≤ score st "combined_score" p) ps).
  set (st1 := with_list st kept).
  assert (Forall (scored st1 "combined_score") kept) as Hsc1.
  { apply Forall_forall. intros p [_ Hp]%list_elem_of_filter.
    rewrite Forall_forall in Hsc. by apply (Hsc p). }
  pose proof (filter_by_minimum_score_run self st papers ps Hps Hsc) as Hf.
  pose proof (rank_papers_by_scores_run self st1 _ kept
                (with_list_new st kept) Hsc1) as Hr.
  set (ranked := sort_desc (score st "combined_score") kept).
  change (sort_desc (score st1 "combined_score") kept) with ranked in Hr.
  set (st2 := with_list st1 ranked) in *.
  exists (fresh (dom (lists st2))),
         (with_list st2 (take (Z.to_nat (default 10 limit)) ranked)),
         (fresh (dom (lists st))), st1, (fresh (dom (lists st1))), st2,
         kept, ranked, (take (Z.to_nat (default 10 limit)) ranked).
  split.
  { unfold PaperRanker.select_top_papers.
    rewrite (bind_ok _ _ _ _ _ Hf), (bind_ok _ _ _ _ _ Hr).
    rewrite (list_slice_run _ _ _ _ _ (with_list_new st1 ranked)).
    by rewrite slice_prefix. }
  split; [apply with_list_new|].
  split; [exact Hf|].
  split; [apply with_list_new|].
  split; [exact Hr|].
  split; [apply with_list_new|].
  split; [done|].
  split; [apply sort_desc_perm|].
  split; [apply sort_desc_sorted|].
  split; [apply sort_desc_stable|].
  split; [done|].
  assert (length ranked = length kept) as Hlen
    by (unfold ranked; by rewrite sort_desc_perm).
  split; [rewrite length_take; lia|].
  split; [intros Hle; apply take_ge; lia|].
  by intros ->.
Qed.

(** C2 fails for a negative limit: with three records above the minimum
    and limit -1 the result holds two records, the ranking without its last
    one. *)
Lemma select_top_papers_negative_limit :
  ∃ out st',
    PaperRanker.select_top_papers (PaperRanker.Build 4) 10%positive (Some (-1))
      Examples.shelf = Ok (out, st') ∧
    -1 ≤ 0 ∧
    lists st' !! out = Some [3; 1]%positive ∧
    [3; 1]%positive ≠ @nil loc.
Proof. eexists _, _. split; [vm_compute; reflexivity|]. split; [lia|]. split; [by vm_compute|done]. Qed.

(** ** [get_selection_stats] *)

Lemma sum_scores_run st key ps (a : Z) :
  Forall (scored st key) ps →
  PaperRanker.sum_scores key (PInt a) ps st
  = Ok (PInt (a + score_sum st key ps), st).
Proof.
  intros Hps. revert a.
  induction Hps as [|p ps Hp _ IH]; intros a; cbn [PaperRanker.sum_scores score_sum foldr].
  - unfold mret, M_ret. do 3 f_equal. lia.
  - rewrite (bind_ok _ _ _ _ _ (get_score_ok _ key _ (proj1 Hp))).
    unfold py_add. rewrite (scored_typed _ _ _ Hp). cbn [as_int].
    rewrite bind_lift_ok, IH. do 3 f_equal. unfold score_sum. lia.
Qed.

Lemma py_eq_int_score st key p (n : Z) :
  n ≠ 0 →
  py_eq_int (field st key p) n = bool_decide (score st key p = n).
Proof.
  intros Hn. unfold py_eq_int, score.
  destruct (as_int (field st key p)) as [a|]; simpl.
  - destruct (Z.eqb_spec a n);
      [by rewrite bool_decide_eq_true_2|by rewrite bool_decide_eq_false_2].
  - rewrite bool_decide_eq_false_2; [done|]. intros Heq. by apply Hn.
Qed.

Lemma count_high_run st key ps (a : Z) :
  Forall (λ p, is_Some (dicts st !! p)) ps →
  PaperRanker.count_high key a ps st
  = Ok (a + score_count st key 3 ps, st).
Proof.
  intros Hps. revert a. unfold score_count.
  induction Hps as [|p ps Hp _ IH]; intros a; cbn [PaperRanker.count_high].
  - unfold mret, M_ret. do 2 f_equal. simpl. lia.
  - rewrite (bind_ok _ _ _ _ _ (get_score_ok _ key _ Hp)).
    rewrite IH, py_eq_int_score by done. do 2 f_equal.
    rewrite filter_cons.
    case_bool_decide; case_decide; try done; simpl length; lia.
Qed.

(** ** True division: the nearest double *)

Lemma round_half_even_near (num den : Z) :
  0 ≤ num → 0 < den →
  0 ≤ round_half_even num den ∧
  Z.abs (2 * (round_half_even num den * den - num)) ≤ den.
Proof.
  intros Hnum Hden. unfold round_half_even.
  pose proof (Z.div_mod num den ltac:(lia)) as Hdm.
  pose proof (Z.mod_pos_bound num den Hden) as Hr.
  pose proof (Z.div_pos num den Hnum Hden) as Hq.
  destruct (Z.ltb_spec (2 * (num mod den)) den);
    [|destruct (Z.ltb_spec den (2 * (num mod den)));
      [|destruct (Z.even (num / den))]]; nia.
Qed.

Lemma round_half_even_exact (k den : Z) :
  0 < den → round_half_even (k * den) den = k.
Proof.
  intros Hden. unfold round_half_even.
  rewrite Z.div_mul, Z.mod_mul by lia.
  by destruct (Z.ltb_spec (2 * 0) den); [|lia].
Qed.

(** [2 ^ binade a n <= a / n]. *)
Lemma binade_lower (a n : Z) :
  0 < a → 0 < n →
  n * 2 ^ Z.max 0 (binade a n) ≤ a * 2 ^ Z.max 0 (- binade a n).
Proof.
  intros Ha Hn. unfold binade, pow2_le.
  set (d := Z.log2 a - Z.log2 n).
  destruct (Z.leb_spec (n * 2 ^ Z.max 0 d) (a * 2 ^ Z.max 0 (- d)));
    [done|].
  destruct (Z.log2_spec a Ha) as [Hla _].
  destruct (Z.log2_spec n Hn) as [_ Hln].
  pose proof (Z.log2_nonneg a). pose proof (Z.log2_nonneg n).
  destruct (Z.le_gt_cases 1 d) as [Hd|Hd].
  - rewrite Z.max_r, Z.max_l by lia. rewrite Z.mul_1_r.
    assert (2 ^ Z.log2 a = 2 ^ Z.succ (Z.log2 n) * 2 ^ (d - 1)) as Hsplit.
    { rewrite <-Z.pow_add_r by lia. f_equal. lia. }
    assert (0 < 2 ^ (d - 1)) by (apply Z.pow_pos_nonneg; lia).
    nia.
  - rewrite Z.max_l, Z.max_r by lia. rewrite Z.mul_1_r.
    assert (2 ^ Z.succ (Z.log2 n) = 2 ^ Z.log2 a * 2 ^ (- (d - 1))) as Hsplit.
    { rewrite <-Z.pow_add_r by lia. f_equal. lia. }
    assert (0 < 2 ^ (- (d - 1))) by (apply Z.pow_pos_nonneg; lia).
    nia.
Qed.

Lemma nearest_double_fraction (a n : Z) :
  a ≠ 0 →
  (nearest_double a n
   == (Z.sgn a * Z.sgn n * mantissa (Z.abs a) (Z.abs n)
       * 2 ^ Z.max 0 (last_bit (Z.abs a) (Z.abs n)))
      # Z.to_pos (2 ^ Z.max 0 (- last_bit (Z.abs a) (Z.abs n))))%Q.
Proof.
  intros Ha. unfold nearest_double.
  destruct (Z.eqb_spec a 0) as [|_]; [done|].
  fold (last_bit (Z.abs a) (Z.abs n)). fold (mantissa (Z.abs a) (Z.abs n)).
  set (e := last_bit (Z.abs a) (Z.abs n)).
  destruct (Z.leb_spec 0 e).
  - rewrite (Z.max_l 0 (- e)), (Z.max_r 0 e) by lia. done.
  - rewrite (Z.max_r 0 (- e)), (Z.max_l 0 e) by lia.
    by rewrite Z.mul_1_r.
Qed.

Lemma quotient_fraction (a n : Z) :
  n ≠ 0 →
  (quotient a n == (Z.sgn n * a) # Z.to_pos (Z.abs n))%Q.
Proof.
  intros Hn. unfold quotient, Qdiv, Qinv, Qeq, inject_Z. simpl.
  destruct n as [|p|p]; [done|simpl; lia|simpl; lia].
Qed.

Lemma fraction_diff (x y : Z) (p n : positive) :
  (Qabs ((x # p) - (y # n)) == Z.abs (x * Z.pos n - y * Z.pos p) # (p * n))%Q.
Proof.
  unfold Qminus, Qplus, Qopp, Qabs, Qeq. simpl. f_equal. f_equal. lia.
Qed.

(** [2 ^ (last_bit a n + 52) <= a / n] above the doubles next to 0. *)
Lemma last_bit_lower (a n : Z) :
  0 < a → 0 < n → - 1074 ≤ binade a n - 52 →
  n * 2 ^ Z.max 0 (last_bit a n) * 2 ^ 52
  ≤ a * 2 ^ Z.max 0 (- last_bit a n).
Proof.
  intros Ha Hn Hnormal. pose proof (binade_lower a n Ha Hn) as Hlow.
  unfold last_bit. rewrite (Z.max_l (binade a n - 52) (- 1074)) by lia.
  set (d := binade a n) in *.
  destruct (Z.le_gt_cases 52 d); [|destruct (Z.le_gt_cases 0 d)].
  - rewrite (Z.max_r 0 (d - 52)), (Z.max_l 0 (- (d - 52))) by lia.
    rewrite (Z.max_r 0 d), (Z.max_l 0 (- d)) in Hlow by lia.
    rewrite <-Z.mul_assoc, <-Z.pow_add_r by lia.
    by replace (d - 52 + 52) with d by lia.
  - rewrite (Z.max_l 0 (d - 52)), (Z.max_r 0 (- (d - 52))) by lia.
    rewrite (Z.max_r 0 d), (Z.max_l 0 (- d)) in Hlow by lia.
    replace (2 ^ 52) with (2 ^ d * 2 ^ (- (d - 52)))
      by (rewrite <-Z.pow_add_r by lia; f_equal; lia).
    assert (0 < 2 ^ (- (d - 52))) by (apply Z.pow_pos_nonneg; lia).
    nia.
  - rewrite (Z.max_l 0 (d - 52)), (Z.max_r 0 (- (d - 52))) by lia.
    rewrite (Z.max_l 0 d), (Z.max_r 0 (- d)) in Hlow by lia.
    replace (2 ^ (- (d - 52))) with (2 ^ (- d) * 2 ^ 52)
      by (rewrite <-Z.pow_add_r by lia; f_equal; lia).
    assert (0 < 2 ^ 52) by done.
    nia.
Qed.

Lemma nearest_double_close (a n : Z) :
  n ≠ 0 → close (nearest_double a n) (quotient a n).
Proof.
  intros Hn. unfold close.
  destruct (decide (a = 0)) as [->|Ha].
  { left. rewrite quotient_fraction by done.
    unfold nearest_double. simpl. rewrite Z.mul_0_r. done. }
  rewrite nearest_double_fraction, quotient_fraction by done.
  set (a' := Z.abs a). set (n' := Z.abs n).
  assert (0 < a') as Ha' by (unfold a'; lia).
  assert (0 < n') as Hn' by (unfold n'; lia).
  set (e := last_bit a' n').
  set (m := mantissa a' n').
  set (up := 2 ^ Z.max 0 e). set (down := 2 ^ Z.max 0 (- e)).
  assert (0 < up) as Hup by (apply Z.pow_pos_nonneg; lia).
  assert (0 < down) as Hdown by (apply Z.pow_pos_nonneg; lia).
  destruct (round_half_even_near (a' * down) (n' * up)) as [Hm Hnear];
    [lia|lia|]. fold e in Hnear. change (round_half_even _ _) with m in Hm, Hnear.
  rewrite !fraction_diff.
  rewrite !Z2Pos.id by lia. fold n'.
  assert (Z.abs (Z.sgn a * Z.sgn n * m * up * n' - Z.sgn n * a * down)
          = Z.abs (m * (n' * up) - a' * down)) as ->.
  { unfold a', n'. destruct a, n; simpl; try done; lia. }
  assert (Z.abs (Z.sgn n * a) = a') as Hq.
  { unfold a'. destruct a, n; simpl; try done; lia. }
  unfold Qle, Qmult, Qabs, inject_Z. cbn [Qnum Qden].
  rewrite Hq, !Pos2Z.inj_mul, !Z2Pos.id by lia.
  destruct (Z.le_gt_cases (- 1074) (binade a' n' - 52)) as [Hnormal|Hsub].
  - left. pose proof (last_bit_lower a' n' Ha' Hn' Hnormal) as Hlow.
    fold e up down in Hlow.
    change (2 ^ 53) with (2 * 2 ^ 52). nia.
  - right. assert (e = - 1074) as He by (unfold e, last_bit; lia).
    assert (up = 1) as Hup1 by (unfold up; by rewrite He).
    assert (down = 2 ^ 1074) as Hdown1 by (unfold down; by rewrite He).
    rewrite Hup1, Z.mul_1_r in Hnear.
    change (2 ^ 1075) with (2 * 2 ^ 1074). rewrite Hdown1 in *. nia.
Qed.

Lemma nearest_double_exact (k n : Z) :
  n ≠ 0 → Z.abs k < 2 ^ 53 → (nearest_double (k * n) n == inject_Z k)%Q.
Proof.
  intros Hn Hk.
  destruct (decide (k = 0)) as [->|Hk0]; [done|].
  rewrite nearest_double_fraction by lia.
  set (a' := Z.abs (k * n)). set (n' := Z.abs n).
  assert (a' = Z.abs k * n') as Ha' by (unfold a', n'; apply Z.abs_mul).
  assert (0 < n') as Hn' by (unfold n'; lia).
  assert (0 < a') as Hpos by (unfold a'; lia).
  pose proof (binade_lower a' n' Hpos Hn') as Hlow.
  assert (binade a' n' ≤ 52) as Hd.
  { destruct (Z.le_gt_cases (binade a' n') 52) as [|Hbig]; [done|].
    rewrite (Z.max_r 0 (binade a' n')), (Z.max_l 0 (- binade a' n')) in Hlow
      by lia.
    pose proof (Z.pow_le_mono_r 2 53 (binade a' n') ltac:(lia) ltac:(lia)).
    nia. }
  assert (last_bit a' n' ≤ 0) as He by (unfold last_bit; lia).
  set (e := last_bit a' n') in *.
  set (down := 2 ^ Z.max 0 (- e)).
  assert (0 < down) as Hdown by (apply Z.pow_pos_nonneg; lia).
  assert (mantissa a' n' = Z.abs k * down) as ->.
  { unfold mantissa. fold e down. rewrite (Z.max_l 0 e) by lia.
    rewrite Z.mul_1_r, Ha'.
    replace (Z.abs k * n' * down) with (Z.abs k * down * n') by lia.
    by apply round_half_even_exact. }
  rewrite (Z.max_l 0 e) by lia.
  unfold Qeq, inject_Z. cbn [Qnum Qden]. rewrite Z2Pos.id by lia.
  destruct k, n; simpl; try done; lia.
Qed.

Lemma py_truediv_int (a n : Z) :
  n ≠ 0 → Z.abs a < float_limit * Z.abs n →
  py_truediv (PInt a) n = Ok (nearest_double a n).
Proof.
  intros Hn Ha. unfold py_truediv. simpl.
  destruct (Z.eqb_spec n 0); [done|].
  by destruct (Z.leb_spec (float_limit * Z.abs n) (Z.abs a)); [lia|].
Qed.

Lemma small_scored st key ps :
  Forall (small st key) ps → Forall (scored st key) ps.
Proof. intros Hps. eapply Forall_impl; [exact Hps|]. by intros p [? _]. Qed.

Lemma score_sum_small st key ps :
  Forall (small st key) ps →
  Z.abs (score_sum st key ps) ≤ Z.of_nat (length ps) * 2 ^ 1000.
Proof.
  induction 1 as [|p ps [_ Hp] _ IH]; [done|].
  cbn [score_sum foldr length]. fold (score_sum st key ps).
  set (B := 2 ^ 1000) in *. lia.
Qed.

Lemma average_small st key ps :
  ps ≠ [] → Forall (small st key) ps →
  Z.abs (score_sum st key ps) < float_limit * Z.abs (Z.of_nat (length ps)).
Proof.
  intros Hne Hps. pose proof (score_sum_small st key ps Hps) as Hsum.
  assert (2 ^ 1000 < float_limit) as Hlimit by done.
  assert (0 < Z.of_nat (length ps)) by (destruct ps; [done|simpl; lia]).
  set (B := 2 ^ 1000) in *. nia.
Qed.

(** C4. On a list of records with small integer scores that is not empty,
    [get_selection_stats] returns the number of records, the three
    averages as the sum of the field over all records (0 for a record
    without the field) divided by the number of records, and the numbers
    of records whose [relevance_score] and whose [significance_score] is
    exactly 3. The division is Python's true division: an average is the
    double nearest to the exact quotient. It is the quotient itself where
    that is an integer below [2 ^ 53], and it is within the relative error
    [2 ^ -53] of the quotient (next to 0, within [2 ^ -1075]) always. *)
Theorem get_selection_stats_nonempty self st papers ps :
  lists st !! papers = Some ps →
  ps ≠ [] →
  Forall (small st "relevance_score") ps →
  Forall (small st "significance_score") ps →
  Forall (small st "combined_score") ps →
  PaperRanker.get_selection_stats self papers st
  = Ok (PaperRanker.Stats
          (Z.of_nat (length ps))
          (nearest_double (score_sum st "relevance_score" ps) (Z.of_nat (length ps)))
          (nearest_double (score_sum st "significance_score" ps) (Z.of_nat (length ps)))
          (nearest_double (score_sum st "combined_score" ps) (Z.of_nat (length ps)))
          (score_count st "relevance_score" 3 ps)
          (score_count st "significance_score" 3 ps),
        st)
  ∧ (∀ key p d, dicts st !! p = Some d → d !! key = None → score st key p = 0)
  ∧ (∀ key,
      close (nearest_double (score_sum st key ps) (Z.of_nat (length ps)))
            (quotient (score_sum st key ps) (Z.of_nat (length ps))))
  ∧ (∀ key (k : Z),
      score_sum st key ps = k * Z.of_nat (length ps) → Z.abs k < 2 ^ 53 →
      (nearest_double (score_sum st key ps) (Z.of_nat (length ps))
       == inject_Z k)%Q).
Proof.
  intros Hps Hne Hrel Hsig Hcomb.
  assert (Z.of_nat (length ps) ≠ 0) as Hcount by (destruct ps; [done|simpl; lia]).
  split; last first.
  { split; [|split].
    - intros key p d Hd Hnone. unfold score, field, dict_get.
      by rewrite Hd; simpl; rewrite Hnone.
    - intros key. by apply nearest_double_close.
    - intros key k -> Hk. by apply nearest_double_exact. }
  unfold PaperRanker.get_selection_stats.
  rewrite (bind_ok _ _ _ _ _ (read_list_ok _ _ _ Hps)).
  pose proof (average_small _ _ _ Hne Hrel) as Hrel'.
  pose proof (average_small _ _ _ Hne Hsig) as Hsig'.
  pose proof (average_small _ _ _ Hne Hcomb) as Hcomb'.
  apply small_scored in Hrel, Hsig, Hcomb.
  destruct ps as [|p ps']; [done|].
  set (ps := p :: ps') in *.
  assert (Z.of_nat (length ps) ≠ 0) as Hlen by (simpl; lia).
  assert (Forall (λ p, is_Some (dicts st !! p)) ps) as Hbound.
  { eapply Forall_impl; [exact Hrel|]. by intros q [? _]. }
  rewrite (bind_ok _ _ _ _ _ (sum_scores_run _ _ _ 0 Hrel)).
  rewrite Z.add_0_l, py_truediv_int, bind_lift_ok by done.
  rewrite (bind_ok _ _ _ _ _ (sum_scores_run _ _ _ 0 Hsig)).
  rewrite Z.add_0_l, py_truediv_int, bind_lift_ok by done.
  rewrite (bind_ok _ _ _ _ _ (sum_scores_run _ _ _ 0 Hcomb)).
  rewrite Z.add_0_l, py_truediv_int, bind_lift_ok by done.
  rewrite (bind_ok _ _ _ _ _ (count_high_run _ "relevance_score" _ 0 Hbound)).
  rewrite (bind_ok _ _ _ _ _ (count_high_run _ "significance_score" _ 0 Hbound)).
  by rewrite !Z.add_0_l.
Qed.

(** C5. On the empty list [get_selection_stats] returns the record whose
    six fields are 0. It returns without dividing: a division by a count
    of 0 raises [ZeroDivisionError]. *)
Theorem get_selection_stats_empty self st papers :
  lists st !! papers = Some [] →
  PaperRanker.get_selection_stats self papers st
  = Ok (PaperRanker.Stats 0 0 0 0 0 0, st)
  ∧ (∀ v a, as_int v = Some a → py_truediv v 0 = Raise ZeroDivisionError).
Proof.
  intros Hps. split.
  - unfold PaperRanker.get_selection_stats.
    by rewrite (bind_ok _ _ _ _ _ (read_list_ok _ _ _ Hps)).
  - intros v a Hv. unfold py_truediv. by rewrite Hv.
Qed.

(** ** The search for the brace span *)

Local Arguments String.append !_ _ / : simpl nomatch.

Lemma occurs_append c a b : occurs c (a +:+ b) = occurs c a || occurs c b.
Proof.
  induction a as [|x a IH]; simpl; [done|].
  by rewrite IH, orb_assoc.
Qed.

Lemma occurs_braced mid : occurs rbrace (braced mid) = true.
Proof.
  unfold braced. cbn [occurs].
  rewrite occurs_append. cbn [occurs].
  rewrite Ascii.eqb_refl. by rewrite !orb_true_r.
Qed.

Lemma match_rest_none s : match_rest s = None → occurs rbrace s = false.
Proof.
  induction s as [|x s IH]; simpl; [done|].
  destruct (match_rest s); [done|].
  destruct (Ascii.eqb x rbrace); [done|]. intros _. by apply IH.
Qed.

Lemma match_rest_some s m :
  match_rest s = Some m →
  ∃ mid post,
    m = mid +:+ String rbrace "" ∧ s = m +:+ post ∧ occurs rbrace post = false.
Proof.
  revert m. induction s as [|x s IH]; intros m; simpl; [done|].
  destruct (match_rest s) as [m'|] eqn:Hs.
  - intros [= <-]. destruct (IH m' eq_refl) as (mid & post & -> & Hs' & Hpost).
    exists (String x mid), post. simpl. by rewrite <-Hs'.
  - destruct (Ascii.eqb_spec x rbrace) as [->|]; [|done].
    intros [= <-]. exists "", s. split_and!; [done|done|].
    by apply match_rest_none.
Qed.

(** A match starts at the first opening brace and ends at the last
    closing brace of the text. *)
Lemma re_search_some t m :
  re_search t = Some m →
  ∃ pre mid post,
    t = pre +:+ braced mid +:+ post ∧ m = braced mid ∧
    occurs lbrace pre = false ∧ occurs rbrace post = false.
Proof.
  revert m. induction t as [|x t IH]; intros m; [done|].
  cbn [re_search match_here].
  destruct (Ascii.eqb_spec x lbrace) as [->|Hx].
  - destruct (match_rest t) as [m'|] eqn:Ht; cbn [fmap option_fmap option_map].
    + intros [= <-].
      destruct (match_rest_some _ _ Ht) as (mid & post & -> & Ht' & Hpost).
      exists "", mid, post. split_and!; try done.
      simpl. unfold braced. simpl. by rewrite <-Ht'.
    + intros Hm. destruct (IH m Hm) as (pre & mid & post & -> & _ & _ & _).
      apply match_rest_none in Ht.
      rewrite !occurs_append, occurs_braced in Ht. simpl in Ht.
      by rewrite orb_true_r in Ht.
  - intros Hm. destruct (IH m Hm) as (pre & mid & post & -> & -> & Hpre & Hpost).
    exists (String x pre), mid, post. split_and!; try done.
    simpl. rewrite Hpre. by destruct (Ascii.eqb_spec x lbrace).
Qed.

(** A text with an opening brace before a closing brace has a match. *)
Lemma re_search_is_some t : has_brace_span t → is_Some (re_search t).
Proof.
  intros (a & b & c & ->).
  induction a as [|x a IH].
  - simpl.
    destruct (match_rest ((b +:+ String rbrace "") +:+ c)) as [m|] eqn:Hm;
      [by eexists|].
    apply match_rest_none in Hm. rewrite !occurs_append in Hm. simpl in Hm.
    by rewrite orb_true_r in Hm.
  - change (String x a +:+ braced b +:+ c)
      with (String x (a +:+ braced b +:+ c)).
    cbn [re_search]. by destruct (match_here _); [eexists|].
Qed.

(** A text without such a pair of braces has no match. *)
Lemma re_search_none t : ¬ has_brace_span t → re_search t = None.
Proof.
  intros Hno. destruct (re_search t) as [m|] eqn:Hm; [|done].
  destruct (re_search_some _ _ Hm) as (pre & mid & post & Ht & _).
  destruct Hno. by exists pre, mid, post.
Qed.




(** ** [score_paper_relevance] *)

Section Scoring.
Context `{Collaborators}.
Import GeminiClient.

Lemma score_paper_relevance_run self paper kw neg st r st1 :
  generate_content self paper kw neg st = Ok (r, st1) →
  score_paper_relevance self paper kw neg st
  = lift (parse_scoring_response r) st1.
Proof. intros Hr. unfold score_paper_relevance. by rewrite (bind_ok _ _ _ _ _ Hr). Qed.

(** C6. When the reply text has an opening brace that a closing brace
    follows, the recovery step takes the span from the first opening
    brace to the last closing brace of the text, whatever stands before
    and after it, and when that span decodes as JSON the decoded value is
    the result. *)
Theorem score_paper_relevance_greedy_span self paper kw neg st r st1 t :
  generate_content self paper kw neg st = Ok (r, st1) →
  text r = Some t →
  has_brace_span t →
  ∃ pre mid post,
    t = pre +:+ braced mid +:+ post ∧
    occurs lbrace pre = false ∧
    occurs rbrace post = false ∧
    re_search t = Some (braced mid) ∧
    ∀ result,
      json_loads (braced mid) = Ok result →
      parse_scoring_response r = Ok result ∧
      score_paper_relevance self paper kw neg st = Ok (result, st1).
Proof.
  intros Hr Ht Hspan.
  destruct (re_search_is_some t Hspan) as [m Hm].
  destruct (re_search_some t m Hm) as (pre & mid & post & Hdec & -> & Hpre & Hpost).
  exists pre, mid, post. split_and!; try done.
  intros result Hres.
  assert (parse_scoring_response r = Ok result) as Hparse.
  { unfold parse_scoring_response. by rewrite Ht, Hm, Hres. }
  split; [done|].
  by rewrite (score_paper_relevance_run _ _ _ _ _ _ _ Hr), Hparse.
Qed.

(** C7. When the reply text has no opening brace with a closing brace
    after it, the result is the failure dict: it holds the reply object,
    and so the raw text, under [raw_response], has no score entry, is not
    the degraded result, and differs from every dict that holds no reply
    object, as every decoded dict does. *)
Theorem score_paper_relevance_no_span self paper kw neg st r st1 t :
  generate_content self paper kw neg st = Ok (r, st1) →
  text r = Some t →
  ¬ has_brace_span t →
  ∃ failure : pydict,
    score_paper_relevance self paper kw neg st = Ok (PDict failure, st1) ∧
    failure = scoring_failure r ∧
    failure !! "error" = Some (PStr "No valid JSON found in scoring") ∧
    failure !! "raw_response" = Some (PResponse r) ∧
    text r = Some t ∧
    failure !! "relevance_score" = None ∧
    failure !! "significance_score" = None ∧
    failure !! "combined_score" = None ∧
    failure ≠ degraded_scores ∧
    ∀ d : pydict, (∀ k r', d !! k ≠ Some (PResponse r')) → failure ≠ d.
Proof.
  intros Hr Ht Hno. eexists. split.
  { rewrite (score_paper_relevance_run _ _ _ _ _ _ _ Hr).
    unfold parse_scoring_response.
    by rewrite Ht, (re_search_none _ Hno). }
  split; [done|]. split; [done|]. split; [done|]. split; [done|].
  split; [done|]. split; [done|]. split; [done|].
  split.
  - intros Heq.
    apply (f_equal (λ d : pydict, d !! "error")) in Heq. by vm_compute in Heq.
  - intros d Hd Heq. apply (Hd "raw_response" r). by rewrite <-Heq.
Qed.

End Scoring.


Lemma slice_window {A} (xs : list A) (j : nat) (b : Z) :
  0 < b →
  slice xs (Z.of_nat j) (Z.of_nat j + b) = take (Z.to_nat b) (drop j xs).
Proof.
  intros Hb. unfold slice, slice_index.
  replace (Z.of_nat j <? 0) with false by (symmetry; apply Z.ltb_ge; lia).
  replace (Z.of_nat j + b <? 0) with false by (symmetry; apply Z.ltb_ge; lia).
  rewrite take_drop_commute.
  destruct (decide (j ≤ length xs)%nat) as [Hj|Hj].
  - replace (Z.to_nat (Z.of_nat (length xs) `min` Z.of_nat j)) with j by lia.
    f_equal.
    destruct (decide (j + Z.to_nat b ≤ length xs)%nat).
    + f_equal. lia.
    + rewrite !take_ge; [done|lia|lia].
  - rewrite !drop_ge; [done|rewrite length_take; lia|rewrite length_take; lia].
Qed.

(** ** [batch_score_papers] *)



Section AttachAll.
Context (scores : nat → pydict).

Lemma attach_all_app i xs ys m :
  attach_all scores i (xs ++ ys) m
  = attach_all scores (i + length xs) ys (attach_all scores i xs m).
Proof.
  revert i m. induction xs as [|x xs IH]; intros i m; simpl.
  - by rewrite Nat.add_0_r.
  - rewrite IH. f_equal. lia.
Qed.


Lemma attach_all_is_Some i xs m p :
  is_Some (attach_all scores i xs m !! p) ↔ is_Some (m !! p).
Proof.
  revert i m. induction xs as [|x xs IH]; intros i m; simpl; [done|].
  rewrite IH. rewrite lookup_alter. case_decide; [|done].
  subst. by rewrite fmap_is_Some.
Qed.


End AttachAll.

Lemma alter_as_insert {A} (f : A → A) (m : gmap loc A) p d :
  m !! p = Some d → alter f p m = <[p := f d]> m.
Proof.
  intros Hp. apply map_eq. intros q.
  rewrite lookup_alter, lookup_insert. case_decide; [|done].
  subst. by rewrite Hp.
Qed.

Lemma dict_setitem_ok st p d k v :
  dicts st !! p = Some d →
  dict_setitem p k v st = Ok (tt, set_dicts <[p := <[k := v]> d]> st).
Proof. unfold dict_setitem. by intros ->. Qed.

Lemma list_append_ok st l xs x :
  lists st !! l = Some xs →
  list_append l x st = Ok (tt, set_lists <[l := xs ++ [x]]> st).
Proof. unfold list_append. by intros ->. Qed.

Section BatchRun.
Context `{Collaborators}.
Import GeminiClient.
Context (self : GeminiClient.t) (kw : list string) (neg : option (list string)).
Context (scores : nat → pydict) (c0 n : nat).

(** Every request of the run is answered, and the answer is recovered
    as the dict [scores i] for the request at position [i]. *)
Hypothesis replies :
  ∀ (i : nat) d, (i < n)%nat →
    ∃ r, request_scoring (c0 + i) (model_name self) d kw neg = Ok r ∧
         parse_scoring_response r = Ok (PDict (scores i)).

Lemma score_one_run out p i st d acc :
  dicts st !! p = Some d →
  lists st !! out = Some acc →
  llm_calls st = (c0 + i)%nat →
  (i < n)%nat →
  ∃ st',
    score_one self out kw neg p st = Ok (tt, st') ∧
    dicts st' = alter (attach (scores i)) p (dicts st) ∧
    lists st' = <[out := acc ++ [p]]> (lists st) ∧
    llm_calls st' = S (llm_calls st).
Proof.
  intros Hd Hout Hcalls Hi.
  destruct (replies i d Hi) as (r & Hreq & Hparse).
  set (st1 := Store (dicts st) (lists st) (S (llm_calls st)) (stdout st)).
  assert (score_paper_relevance self p kw neg st
          = Ok (PDict (scores i), st1)) as Hscore.
  { unfold score_paper_relevance.
    rewrite (bind_ok _ _ _ r st1).
    - by rewrite Hparse.
    - unfold generate_content. rewrite <-Hcalls in Hreq. by rewrite Hd, Hreq. }
  unfold score_one. rewrite (bind_ok _ _ _ _ _ Hscore).
  cbn [py_get]. rewrite bind_lift_ok.
  rewrite (bind_ok _ _ _ _ _ (dict_setitem_ok st1 p d _ _ Hd)).
  rewrite bind_lift_ok.
  match goal with |- context [dict_setitem p _ _ ≫= _] =>
    erewrite (bind_ok _ _ _ _ _ (dict_setitem_ok _ p _ _ _ (lookup_insert_eq _ _ _)))
  end.
  rewrite bind_lift_ok.
  match goal with |- context [dict_setitem p _ _ ≫= _] =>
    erewrite (bind_ok _ _ _ _ _ (dict_setitem_ok _ p _ _ _ (lookup_insert_eq _ _ _)))
  end.
  rewrite (list_append_ok _ _ acc) by exact Hout.
  eexists. split; [reflexivity|]. simpl.
  split; [|done].
  by rewrite !insert_insert_eq, (alter_as_insert (attach (scores i)) _ p d Hd).
Qed.

Lemma score_each_run out xs : ∀ i st acc,
  (∀ p, p ∈ xs → is_Some (dicts st !! p)) →
  lists st !! out = Some acc →
  llm_calls st = (c0 + i)%nat →
  (i + length xs ≤ n)%nat →
  ∃ st',
    for_each xs (score_one self out kw neg) st = Ok (tt, st') ∧
    dicts st' = attach_all scores i xs (dicts st) ∧
    lists st' = <[out := acc ++ xs]> (lists st) ∧
    llm_calls st' = (llm_calls st + length xs)%nat.
Proof.
  induction xs as [|p xs IH]; intros i st acc Hbound Hout Hcalls Hn.
  - exists st. split; [done|]. split; [done|].
    split; [|simpl; lia].
    by rewrite app_nil_r, insert_id.
  - destruct (Hbound p) as [d Hd]; [by left|].
    destruct (score_one_run out p i st d acc Hd Hout Hcalls)
      as (st1 & Hrun & Hdicts & Hlists & Hcalls1); [simpl in Hn; lia|].
    destruct (IH (S i) st1 (acc ++ [p])) as (st' & Hrun' & Hd' & Hl' & Hc').
    + intros q Hq. rewrite Hdicts, lookup_alter.
      case_decide; [subst; rewrite Hd; by eexists|].
      apply Hbound. by right.
    + rewrite Hlists. apply lookup_insert_eq.
    + rewrite Hcalls1, Hcalls. lia.
    + simpl in Hn. lia.
    + exists st'. cbn [for_each].
      rewrite (bind_ok _ _ _ _ _ Hrun). split; [done|].
      split; [by rewrite Hd', Hdicts|].
      split; [|rewrite Hc', Hcalls1; simpl; lia].
      by rewrite Hl', Hlists, insert_insert_eq, <-app_assoc.
Qed.

Context (papers out : loc) (ps : list loc).
Hypothesis length_ps : n = length ps.
Hypothesis out_papers : out ≠ papers.
Hypothesis batch_size_pos : 0 < batch_size self.

Local Abbreviation bn := (Z.to_nat (batch_size self)).
Local Abbreviation round := (score_batch self papers out kw neg).

Lemma round_run (j : nat) st acc :
  lists st !! papers = Some ps →
  lists st !! out = Some acc →
  (∀ p, p ∈ ps → is_Some (dicts st !! p)) →
  llm_calls st = (c0 + j `min` n)%nat →
  ∃ st',
    round (Z.of_nat j) st = Ok (tt, st') ∧
    lists st' !! papers = Some ps ∧
    lists st' !! out = Some (acc ++ take bn (drop j ps)) ∧
    dicts st' = attach_all scores j (take bn (drop j ps)) (dicts st) ∧
    llm_calls st' = (c0 + (j + bn) `min` n)%nat.
Proof.
  intros Hps Hout Hbound Hcalls.
  set (w := take bn (drop j ps)).
  assert (length w = ((j + bn) `min` n - j `min` n)%nat) as Hw.
  { unfold w. rewrite length_take, length_drop. lia. }
  set (st1 := with_list st w).
  set (st2 := Store (dicts st1) (lists st1) (llm_calls st1)
                (stdout st1 ++ [progress_line self (Z.of_nat j) (length ps) (length w)])).
  destruct (score_each_run out w (j `min` n)%nat st2 acc)
    as (st' & Hrun & Hd' & Hl' & Hc').
  { intros p Hp. apply Hbound. unfold w in Hp.
    by apply (subseteq_drop j ps), (subseteq_take bn). }
  { by apply with_list_old. }
  { exact Hcalls. }
  { lia. }
  exists st'. split_and!.
  - unfold score_batch.
    rewrite (bind_ok _ _ _ _ _ (list_slice_run _ _ _ _ _ Hps)).
    rewrite slice_window by done. fold w st1.
    rewrite (bind_ok _ _ _ _ _ (read_list_ok _ _ _ (with_list_new st w))).
    rewrite (bind_ok _ _ _ _ _ (read_list_ok _ _ _ (with_list_old st w _ _ Hps))).
    exact Hrun.
  - rewrite Hl', lookup_insert_ne by done. by apply with_list_old.
  - rewrite Hl'. apply lookup_insert_eq.
  - rewrite Hd'. simpl.
    destruct (decide (j ≤ n)%nat); [by rewrite Nat.min_l by done|].
    assert (w = []) as -> by (apply nil_length_inv; lia). done.
  - rewrite Hc'. change (llm_calls st2) with (llm_calls st). lia.
Qed.

Lemma rounds_run (c : nat) : ∀ (j : nat) st acc,
  lists st !! papers = Some ps →
  lists st !! out = Some acc →
  (∀ p, p ∈ ps → is_Some (dicts st !! p)) →
  llm_calls st = (c0 + j `min` n)%nat →
  ∃ st',
    for_each (range_from (Z.of_nat j) (batch_size self) c) round st
      = Ok (tt, st') ∧
    lists st' !! papers = Some ps ∧
    lists st' !! out = Some (acc ++ take (c * bn) (drop j ps)) ∧
    dicts st' = attach_all scores j (take (c * bn) (drop j ps)) (dicts st) ∧
    llm_calls st' = (c0 + (j + c * bn) `min` n)%nat.
Proof.
  induction c as [|c IH]; intros j st acc Hps Hout Hbound Hcalls.
  - exists st. split_and!; try done.
    + by rewrite take_0, app_nil_r.
    + rewrite Hcalls. f_equal. lia.
  - destruct (round_run j st acc Hps Hout Hbound Hcalls)
      as (st1 & Hrun & Hps1 & Hout1 & Hd1 & Hc1).
    destruct (IH (j + bn)%nat st1 (acc ++ take bn (drop j ps)))
      as (st' & Hrun' & Hps' & Hout' & Hd' & Hc'); try done.
    { intros p Hp. rewrite Hd1. apply attach_all_is_Some. by apply Hbound. }
    assert (take (S c * bn) (drop j ps)
            = take bn (drop j ps) ++ take (c * bn) (drop (j + bn) ps)) as Hsplit.
    { rewrite <-drop_drop, take_take_drop. f_equal. }
    exists st'. split_and!.
    + cbn [range_from for_each]. rewrite (bind_ok _ _ _ _ _ Hrun).
      replace (Z.of_nat j + batch_size self) with (Z.of_nat (j + bn)) by lia.
      exact Hrun'.
    + done.
    + by rewrite Hout', Hsplit, app_assoc.
    + rewrite Hd', Hd1, Hsplit, attach_all_app.
      destruct (decide (length (take bn (drop j ps)) = bn)) as [->|Hshort]; [done|].
      assert (drop (j + bn) ps = []) as ->; [|by rewrite take_nil].
      apply drop_ge. rewrite length_take, length_drop in Hshort. lia.
    + rewrite Hc'. f_equal. lia.
Qed.
End BatchRun.

Lemma range_len_covers (n : nat) (b : Z) :
  0 < b → (n ≤ range_len 0 (Z.of_nat n) b * Z.to_nat b)%nat.
Proof.
  intros Hb. unfold range_len.
  replace (0 <? b) with true by (symmetry; apply Z.ltb_lt; lia).
  destruct (Z.ltb_spec 0 (Z.of_nat n)) as [Hn|Hn]; [|lia].
  pose proof (Z.div_mod (Z.of_nat n - 0 - 1) b ltac:(lia)) as Hdiv.
  pose proof (Z.mod_pos_bound (Z.of_nat n - 0 - 1) b Hb) as Hmod.
  pose proof (Z.div_pos (Z.of_nat n - 0 - 1) b ltac:(lia) Hb) as Hq.
  apply Nat2Z.inj_le. rewrite Nat2Z.inj_mul, !Z2Nat.id by lia. nia.
Qed.


(** ** The theorems at concrete inputs *)

Lemma shelf_scored :
  Forall (scored Examples.shelf "combined_score") [1; 2; 3; 4]%positive.
Proof. repeat constructor; by eexists. Defined.

Lemma rank_papers_by_scores_sorted_stable_witness :
  lists Examples.shelf !! 10%positive = Some [1; 2; 3; 4]%positive ∧
  Forall (scored Examples.shelf "combined_score") [1; 2; 3; 4]%positive ∧
  ∃ out st' ranked,
    PaperRanker.rank_papers_by_scores (PaperRanker.Build 4) 10%positive
      Examples.shelf = Ok (out, st') ∧
    lists st' !! out = Some ranked ∧
    ranked ≡ₚ [1; 2; 3; 4]%positive.
Proof.
  split; [reflexivity|]. split; [exact shelf_scored|].
  destruct (rank_papers_by_scores_sorted_stable (PaperRanker.Build 4)
              Examples.shelf 10%positive [1; 2; 3; 4]%positive
              eq_refl shelf_scored)
    as (out & st' & ranked & Hrun & Hout & Hperm & _).
  by exists out, st', ranked.
Defined.

Lemma rank_papers_by_scores_leaves_input_witness :
  lists Examples.shelf !! 10%positive = Some [1; 2; 3; 4]%positive ∧
  Forall (scored Examples.shelf "combined_score") [1; 2; 3; 4]%positive ∧
  ∃ out st',
    PaperRanker.rank_papers_by_scores (PaperRanker.Build 4) 10%positive
      Examples.shelf = Ok (out, st') ∧
    out ≠ 10%positive ∧
    lists st' !! 10%positive = Some [1; 2; 3; 4]%positive.
Proof.
  split; [reflexivity|]. split; [exact shelf_scored|].
  destruct (rank_papers_by_scores_leaves_input (PaperRanker.Build 4)
              Examples.shelf 10%positive [1; 2; 3; 4]%positive
              eq_refl shelf_scored)
    as (out & st' & Hrun & _ & Hne & Hin & _).
  by exists out, st'.
Defined.

Lemma filter_by_minimum_score_exact_witness :
  lists Examples.shelf !! 10%positive = Some [1; 2; 3; 4]%positive ∧
  Forall (scored Examples.shelf "combined_score") [1; 2; 3; 4]%positive ∧
  ∃ out st' kept,
    PaperRanker.filter_by_minimum_score (PaperRanker.Build 6) 10%positive
      Examples.shelf = Ok (out, st') ∧
    lists st' !! out = Some kept ∧
    kept `sublist_of` [1; 2; 3; 4]%positive.
Proof.
  split; [reflexivity|]. split; [exact shelf_scored|].
  destruct (filter_by_minimum_score_exact (PaperRanker.Build 6)
              Examples.shelf 10%positive [1; 2; 3; 4]%positive
              eq_refl shelf_scored)
    as (out & st' & kept & Hrun & Hout & _ & Hsub & _).
  by exists out, st', kept.
Defined.

Lemma select_top_papers_prefix_witness :
  lists Examples.shelf !! 10%positive = Some [1; 2; 3; 4]%positive ∧
  Forall (scored Examples.shelf "combined_score") [1; 2; 3; 4]%positive ∧
  0 ≤ default 10 (Some 2) ∧
  ∃ out st' top,
    PaperRanker.select_top_papers (PaperRanker.Build 4) 10%positive (Some 2)
      Examples.shelf = Ok (out, st') ∧
    lists st' !! out = Some top ∧
    length top = 2%nat.
Proof.
  split; [reflexivity|]. split; [exact shelf_scored|]. split; [done|].
  destruct (select_top_papers_prefix (PaperRanker.Build 4)
              Examples.shelf 10%positive [1; 2; 3; 4]%positive (Some 2)
              eq_refl shelf_scored ltac:(done))
    as (out & st' & l1 & st1 & l2 & st2 & kept & ranked & top
        & Hrun & Hout & _ & _ & _ & _ & -> & _ & _ & _ & _ & Hlen & _).
  by exists out, st', top.
Defined.

Lemma pair_shelf_small key :
  score_key key → Forall (small Examples.pair_shelf key) [1; 2]%positive.
Proof.
  intros [->|[->| ->]]; repeat constructor; try by eexists.
  all: by vm_compute.
Defined.

Lemma get_selection_stats_nonempty_witness :
  lists Examples.pair_shelf !! 10%positive = Some [1; 2]%positive ∧
  [1; 2]%positive ≠ @nil loc ∧
  PaperRanker.get_selection_stats (PaperRanker.Build 4) 10%positive
    Examples.pair_shelf
  = Ok (PaperRanker.Stats 2 (nearest_double 4 2) (nearest_double 4 2)
          (nearest_double 8 2) 1 1,
        Examples.pair_shelf).
Proof.
  split; [reflexivity|]. split; [done|].
  exact (proj1 (get_selection_stats_nonempty (PaperRanker.Build 4)
                  Examples.pair_shelf 10%positive [1; 2]%positive
                  eq_refl ltac:(done)
                  (pair_shelf_small _ (or_introl eq_refl))
                  (pair_shelf_small _ (or_intror (or_introl eq_refl)))
                  (pair_shelf_small _ (or_intror (or_intror eq_refl))))).
Defined.

Lemma get_selection_stats_empty_witness :
  lists Examples.pair_shelf !! 11%positive = Some [] ∧
  PaperRanker.get_selection_stats (PaperRanker.Build 4) 11%positive
    Examples.pair_shelf
  = Ok (PaperRanker.Stats 0 0 0 0 0 0, Examples.pair_shelf).
Proof.
  split; [reflexivity|].
  exact (proj1 (get_selection_stats_empty (PaperRanker.Build 4)
                  Examples.pair_shelf 11%positive eq_refl)).
Defined.

Lemma reply_325_span : has_brace_span Fake.reply_325.
Proof.
  exists "Here is my answer: ",
    (Fake.member "relevance_score" "3" +:+ "," +:+
     Fake.member "significance_score" "2" +:+ "," +:+
     Fake.member "combined_score" "5"),
    " thanks".
  reflexivity.
Defined.

Lemma score_paper_relevance_greedy_span_witness :
  @GeminiClient.generate_content (Fake.canned Examples.replies)
    (GeminiClient.Build "gemini" 16) 1%positive [] None Examples.shelf
  = Ok (Response (Some Fake.reply_325), Examples.shelf_asked) ∧
  text (Response (Some Fake.reply_325)) = Some Fake.reply_325 ∧
  has_brace_span Fake.reply_325 ∧
  @GeminiClient.score_paper_relevance (Fake.canned Examples.replies)
    (GeminiClient.Build "gemini" 16) 1%positive [] None Examples.shelf
  = Ok (PDict (Examples.rated 3 2 5), Examples.shelf_asked).
Proof.
  split; [reflexivity|]. split; [reflexivity|]. split; [exact reply_325_span|].
  destruct (@score_paper_relevance_greedy_span (Fake.canned Examples.replies)
              (GeminiClient.Build "gemini" 16) 1%positive [] None
              Examples.shelf (Response (Some Fake.reply_325))
              Examples.shelf_asked Fake.reply_325
              eq_refl eq_refl reply_325_span)
    as (pre & mid & post & _ & _ & _ & Hsearch & Hresult).
  apply (Hresult (PDict (Examples.rated 3 2 5))).
  assert (re_search Fake.reply_325 = Some
            (braced (Fake.member "relevance_score" "3" +:+ "," +:+
                     Fake.member "significance_score" "2" +:+ "," +:+
                     Fake.member "combined_score" "5"))) as Hcomputed
    by reflexivity.
  rewrite Hcomputed in Hsearch. injection Hsearch as Hmid.
  unfold braced. rewrite <-Hmid. by vm_compute.
Defined.

Lemma no_json_here : ¬ has_brace_span "no json here".
Proof.
  intros Hspan. apply re_search_is_some in Hspan.
  destruct Hspan as [m Hm]. by vm_compute in Hm.
Defined.

Lemma score_paper_relevance_no_span_witness :
  @GeminiClient.generate_content (Fake.canned ["no json here"])
    (GeminiClient.Build "gemini" 16) 1%positive [] None Examples.shelf
  = Ok (Response (Some "no json here"), Examples.shelf_asked) ∧
  text (Response (Some "no json here")) = Some "no json here" ∧
  ¬ has_brace_span "no json here" ∧
  ∃ failure : pydict,
    @GeminiClient.score_paper_relevance (Fake.canned ["no json here"])
      (GeminiClient.Build "gemini" 16) 1%positive [] None Examples.shelf
    = Ok (PDict failure, Examples.shelf_asked) ∧
    failure !! "raw_response"
    = Some (PResponse (Response (Some "no json here"))).
Proof.
  split; [reflexivity|]. split; [reflexivity|]. split; [exact no_json_here|].
  destruct (@score_paper_relevance_no_span (Fake.canned ["no json here"])
              (GeminiClient.Build "gemini" 16) 1%positive [] None
              Examples.shelf (Response (Some "no json here"))
              Examples.shelf_asked "no json here"
              eq_refl eq_refl no_json_here)
    as (failure & Hrun & _ & _ & Hraw & _).
  by exists failure.
Defined.


Lemma shelf_bound p :
  p ∈ [1; 2; 3; 4]%positive → is_Some (dicts Examples.shelf !! p).
Proof.
  revert p. apply Forall_forall. repeat constructor; by eexists.
Defined.

Lemma replies_recovered (i : nat) (d : pydict) :
  (i < length [1; 2; 3; 4]%positive)%nat →
  ∃ r,
    @request_scoring (Fake.canned Examples.replies)
      (llm_calls Examples.shelf + i) "gemini" d [] None = Ok r ∧
    @GeminiClient.parse_scoring_response (Fake.canned Examples.replies) r
    = Ok (PDict (Examples.reply_scores i)).
Proof.
  intros Hi.
  destruct i as [|[|[|[|i]]]]; [| | | |simpl in Hi; lia];
    (eexists; split; [reflexivity|by vm_compute]).
Defined.


(** ** Further runs *)

(** Papers A (5), B (5), C (7) and D (no score) rank as C, A, B, D. *)
Example rank_shelf :
  ∃ out st',
    PaperRanker.rank_papers_by_scores (PaperRanker.Build 4) 10%positive
      Examples.shelf = Ok (out, st') ∧
    lists st' !! out = Some [3; 1; 2; 4]%positive.
Proof. eexists _, _. split; [by vm_compute|]. by vm_compute. Qed.

(** With minimum 4, the paper without a score is dropped and the order of
    the others is kept. *)
Example filter_shelf :
  ∃ out st',
    PaperRanker.filter_by_minimum_score (PaperRanker.__init__ None) 10%positive
      Examples.shelf = Ok (out, st') ∧
    lists st' !! out = Some [1; 2; 3]%positive.
Proof. eexists _, _. split; [by vm_compute|]. by vm_compute. Qed.

(** The average relevance of the records (3, 3, 6) and (1, 1, 2) is 2. *)
Example average_pair_shelf : (nearest_double 4 2 == 2)%Q.
Proof. reflexivity. Qed.

(** The average of the scores 1, 0 and 0 is the double next to a third. *)
Example average_third :
  (nearest_double 1 3 == 6004799503160661 # 18014398509481984)%Q.
Proof. reflexivity. Qed.

(** Four papers in batches of three: the first reply gives 3, 2, 5; the
    second has no braces and the third does not decode, and both leave 1,
    1, 2; the last reply is an empty object, and the defaults fill in. *)
Example batch_shelf :
  Examples.outcome
    (@GeminiClient.batch_score_papers (Fake.canned Examples.replies)
       (GeminiClient.Build "gemini" 3) 10%positive [] None Examples.shelf)
  = Some (Some [1; 2; 3; 4]%positive,
          [[Some (PInt 3); Some (PInt 2); Some (PInt 5)];
           [Some (PInt 1); Some (PInt 1); Some (PInt 2)];
           [Some (PInt 1); Some (PInt 1); Some (PInt 2)];
           [Some (PInt 1); Some (PInt 1); Some (PInt 2)]],
          ["Scoring batch 1/2 (3 papers)"; "Scoring batch 2/2 (1 papers)"]).
Proof. by vm_compute. Qed.

(** A batch size of 0 stops the run at [range]. *)
Example batch_size_zero :
  @GeminiClient.batch_score_papers (Fake.canned Examples.replies)
    (GeminiClient.Build "gemini" 0) 10%positive [] None Examples.shelf
  = Raise ValueError.
Proof. reflexivity. Qed.

(** * Further properties *)

(** ** Errors of the comparisons *)

Lemma kind_numeric v : is_Some (as_int v) ↔ kind v = Some 0%nat.
Proof. destruct v; simpl; split; intros Hv; try done; by inversion Hv. Qed.

Lemma py_lt_same_kind v w (c : nat) :
  kind v = Some c → kind w = Some c → ∃ b, py_lt v w = Ok b.
Proof.
  destruct v, w; simpl; intros Hv Hw; try done; try congruence; by eexists.
Qed.

Lemma py_lt_other_kind v w :
  kind v = None ∨ kind v ≠ kind w → py_lt v w = Raise TypeError.
Proof. destruct v, w; simpl; intros [Hv|Hv]; done. Qed.

Lemma py_ge_not_numeric v (m : Z) :
  as_int v = None → py_ge v (PInt m) = Raise TypeError.
Proof. by destruct v. Qed.

Lemma py_add_not_numeric (a : Z) v :
  as_int v = None → py_add (PInt a) v = Raise TypeError.
Proof. by destruct v. Qed.

Lemma bind_raise {A B} (m : M A) (f : A → M B) st e :
  m st = Raise e → (m ≫= f) st = Raise e.
Proof. unfold mbind, M_bind. by intros ->. Qed.

(** ** [filter_by_minimum_score] on ill-typed scores *)

Lemma for_filter_minimum_raise m st ps :
  Forall (λ p, is_Some (dicts st !! p)) ps →
  Exists (λ p, as_int (field st "combined_score" p) = None) ps →
  for_filter ps (λ p,
    v ← PaperRanker.get_score "combined_score" p;
    lift (py_ge v (PInt m))) st
  = Raise TypeError.
Proof.
  induction 1 as [|p ps Hp Hps IH]; intros Hex; [by inversion Hex|].
  cbn [for_filter].
  destruct (as_int (field st "combined_score" p)) as [z|] eqn:Hz.
  - assert (scored st "combined_score" p) as Hsc by (split; [done|by rewrite Hz]).
    rewrite (bind_ok _ _ _ _ _ (minimum_test m _ _ Hsc)).
    rewrite (bind_raise _ _ _ TypeError); [done|].
    apply IH. inversion Hex; [congruence|done].
  - apply bind_raise.
    rewrite (bind_ok _ _ _ _ _ (get_score_ok _ _ _ Hp)).
    unfold lift. by rewrite py_ge_not_numeric.
Qed.

(** X1. [filter_by_minimum_score] raises [TypeError] as soon as one record
    has a [combined_score] that is not a number: a string, a list, a dict
    or [None]. *)
Theorem filter_by_minimum_score_type_error self st papers ps :
  lists st !! papers = Some ps →
  (∀ p, p ∈ ps → is_Some (dicts st !! p)) →
  (∃ p, p ∈ ps ∧ as_int (field st "combined_score" p) = None) →
  PaperRanker.filter_by_minimum_score self papers st = Raise TypeError.
Proof.
  intros Hps Hbound (p & Hp & Hbad).
  unfold PaperRanker.filter_by_minimum_score.
  rewrite (bind_ok _ _ _ _ _ (read_list_ok _ _ _ Hps)).
  apply bind_raise, for_filter_minimum_raise.
  - by apply Forall_forall.
  - apply Exists_exists. by exists p.
Qed.

(** ** [rank_papers_by_scores] on ill-typed scores *)

Section SortErrors.
Context {A : Type}.
Implicit Types (x y : pyval * A) (s l acc : list (pyval * A)).

Lemma insort_same_kind (c : nat) x s :
  kind x.1 = Some c → Forall (λ y, kind y.1 = Some c) s →
  ∃ s', insort x s = Ok s' ∧ s' ≠ [] ∧ Forall (λ y, kind y.1 = Some c) s'.
Proof.
  intros Hx. induction 1 as [|y s Hy Hs IH]; cbn [insort].
  - exists [x]. split_and!; [done|done|by constructor].
  - destruct (py_lt_same_kind _ _ c Hx Hy) as [b ->]. cbn.
    destruct b.
    + eexists. split_and!; [done|done|]. by repeat constructor.
    + destruct IH as (s' & -> & _ & Hs'). cbn.
      eexists. split_and!; [done|done|]. by constructor.
Qed.

Lemma insort_other_kind x y s :
  kind x.1 = None ∨ kind x.1 ≠ kind y.1 →
  insort x (y :: s) = Raise TypeError.
Proof. intros Hk. cbn [insort]. by rewrite py_lt_other_kind. Qed.

Lemma sort_into_mixed (c : nat) acc l :
  acc ≠ [] →
  Forall (λ y, kind y.1 = Some c) acc →
  Exists (λ y, kind y.1 ≠ Some c) l →
  sort_into acc l = Raise TypeError.
Proof.
  intros Hne Hacc Hex. revert acc Hne Hacc.
  induction Hex as [x l Hx|x l Hex IH]; intros acc Hne Hacc; cbn [sort_into].
  - destruct acc as [|y acc]; [done|].
    apply Forall_cons in Hacc as [Hy _].
    rewrite insort_other_kind; [done|].
    destruct (kind x.1); [right|by left]. congruence.
  - destruct (decide (kind x.1 = Some c)) as [Hx|Hx].
    + destruct (insort_same_kind c x acc Hx Hacc) as (acc' & -> & Hne' & Hacc').
      cbn. by apply IH.
    + destruct acc as [|y acc]; [done|].
      apply Forall_cons in Hacc as [Hy _].
      rewrite insort_other_kind; [done|].
      destruct (kind x.1); [right|by left]. congruence.
Qed.

(** Two or more keys that are not all of one ordered kind cannot be
    sorted. *)
Lemma sort_into_not_one_kind l :
  (2 ≤ length l)%nat →
  (∀ c : nat, ¬ Forall (λ y, kind y.1 = Some c) l) →
  sort_into [] l = Raise TypeError.
Proof.
  intros Hlen Hmixed.
  destruct l as [|x [|y l]]; [simpl in Hlen; lia..|].
  change (sort_into [] (x :: y :: l)) with (sort_into [x] (y :: l)).
  destruct (kind x.1) as [c|] eqn:Hx.
  - apply (sort_into_mixed c); [done|by repeat constructor|].
    apply not_Forall_Exists; [intros ?; apply _|].
    intros Hall. apply (Hmixed c). by constructor.
  - cbn [sort_into]. rewrite insort_other_kind; [done|].
    destruct (kind y.1) eqn:Hy; [right; congruence|by left].
Qed.

Lemma sort_keyed_not_one_kind (reverse : bool) l :
  (2 ≤ length l)%nat →
  (∀ c : nat, ¬ Forall (λ y, kind y.1 = Some c) l) →
  sort_keyed reverse l = Raise TypeError.
Proof.
  intros Hlen Hmixed. unfold sort_keyed.
  rewrite sort_into_not_one_kind; [done|..].
  - destruct reverse; simpl; [by rewrite length_reverse|done].
  - intros c Hall. apply (Hmixed c).
    destruct reverse; simpl in Hall; [by apply Forall_reverse|done].
Qed.
End SortErrors.

(** X2. [rank_papers_by_scores] raises [TypeError] on a list of two or more
    records whose [combined_score] values are not all numbers, all strings
    or all lists: a [None] among them, or a string beside a number. *)
Theorem rank_papers_by_scores_type_error self st papers ps :
  lists st !! papers = Some ps →
  (∀ p, p ∈ ps → is_Some (dicts st !! p)) →
  (2 ≤ length ps)%nat →
  (∀ c : nat, ∃ p, p ∈ ps ∧ kind (field st "combined_score" p) ≠ Some c) →
  PaperRanker.rank_papers_by_scores self papers st = Raise TypeError.
Proof.
  intros Hps Hbound Hlen Hmixed.
  unfold PaperRanker.rank_papers_by_scores, sorted.
  rewrite (bind_ok _ _ _ _ _ (read_list_ok _ _ _ Hps)).
  assert (Forall (λ p, is_Some (dicts st !! p)) ps) as Hb by by apply Forall_forall.
  rewrite (bind_ok _ _ _ _ _ (for_collect_get_score st _ ps Hb)).
  rewrite zip_keys, sort_keyed_not_one_kind; [done|by rewrite length_fmap|].
  intros c Hall. destruct (Hmixed c) as (p & Hp & Hk). apply Hk.
  rewrite Forall_fmap, Forall_forall in Hall. by apply (Hall p).
Qed.

(** X3. A list of fewer than two records is ranked without any comparison:
    [rank_papers_by_scores] returns a new list with the same content,
    whatever the type of the score. *)
Theorem rank_papers_by_scores_short self st papers ps :
  lists st !! papers = Some ps →
  (∀ p, p ∈ ps → is_Some (dicts st !! p)) →
  (length ps ≤ 1)%nat →
  ∃ out st',
    PaperRanker.rank_papers_by_scores self papers st = Ok (out, st') ∧
    lists st !! out = None ∧
    lists st' !! out = Some ps ∧
    dicts st' = dicts st.
Proof.
  intros Hps Hbound Hlen.
  exists (fresh (dom (lists st))), (with_list st ps).
  split; [|split; [apply fresh_list|split; [apply with_list_new|done]]].
  unfold PaperRanker.rank_papers_by_scores, sorted.
  rewrite (bind_ok _ _ _ _ _ (read_list_ok _ _ _ Hps)).
  assert (Forall (λ p, is_Some (dicts st !! p)) ps) as Hb by by apply Forall_forall.
  rewrite (bind_ok _ _ _ _ _ (for_collect_get_score st _ ps Hb)).
  destruct ps as [|p [|q ps]]; [done|done|simpl in Hlen; lia].
Qed.

(** ** Ranking twice, and ranking against filtering *)

Section KeySortMore.
Context {A : Type} (k : A → Z).

Lemma insert_by_last x s :
  Forall (λ y, k y ≤ k x) s → insert_by k x s = s ++ [x].
Proof.
  induction 1 as [|y s Hy _ IH]; simpl; [done|].
  destruct (Z.ltb_spec (k x) (k y)); [lia|]. by rewrite IH.
Qed.

Lemma insert_by_first x s :
  Forall (λ y, k x < k y) s → insert_by k x s = x :: s.
Proof.
  destruct 1 as [|y s Hy _]; simpl; [done|].
  by destruct (Z.ltb_spec (k x) (k y)); [|lia].
Qed.

Lemma sort_from_sorted_input acc l :
  StronglySorted (le_k k) (acc ++ l) → sort_from k acc l = acc ++ l.
Proof.
  revert acc. induction l as [|x l IH]; intros acc Hs; simpl.
  - by rewrite app_nil_r.
  - rewrite insert_by_last.
    + rewrite IH; rewrite <-app_assoc; done.
    + apply StronglySorted_app in Hs as (Hax & _ & _).
      apply Forall_forall. intros y Hy. apply (Hax y x Hy). by left.
Qed.

(** A list in descending order is left as it is. *)
Lemma sort_desc_sorted_input l :
  StronglySorted (ge_k k) l → sort_desc k l = l.
Proof.
  intros Hs. unfold sort_desc.
  rewrite sort_from_sorted_input; [by rewrite app_nil_l, reverse_involutive|].
  rewrite app_nil_l. by apply (StronglySorted_reverse (ge_k k)).
Qed.

Lemma insert_by_filter_in (P : A → Prop) `{!∀ a, Decision (P a)} x s :
  StronglySorted (le_k k) s →
  filter P (insert_by k x s)
  = if decide (P x) then insert_by k x (filter P s) else filter P s.
Proof.
  induction s as [|y s IH]; intros Hs.
  - simpl. rewrite filter_cons, filter_nil. by case_decide.
  - apply StronglySorted_cons in Hs as [Hy Hs]. cbn [insert_by].
    destruct (Z.ltb_spec (k x) (k y)) as [Hlt|Hge].
    + rewrite (filter_cons _ x (y :: s)). case_decide; [|done].
      rewrite insert_by_first; [done|].
      apply Forall_forall. intros z [_ Hz]%list_elem_of_filter.
      apply elem_of_cons in Hz as [->|Hz]; [done|].
      rewrite Forall_forall in Hy. specialize (Hy z Hz). unfold le_k in Hy. lia.
    + rewrite !(filter_cons _ y), IH by done.
      destruct (decide (P y)), (decide (P x)); try done.
      cbn [insert_by]. by destruct (Z.ltb_spec (k x) (k y)); [lia|].
Qed.

Lemma sort_from_filter_in (P : A → Prop) `{!∀ a, Decision (P a)} acc l :
  StronglySorted (le_k k) acc →
  filter P (sort_from k acc l) = sort_from k (filter P acc) (filter P l).
Proof.
  revert acc. induction l as [|x l IH]; intros acc Hacc; simpl; [done|].
  rewrite IH by by apply insert_by_sorted.
  rewrite insert_by_filter_in by done.
  rewrite filter_cons. by case_decide.
Qed.

(** Filtering commutes with the stable descending sort. *)
Lemma sort_desc_filter (P : A → Prop) `{!∀ a, Decision (P a)} l :
  filter P (sort_desc k l) = sort_desc k (filter P l).
Proof.
  unfold sort_desc.
  rewrite filter_reverse, sort_from_filter_in by constructor.
  by rewrite filter_nil, filter_reverse.
Qed.
End KeySortMore.

Lemma scored_with_list st xs key ps :
  Forall (scored st key) ps → Forall (scored (with_list st xs) key) ps.
Proof. done. Qed.

(** X4. Ranking is idempotent: the ranking of a ranked list holds the same
    records in the same order. *)
Theorem rank_papers_by_scores_idempotent self st papers ps :
  lists st !! papers = Some ps →
  Forall (scored st "combined_score") ps →
  ∃ once st1 twice st2 ranked,
    PaperRanker.rank_papers_by_scores self papers st = Ok (once, st1) ∧
    PaperRanker.rank_papers_by_scores self once st1 = Ok (twice, st2) ∧
    lists st1 !! once = Some ranked ∧
    lists st2 !! twice = Some ranked ∧
    twice ≠ once.
Proof.
  intros Hps Hsc.
  set (ranked := sort_desc (score st "combined_score") ps).
  set (st1 := with_list st ranked).
  assert (Forall (scored st1 "combined_score") ranked) as Hsc1.
  { unfold ranked. by rewrite sort_desc_perm. }
  pose proof (rank_papers_by_scores_run self st papers ps Hps Hsc) as Hr1.
  pose proof (rank_papers_by_scores_run self st1 _ ranked
                (with_list_new st ranked) Hsc1) as Hr2.
  change (score st1 "combined_score") with (score st "combined_score") in Hr2.
  rewrite (sort_desc_sorted_input _ ranked) in Hr2 by apply sort_desc_sorted.
  eexists _, _, _, _, ranked. split; [exact Hr1|]. split; [exact Hr2|].
  split; [apply with_list_new|]. split; [apply with_list_new|].
  intros Heq. pose proof (fresh_list st1) as Hf.
  rewrite Heq in Hf. unfold st1 in Hf. by rewrite with_list_new in Hf.
Qed.

(** X5. Filtering and ranking commute: the records above the minimum taken
    from the ranking are the ranking of the records above the minimum. *)
Theorem filter_rank_commute self st papers ps :
  lists st !! papers = Some ps →
  Forall (scored st "combined_score") ps →
  ∃ filtered st1 fr st2 ranked st1' rf st2' result,
    PaperRanker.filter_by_minimum_score self papers st = Ok (filtered, st1) ∧
    PaperRanker.rank_papers_by_scores self filtered st1 = Ok (fr, st2) ∧
    PaperRanker.rank_papers_by_scores self papers st = Ok (ranked, st1') ∧
    PaperRanker.filter_by_minimum_score self ranked st1' = Ok (rf, st2') ∧
    lists st2 !! fr = Some result ∧
    lists st2' !! rf = Some result.
Proof.
  intros Hps Hsc.
  set (above := λ p, PaperRanker.min_combined_score self
                     ≤ score st "combined_score" p).
  set (kept := filter above ps).
  set (ranked := sort_desc (score st "combined_score") ps).
  assert (Forall (scored (with_list st kept) "combined_score") kept) as Hk.
  { apply Forall_forall. intros p [_ Hp]%list_elem_of_filter.
    rewrite Forall_forall in Hsc. by apply (Hsc p). }
  assert (Forall (scored (with_list st ranked) "combined_score") ranked) as Hr.
  { apply scored_with_list. unfold ranked. by rewrite sort_desc_perm. }
  pose proof (filter_by_minimum_score_run self st papers ps Hps Hsc) as H1.
  pose proof (rank_papers_by_scores_run self _ _ kept
                (with_list_new st kept) Hk) as H2.
  pose proof (rank_papers_by_scores_run self st papers ps Hps Hsc) as H3.
  pose proof (filter_by_minimum_score_run self _ _ ranked
                (with_list_new st ranked) Hr) as H4.
  eexists _, _, _, _, _, _, _, _, _.
  split; [exact H1|]. split; [exact H2|]. split; [exact H3|].
  split; [exact H4|]. split; [apply with_list_new|].
  rewrite with_list_new. f_equal.
  change (score (with_list st ranked) "combined_score")
    with (score st "combined_score").
  change (score (with_list st kept) "combined_score")
    with (score st "combined_score").
  fold above. unfold ranked, kept. apply sort_desc_filter.
Qed.

(** ** [select_top_papers] for every limit *)

(** The three lists that a run of [select_top_papers] creates. *)
Lemma select_top_papers_run self st papers ps (limit : option Z) :
  lists st !! papers = Some ps →
  Forall (scored st "combined_score") ps →
  let kept := filter (λ p, PaperRanker.min_combined_score self
                           ≤ score st "combined_score" p) ps in
  let ranked := sort_desc (score st "combined_score") kept in
  let st2 := with_list (with_list st kept) ranked in
  PaperRanker.select_top_papers self papers limit st
  = Ok (fresh (dom (lists st2)),
        with_list st2 (slice ranked 0 (default 10 limit))).
Proof.
  intros Hps Hsc kept ranked st2.
  assert (Forall (scored (with_list st kept) "combined_score") kept) as Hk.
  { apply Forall_forall. intros p [_ Hp]%list_elem_of_filter.
    rewrite Forall_forall in Hsc. by apply (Hsc p). }
  unfold PaperRanker.select_top_papers.
  rewrite (bind_ok _ _ _ _ _ (filter_by_minimum_score_run self st papers ps Hps Hsc)).
  rewrite (bind_ok _ _ _ _ _ (rank_papers_by_scores_run self _ _ kept
                                (with_list_new st kept) Hk)).
  by rewrite (list_slice_run _ _ _ _ _ (with_list_new _ ranked)).
Qed.

(** X6. With a negative limit [select_top_papers] does not return the
    empty list: it returns the ranking of the records above the minimum
    without its last [-limit] records. *)
Theorem select_top_papers_negative self st papers ps (limit : Z) :
  lists st !! papers = Some ps →
  Forall (scored st "combined_score") ps →
  limit < 0 →
  ∃ out st' kept ranked top,
    PaperRanker.select_top_papers self papers (Some limit) st = Ok (out, st') ∧
    lists st' !! out = Some top ∧
    kept = filter (λ p, PaperRanker.min_combined_score self
                        ≤ score st "combined_score" p) ps ∧
    ranked ≡ₚ kept ∧
    StronglySorted
      (λ p q, score st "combined_score" q ≤ score st "combined_score" p)
      ranked ∧
    (∀ n : Z,
      filter (λ p, score st "combined_score" p = n) ranked
      = filter (λ p, score st "combined_score" p = n) kept) ∧
    top = take (length kept - Z.to_nat (- limit)) ranked ∧
    length top = (length kept - Z.to_nat (- limit))%nat.
Proof.
  intros Hps Hsc Hlim.
  pose proof (select_top_papers_run self st papers ps (Some limit) Hps Hsc) as Hrun.
  cbv zeta in Hrun. change (default 10 (Some limit)) with limit in Hrun.
  rewrite slice_negative in Hrun by done.
  set (kept := filter (λ p, PaperRanker.min_combined_score self
                            ≤ score st "combined_score" p) ps) in *.
  set (ranked := sort_desc (score st "combined_score") kept) in *.
  assert (length ranked = length kept) as Hlen
    by (unfold ranked; by rewrite sort_desc_perm).
  rewrite Hlen in Hrun.
  eexists _, _, kept, ranked, _. split; [exact Hrun|].
  split; [apply with_list_new|]. split; [done|].
  split; [apply sort_desc_perm|]. split; [apply sort_desc_sorted|].
  split; [apply sort_desc_stable|]. split; [done|].
  rewrite length_take. lia.
Qed.

(** X7. [select_top_papers] changes nothing that exists: the list it
    returns is new, every list of the store, the input among them, holds
    what it held, and no paper record is written. *)
Theorem select_top_papers_leaves_store self st papers ps (limit : option Z) :
  lists st !! papers = Some ps →
  Forall (scored st "combined_score") ps →
  ∃ out st',
    PaperRanker.select_top_papers self papers limit st = Ok (out, st') ∧
    lists st !! out = None ∧
    (∀ l xs, lists st !! l = Some xs → lists st' !! l = Some xs) ∧
    dicts st' = dicts st ∧
    llm_calls st' = llm_calls st ∧
    stdout st' = stdout st.
Proof.
  intros Hps Hsc.
  pose proof (select_top_papers_run self st papers ps limit Hps Hsc) as Hrun.
  cbv zeta in Hrun.
  eexists _, _. split; [exact Hrun|].
  split; [|split; [|done]].
  - match goal with |- lists st !! ?o = None => destruct (lists st !! o) as [xs|] eqn:Hout end;
      [|done].
    apply (with_list_old _ (filter (λ p, PaperRanker.min_combined_score self
                     ≤ score st "combined_score" p) ps)) in Hout.
    eapply with_list_old in Hout. by erewrite fresh_list in Hout.
  - intros l xs Hl. by do 3 apply with_list_old.
Qed.

(** ** [get_selection_stats]: counts, order and errors *)



Lemma score_sum_perm st key ps qs :
  ps ≡ₚ qs → score_sum st key ps = score_sum st key qs.
Proof.
  induction 1 as [|p ps qs _ IH|p q ps|ps qs rs _ IH1 _ IH2]; [done| | |].
  - cbn [score_sum foldr]. fold (score_sum st key ps) (score_sum st key qs). lia.
  - cbn [score_sum foldr]. lia.
  - by rewrite IH1, IH2.
Qed.

Lemma score_count_perm st key (n : Z) ps qs :
  ps ≡ₚ qs → score_count st key n ps = score_count st key n qs.
Proof. intros Hperm. unfold score_count. by rewrite Hperm. Qed.

Lemma get_selection_stats_run self st papers ps :
  lists st !! papers = Some ps →
  ps ≠ [] →
  Forall (small st "relevance_score") ps →
  Forall (small st "significance_score") ps →
  Forall (small st "combined_score") ps →
  PaperRanker.get_selection_stats self papers st
  = Ok (PaperRanker.Stats
          (Z.of_nat (length ps))
          (nearest_double (score_sum st "relevance_score" ps) (Z.of_nat (length ps)))
          (nearest_double (score_sum st "significance_score" ps) (Z.of_nat (length ps)))
          (nearest_double (score_sum st "combined_score" ps) (Z.of_nat (length ps)))
          (score_count st "relevance_score" 3 ps)
          (score_count st "significance_score" 3 ps),
        st).
Proof.
  intros Hps Hne Hrel Hsig Hcomb.
  unfold PaperRanker.get_selection_stats.
  rewrite (bind_ok _ _ _ _ _ (read_list_ok _ _ _ Hps)).
  pose proof (average_small _ _ _ Hne Hrel) as Hrel'.
  pose proof (average_small _ _ _ Hne Hsig) as Hsig'.
  pose proof (average_small _ _ _ Hne Hcomb) as Hcomb'.
  apply small_scored in Hrel, Hsig, Hcomb.
  destruct ps as [|p ps']; [done|].
  set (ps := p :: ps') in *.
  assert (Z.of_nat (length ps) ≠ 0) as Hlen by (simpl; lia).
  assert (Forall (λ p, is_Some (dicts st !! p)) ps) as Hbound.
  { eapply Forall_impl; [exact Hrel|]. by intros q [? _]. }
  rewrite (bind_ok _ _ _ _ _ (sum_scores_run _ _ _ 0 Hrel)).
  rewrite Z.add_0_l, py_truediv_int, bind_lift_ok by done.
  rewrite (bind_ok _ _ _ _ _ (sum_scores_run _ _ _ 0 Hsig)).
  rewrite Z.add_0_l, py_truediv_int, bind_lift_ok by done.
  rewrite (bind_ok _ _ _ _ _ (sum_scores_run _ _ _ 0 Hcomb)).
  rewrite Z.add_0_l, py_truediv_int, bind_lift_ok by done.
  rewrite (bind_ok _ _ _ _ _ (count_high_run _ "relevance_score" _ 0 Hbound)).
  rewrite (bind_ok _ _ _ _ _ (count_high_run _ "significance_score" _ 0 Hbound)).
  by rewrite !Z.add_0_l.
Qed.


(** X9. The statistics do not depend on the order of the records: two lists
    that hold the same records, each as often as the other, get the same
    statistics. *)
Theorem get_selection_stats_order_free self st papers papers' ps qs :
  lists st !! papers = Some ps →
  lists st !! papers' = Some qs →
  ps ≡ₚ qs →
  Forall (small st "relevance_score") ps →
  Forall (small st "significance_score") ps →
  Forall (small st "combined_score") ps →
  ∃ s,
    PaperRanker.get_selection_stats self papers st = Ok (s, st) ∧
    PaperRanker.get_selection_stats self papers' st = Ok (s, st).
Proof.
  intros Hps Hqs Hperm Hrel Hsig Hcomb.
  destruct (decide (ps = [])) as [->|Hne].
  - apply Permutation_nil_l in Hperm. subst qs.
    exists (PaperRanker.Stats 0 0 0 0 0 0).
    unfold PaperRanker.get_selection_stats.
    by rewrite (bind_ok _ _ _ _ _ (read_list_ok _ _ _ Hps)),
      (bind_ok _ _ _ _ _ (read_list_ok _ _ _ Hqs)).
  - assert (qs ≠ []) as Hne'.
    { intros ->. by apply Permutation_nil_r in Hperm. }
    eexists. split; [by apply get_selection_stats_run|].
    rewrite (get_selection_stats_run self st papers' qs Hqs Hne')
      by (by rewrite <-Hperm).
    by rewrite <-!(score_sum_perm _ _ _ _ Hperm),
      <-!(score_count_perm _ _ _ _ _ Hperm), <-(Permutation_length Hperm).
Qed.

Lemma sum_scores_raise st key ps (a : Z) :
  Forall (λ p, is_Some (dicts st !! p)) ps →
  Exists (λ p, as_int (field st key p) = None) ps →
  PaperRanker.sum_scores key (PInt a) ps st = Raise TypeError.
Proof.
  intros Hps. revert a.
  induction Hps as [|p ps Hp Hps IH]; intros a Hex; [by inversion Hex|].
  cbn [PaperRanker.sum_scores].
  rewrite (bind_ok _ _ _ _ _ (get_score_ok _ key _ Hp)).
  destruct (as_int (field st key p)) as [z|] eqn:Hz.
  - unfold py_add. rewrite Hz. cbn [as_int]. rewrite bind_lift_ok.
    apply IH. inversion Hex; [congruence|done].
  - by rewrite py_add_not_numeric.
Qed.

(** X10. On a list that is not empty, [get_selection_stats] raises
    [TypeError] when a score that it sums is not a number: a
    [relevance_score], or, the sums before being computed, a
    [significance_score] or a [combined_score]. *)
Theorem get_selection_stats_type_error self st papers ps :
  lists st !! papers = Some ps →
  (∀ p, p ∈ ps → is_Some (dicts st !! p)) →
  (∃ p, p ∈ ps ∧ as_int (field st "relevance_score" p) = None)
  ∨ (Forall (small st "relevance_score") ps ∧
     ∃ p, p ∈ ps ∧ as_int (field st "significance_score" p) = None)
  ∨ (Forall (small st "relevance_score") ps ∧
     Forall (small st "significance_score") ps ∧
     ∃ p, p ∈ ps ∧ as_int (field st "combined_score" p) = None) →
  PaperRanker.get_selection_stats self papers st = Raise TypeError.
Proof.
  intros Hps Hbound Hbad.
  assert (Forall (λ p, is_Some (dicts st !! p)) ps) as Hb by by apply Forall_forall.
  assert (ps ≠ []) as Hne.
  { destruct Hbad as [(p & Hp & _)|[(_ & p & Hp & _)|(_ & _ & p & Hp & _)]];
      intros ->; by apply elem_of_nil in Hp. }
  unfold PaperRanker.get_selection_stats.
  rewrite (bind_ok _ _ _ _ _ (read_list_ok _ _ _ Hps)).
  destruct ps as [|p0 ps']; [done|].
  set (ps := p0 :: ps') in *.
  assert (Z.of_nat (length ps) ≠ 0) as Hlen by (simpl; lia).
  destruct Hbad as [(p & Hp & Hbad)|[(Hrel & p & Hp & Hbad)|(Hrel & Hsig & p & Hp & Hbad)]].
  - apply bind_raise, sum_scores_raise; [done|].
    apply Exists_exists. by exists p.
  - pose proof (average_small _ _ _ Hne Hrel) as Hrel'.
    rewrite (bind_ok _ _ _ _ _ (sum_scores_run _ _ _ 0 (small_scored _ _ _ Hrel))).
    rewrite Z.add_0_l, py_truediv_int, bind_lift_ok by done.
    apply bind_raise, sum_scores_raise; [done|].
    apply Exists_exists. by exists p.
  - pose proof (average_small _ _ _ Hne Hrel) as Hrel'.
    pose proof (average_small _ _ _ Hne Hsig) as Hsig'.
    rewrite (bind_ok _ _ _ _ _ (sum_scores_run _ _ _ 0 (small_scored _ _ _ Hrel))).
    rewrite Z.add_0_l, py_truediv_int, bind_lift_ok by done.
    rewrite (bind_ok _ _ _ _ _ (sum_scores_run _ _ _ 0 (small_scored _ _ _ Hsig))).
    rewrite Z.add_0_l, py_truediv_int, bind_lift_ok by done.
    apply bind_raise, sum_scores_raise; [done|].
    apply Exists_exists. by exists p.
Qed.

(** ** [batch_score_papers]: requests, batch sizes *)

Lemma batch_score_papers_run `{Collaborators}
    (self : GeminiClient.t) st papers ps kw neg (scores : nat → pydict) :
  0 < GeminiClient.batch_size self →
  lists st !! papers = Some ps →
  (∀ p, p ∈ ps → is_Some (dicts st !! p)) →
  (∀ (i : nat) d, (i < length ps)%nat →
    ∃ r, request_scoring (llm_calls st + i) (GeminiClient.model_name self)
           d kw neg = Ok r ∧
         GeminiClient.parse_scoring_response r = Ok (PDict (scores i))) →
  ∃ st',
    GeminiClient.batch_score_papers self papers kw neg st
    = Ok (fresh (dom (lists st)), st') ∧
    lists st' !! fresh (dom (lists st)) = Some ps ∧
    lists st' !! papers = Some ps ∧
    dicts st' = attach_all scores 0 ps (dicts st) ∧
    llm_calls st' = (llm_calls st + length ps)%nat.
Proof.
  intros Hb Hps Hbound Hreplies.
  set (out := fresh (dom (lists st))).
  set (st0 := with_list st []).
  assert (out ≠ papers) as Hne.
  { intros Heq. pose proof (fresh_list st) as Hf. fold out in Hf.
    by rewrite Heq, Hps in Hf. }
  destruct (rounds_run self kw neg scores (llm_calls st) (length ps) Hreplies
              papers out ps eq_refl Hne Hb
              (range_len 0 (Z.of_nat (length ps)) (GeminiClient.batch_size self))
              0%nat st0 [])
    as (st' & Hrun & Hps' & Hout' & Hd' & Hc').
  { by apply with_list_old. }
  { apply with_list_new. }
  { exact Hbound. }
  { simpl. lia. }
  pose proof (range_len_covers (length ps) _ Hb) as Hcover.
  rewrite drop_0, take_ge in Hout', Hd' by done.
  exists st'. split_and!; try done.
  - unfold GeminiClient.batch_score_papers.
    rewrite (bind_ok _ _ _ out st0) by done.
    rewrite (bind_ok _ _ _ _ _ (read_list_ok st0 _ _ (with_list_old st [] _ _ Hps))).
    unfold py_range.
    replace (GeminiClient.batch_size self =? 0) with false
      by (symmetry; apply Z.eqb_neq; lia).
    rewrite bind_lift_ok.
    by rewrite (bind_ok _ _ _ _ _ Hrun).
  - rewrite Hc'. lia.
Qed.

(** X11. [batch_score_papers] sends one request for each element of the
    list, a paper that occurs twice being scored twice. *)
Theorem batch_score_papers_requests `{Collaborators}
    (self : GeminiClient.t) st papers ps kw neg (scores : nat → pydict) :
  0 < GeminiClient.batch_size self →
  lists st !! papers = Some ps →
  (∀ p, p ∈ ps → is_Some (dicts st !! p)) →
  (∀ (i : nat) d, (i < length ps)%nat →
    ∃ r, request_scoring (llm_calls st + i) (GeminiClient.model_name self)
           d kw neg = Ok r ∧
         GeminiClient.parse_scoring_response r = Ok (PDict (scores i))) →
  ∃ out st',
    GeminiClient.batch_score_papers self papers kw neg st = Ok (out, st') ∧
    llm_calls st' = (llm_calls st + length ps)%nat.
Proof.
  intros Hb Hps Hbound Hreplies.
  destruct (batch_score_papers_run self st papers ps kw neg scores
              Hb Hps Hbound Hreplies) as (st' & Hrun & _ & _ & _ & Hcalls).
  by eexists _, st'.
Qed.


(** X13. With batch size 0 [batch_score_papers] raises [ValueError], for the
    empty list too: [range] refuses the step. *)
Theorem batch_score_papers_zero_batch_size `{Collaborators}
    (self : GeminiClient.t) st papers ps kw neg :
  GeminiClient.batch_size self = 0 →
  lists st !! papers = Some ps →
  GeminiClient.batch_score_papers self papers kw neg st = Raise ValueError.
Proof.
  intros Hb Hps. unfold GeminiClient.batch_score_papers.
  rewrite (bind_ok _ _ _ (fresh (dom (lists st))) (with_list st [])) by done.
  rewrite (bind_ok _ _ _ _ _
             (read_list_ok _ _ _ (with_list_old st [] _ _ Hps))).
  unfold py_range. by rewrite Hb.
Qed.

(** X14. With a negative batch size [batch_score_papers] scores nothing: it
    returns a new empty list, sends no request and writes no record. *)
Theorem batch_score_papers_negative_batch_size `{Collaborators}
    (self : GeminiClient.t) st papers ps kw neg :
  GeminiClient.batch_size self < 0 →
  lists st !! papers = Some ps →
  ∃ out st',
    GeminiClient.batch_score_papers self papers kw neg st = Ok (out, st') ∧
    lists st !! out = None ∧
    lists st' !! out = Some [] ∧
    dicts st' = dicts st ∧
    llm_calls st' = llm_calls st ∧
    stdout st' = stdout st.
Proof.
  intros Hb Hps.
  exists (fresh (dom (lists st))), (with_list st []).
  split; [|split; [apply fresh_list|split; [apply with_list_new|done]]].
  unfold GeminiClient.batch_score_papers.
  rewrite (bind_ok _ _ _ (fresh (dom (lists st))) (with_list st [])) by done.
  rewrite (bind_ok _ _ _ _ _
             (read_list_ok _ _ _ (with_list_old st [] _ _ Hps))).
  unfold py_range, range_len.
  replace (GeminiClient.batch_size self =? 0) with false
    by (symmetry; apply Z.eqb_neq; lia).
  replace (0 <? GeminiClient.batch_size self) with false
    by (symmetry; apply Z.ltb_ge; lia).
  replace (Z.of_nat (length ps) <? 0) with false
    by (symmetry; apply Z.ltb_ge; lia).
  done.
Qed.

(** ** [batch_score_papers]: a scoring that raises *)

Section BatchFail.
Context `{Collaborators}.
Import GeminiClient.
Context (self : GeminiClient.t) (kw : list string) (neg : option (list string)).
Context (scores : nat → pydict) (c0 k : nat) (e : exn).

(** The scorings before number [k] return dicts; number [k] raises [e]. *)
Hypothesis before :
  ∀ (i : nat) d, (i < k)%nat →
    ∃ r, request_scoring (c0 + i) (model_name self) d kw neg = Ok r ∧
         parse_scoring_response r = Ok (PDict (scores i)).
Hypothesis fails :
  ∀ d, scoring (c0 + k) (model_name self) d kw neg = Raise e.

Lemma score_one_raise out p st d :
  dicts st !! p = Some d →
  llm_calls st = (c0 + k)%nat →
  score_one self out kw neg p st = Raise e.
Proof.
  intros Hd Hcalls. pose proof (fails d) as Hfail. unfold scoring in Hfail.
  unfold score_one. apply bind_raise.
  unfold score_paper_relevance, generate_content.
  unfold mbind at 1, M_bind at 1. rewrite Hd, Hcalls.
  destruct (request_scoring (c0 + k) (model_name self) d kw neg) as [r|e'];
    simpl in Hfail; [|congruence].
  unfold lift. by rewrite Hfail.
Qed.

Lemma score_each_raise out xs : ∀ (i : nat) st acc,
  (∀ p, p ∈ xs → is_Some (dicts st !! p)) →
  lists st !! out = Some acc →
  llm_calls st = (c0 + i)%nat →
  (i ≤ k < i + length xs)%nat →
  for_each xs (score_one self out kw neg) st = Raise e.
Proof.
  induction xs as [|p xs IH]; intros i st acc Hbound Hout Hcalls Hk;
    [simpl in Hk; lia|].
  destruct (Hbound p) as [d Hd]; [by left|].
  cbn [for_each].
  destruct (decide (i = k)) as [->|Hne].
  - apply bind_raise. by eapply score_one_raise.
  - destruct (score_one_run self kw neg scores c0 k before out p i st d acc
                Hd Hout Hcalls)
      as (st1 & Hrun & Hdicts & Hlists & Hcalls1); [lia|].
    rewrite (bind_ok _ _ _ _ _ Hrun).
    apply (IH (S i) st1 (acc ++ [p])).
    + intros q Hq. rewrite Hdicts, lookup_alter.
      case_decide; [subst; rewrite Hd; by eexists|].
      apply Hbound. by right.
    + rewrite Hlists. apply lookup_insert_eq.
    + rewrite Hcalls1, Hcalls. lia.
    + simpl in Hk. lia.
Qed.

Context (papers out : loc) (ps : list loc).
Hypothesis position : (k < length ps)%nat.
Hypothesis out_papers : out ≠ papers.
Hypothesis batch_size_pos : 0 < batch_size self.

Local Abbreviation bn := (Z.to_nat (batch_size self)).
Local Abbreviation round := (score_batch self papers out kw neg).

Lemma round_before (j : nat) st acc :
  lists st !! papers = Some ps →
  lists st !! out = Some acc →
  (∀ p, p ∈ ps → is_Some (dicts st !! p)) →
  llm_calls st = (c0 + j)%nat →
  (j + bn ≤ k)%nat →
  ∃ st',
    round (Z.of_nat j) st = Ok (tt, st') ∧
    lists st' !! papers = Some ps ∧
    lists st' !! out = Some (acc ++ take bn (drop j ps)) ∧
    (∀ p, p ∈ ps → is_Some (dicts st' !! p)) ∧
    llm_calls st' = (c0 + (j + bn))%nat.
Proof.
  intros Hps Hout Hbound Hcalls Hj.
  set (w := take bn (drop j ps)).
  assert (length w = bn) as Hw.
  { unfold w. rewrite length_take, length_drop. lia. }
  set (st1 := with_list st w).
  set (st2 := Store (dicts st1) (lists st1) (llm_calls st1)
                (stdout st1 ++ [progress_line self (Z.of_nat j) (length ps) (length w)])).
  destruct (score_each_run self kw neg scores c0 k before out w j st2 acc)
    as (st' & Hrun & Hd' & Hl' & Hc').
  { intros p Hp. apply Hbound. unfold w in Hp.
    by apply (subseteq_drop j ps), (subseteq_take bn). }
  { by apply with_list_old. }
  { exact Hcalls. }
  { lia. }
  exists st'. split_and!.
  - unfold score_batch.
    rewrite (bind_ok _ _ _ _ _ (list_slice_run _ _ _ _ _ Hps)).
    rewrite slice_window by done. fold w st1.
    rewrite (bind_ok _ _ _ _ _ (read_list_ok _ _ _ (with_list_new st w))).
    rewrite (bind_ok _ _ _ _ _ (read_list_ok _ _ _ (with_list_old st w _ _ Hps))).
    exact Hrun.
  - rewrite Hl', lookup_insert_ne by done. by apply with_list_old.
  - rewrite Hl'. apply lookup_insert_eq.
  - intros p Hp. rewrite Hd'. apply attach_all_is_Some. by apply Hbound.
  - rewrite Hc'. change (llm_calls st2) with (llm_calls st). lia.
Qed.

Lemma round_raise (j : nat) st acc :
  lists st !! papers = Some ps →
  lists st !! out = Some acc →
  (∀ p, p ∈ ps → is_Some (dicts st !! p)) →
  llm_calls st = (c0 + j)%nat →
  (j ≤ k < j + bn)%nat →
  round (Z.of_nat j) st = Raise e.
Proof.
  intros Hps Hout Hbound Hcalls Hj.
  set (w := take bn (drop j ps)).
  set (st1 := with_list st w).
  unfold score_batch.
  rewrite (bind_ok _ _ _ _ _ (list_slice_run _ _ _ _ _ Hps)).
  rewrite slice_window by done. fold w st1.
  rewrite (bind_ok _ _ _ _ _ (read_list_ok _ _ _ (with_list_new st w))).
  rewrite (bind_ok _ _ _ _ _ (read_list_ok _ _ _ (with_list_old st w _ _ Hps))).
  unfold mbind at 1, M_bind at 1. cbn [print].
  apply (score_each_raise out w j _ acc).
  - intros p Hp. apply Hbound. unfold w in Hp.
    by apply (subseteq_drop j ps), (subseteq_take bn).
  - by apply with_list_old.
  - exact Hcalls.
  - unfold w. rewrite length_take, length_drop. lia.
Qed.

Lemma rounds_raise (c : nat) : ∀ (j : nat) st acc,
  lists st !! papers = Some ps →
  lists st !! out = Some acc →
  (∀ p, p ∈ ps → is_Some (dicts st !! p)) →
  llm_calls st = (c0 + j)%nat →
  (j ≤ k < j + c * bn)%nat →
  for_each (range_from (Z.of_nat j) (batch_size self) c) round st = Raise e.
Proof.
  induction c as [|c IH]; intros j st acc Hps Hout Hbound Hcalls Hk;
    [simpl in Hk; lia|].
  cbn [range_from for_each].
  destruct (decide (k < j + bn)%nat) as [Hin|Hafter].
  - apply bind_raise. apply (round_raise j st acc); try done. lia.
  - destruct (round_before j st acc Hps Hout Hbound Hcalls)
      as (st1 & Hrun & Hps1 & Hout1 & Hb1 & Hc1); [lia|].
    rewrite (bind_ok _ _ _ _ _ Hrun).
    replace (Z.of_nat j + batch_size self) with (Z.of_nat (j + bn)) by lia.
    apply (IH (j + bn)%nat st1 (acc ++ take bn (drop j ps))); try done.
    simpl in Hk. lia.
Qed.
End BatchFail.

(** X15. [batch_score_papers] catches nothing: when the scoring of the paper
    at position [k] raises, in the request or in the recovery step, the
    same exception leaves [batch_score_papers], whatever the batch size and
    however many papers were scored before. *)
Theorem batch_score_papers_propagates `{Collaborators}
    (self : GeminiClient.t) st papers ps kw neg (scores : nat → pydict)
    (k : nat) (e : exn) :
  0 < GeminiClient.batch_size self →
  lists st !! papers = Some ps →
  (∀ p, p ∈ ps → is_Some (dicts st !! p)) →
  (k < length ps)%nat →
  (∀ (i : nat) d, (i < k)%nat →
    ∃ r, request_scoring (llm_calls st + i) (GeminiClient.model_name self)
           d kw neg = Ok r ∧
         GeminiClient.parse_scoring_response r = Ok (PDict (scores i))) →
  (∀ d, scoring (llm_calls st + k) (GeminiClient.model_name self) d kw neg
        = Raise e) →
  GeminiClient.batch_score_papers self papers kw neg st = Raise e.
Proof.
  intros Hb Hps Hbound Hk Hbefore Hfail.
  set (out := fresh (dom (lists st))).
  set (st0 := with_list st []).
  assert (out ≠ papers) as Hne.
  { intros Heq. pose proof (fresh_list st) as Hf. fold out in Hf.
    by rewrite Heq, Hps in Hf. }
  unfold GeminiClient.batch_score_papers.
  rewrite (bind_ok _ _ _ out st0) by done.
  rewrite (bind_ok _ _ _ _ _ (read_list_ok st0 _ _ (with_list_old st [] _ _ Hps))).
  unfold py_range.
  replace (GeminiClient.batch_size self =? 0) with false
    by (symmetry; apply Z.eqb_neq; lia).
  rewrite bind_lift_ok. apply bind_raise.
  apply (rounds_raise self kw neg scores (llm_calls st) k e Hbefore Hfail
           papers out ps Hk Hne Hb _ 0%nat st0 []).
  - by apply with_list_old.
  - apply with_list_new.
  - exact Hbound.
  - simpl. lia.
  - pose proof (range_len_covers (length ps) _ Hb). lia.
Qed.

(** ** [score_paper_relevance]: what the [try] block lets through *)

(** X16. A reply without text makes [score_paper_relevance] raise
    [TypeError]: [re.search] refuses [None], and the [except] clause
    catches [JSONDecodeError] only. *)
Theorem score_paper_relevance_no_text `{Collaborators}
    (self : GeminiClient.t) paper kw neg st r st' :
  GeminiClient.generate_content self paper kw neg st = Ok (r, st') →
  text r = None →
  GeminiClient.score_paper_relevance self paper kw neg st = Raise TypeError.
Proof.
  intros Hreq Htext. unfold GeminiClient.score_paper_relevance.
  rewrite (bind_ok _ _ _ _ _ Hreq).
  unfold lift, GeminiClient.parse_scoring_response. by rewrite Htext.
Qed.

(** X17. An exception of [json.loads] other than [JSONDecodeError] is not
    turned into the scores 1, 1, 2: it leaves [score_paper_relevance]. *)
Theorem score_paper_relevance_other_error `{Collaborators}
    (self : GeminiClient.t) paper kw neg st r st' t m (e : exn) :
  GeminiClient.generate_content self paper kw neg st = Ok (r, st') →
  text r = Some t →
  re_search t = Some m →
  json_loads m = Raise e →
  e ≠ JSONDecodeError →
  GeminiClient.score_paper_relevance self paper kw neg st = Raise e.
Proof.
  intros Hreq Htext Hsearch Hloads He.
  unfold GeminiClient.score_paper_relevance.
  rewrite (bind_ok _ _ _ _ _ Hreq).
  unfold lift, GeminiClient.parse_scoring_response.
  rewrite Htext, Hsearch, Hloads. cbn [mbind result_bind try_except].
  by rewrite decide_False.
Qed.

(** ** Scoring, then selection *)

Lemma attach_all_establishes (scores : nat → pydict) (Q : pydict → Prop) xs :
  ∀ i m,
  (∀ (x : nat) d, (x < length xs)%nat → Q (attach (scores (i + x)%nat) d)) →
  (∀ p, p ∈ xs → is_Some (m !! p)) →
  ∀ p, p ∈ xs ∨ (∃ d, m !! p = Some d ∧ Q d) →
    is_Some (m !! p) →
    ∃ d, attach_all scores i xs m !! p = Some d ∧ Q d.
Proof.
  induction xs as [|x xs IH]; intros i m HQ Hbound p Hp [d Hd].
  - destruct Hp as [Hp|Hp]; [by apply elem_of_nil in Hp|done].
  - cbn [attach_all]. apply IH.
    + intros y e Hy. replace (S i + y)%nat with (i + S y)%nat by lia.
      apply HQ. simpl. lia.
    + intros q Hq. rewrite lookup_alter. case_decide.
      * subst. apply fmap_is_Some, Hbound. by left.
      * apply Hbound. by right.
    + destruct (decide (p = x)) as [->|Hne].
      * right. rewrite lookup_alter_eq, Hd.
        eexists. split; [done|].
        replace i with (i + 0)%nat by lia. apply HQ. simpl. lia.
      * destruct Hp as [Hp|(e & He & HQe)].
        -- left. by apply elem_of_cons in Hp as [?|?].
        -- right. exists e. by rewrite lookup_alter_ne.
    + rewrite lookup_alter. case_decide; [|by eexists].
      subst. rewrite Hd. by eexists.
Qed.

(** X18. Scoring followed by selection: when every scoring result leaves a
    [combined_score] below the minimum of the ranker, as the results 1, 1,
    2 of replies without usable JSON do for the default minimum 4,
    [select_top_papers] selects nothing from the list that
    [batch_score_papers] returns. *)
Theorem select_top_papers_after_low_scores `{Collaborators}
    (client : GeminiClient.t) (ranker : PaperRanker.t) st papers ps kw neg
    (scores : nat → pydict) (limit : option Z) :
  0 < GeminiClient.batch_size client →
  lists st !! papers = Some ps →
  (∀ p, p ∈ ps → is_Some (dicts st !! p)) →
  (∀ (i : nat) d, (i < length ps)%nat →
    ∃ r, request_scoring (llm_calls st + i) (GeminiClient.model_name client)
           d kw neg = Ok r ∧
         GeminiClient.parse_scoring_response r = Ok (PDict (scores i))) →
  (∀ i : nat, (i < length ps)%nat →
    ∃ z, dict_get (scores i) "combined_score" (PInt 2) = PInt z ∧
         z < PaperRanker.min_combined_score ranker) →
  ∃ scored_papers st1 out st2,
    GeminiClient.batch_score_papers client papers kw neg st
    = Ok (scored_papers, st1) ∧
    lists st1 !! scored_papers = Some ps ∧
    PaperRanker.select_top_papers ranker scored_papers limit st1
    = Ok (out, st2) ∧
    lists st2 !! out = Some [].
Proof.
  intros Hb Hps Hbound Hreplies Hlow.
  destruct (batch_score_papers_run client st papers ps kw neg scores
              Hb Hps Hbound Hreplies)
    as (st1 & Hrun & Hout & _ & Hdicts & _).
  set (low := λ d : pydict,
    ∃ z, d !! "combined_score" = Some (PInt z) ∧
         z < PaperRanker.min_combined_score ranker).
  assert (∀ p, p ∈ ps → ∃ d, dicts st1 !! p = Some d ∧ low d) as Hall.
  { intros p Hp. rewrite Hdicts.
    apply attach_all_establishes; [|done|by left|by apply Hbound].
    intros x d Hx. destruct (Hlow x Hx) as (z & Hz & Hlt).
    exists z. split; [|done].
    unfold attach. rewrite lookup_insert_eq. cbn [Nat.add]. by rewrite Hz. }
  assert (Forall (scored st1 "combined_score") ps) as Hsc.
  { apply Forall_forall. intros p Hp.
    destruct (Hall p Hp) as (d & Hd & z & Hz & _).
    split; [by eexists|]. unfold field, dict_get. rewrite Hd. cbn.
    rewrite Hz. by eexists. }
  assert (filter (λ p, PaperRanker.min_combined_score ranker
                       ≤ score st1 "combined_score" p) ps = []) as Hkept.
  { apply filter_none, Forall_forall. intros p Hp.
    destruct (Hall p Hp) as (d & Hd & z & Hz & Hlt).
    unfold score, field, dict_get. rewrite Hd. cbn. rewrite Hz. cbn. lia. }
  pose proof (select_top_papers_run ranker st1 _ ps limit Hout Hsc) as Hsel.
  cbv zeta in Hsel. rewrite Hkept in Hsel.
  eexists _, st1, _, _. split; [exact Hrun|]. split; [exact Hout|].
  split; [exact Hsel|].
  rewrite with_list_new. by destruct (default 10 limit).
Qed.

(** ** [get_citation_data] *)

Section Citations.
Context `{Scholar}.
Import ArxivClient.

(** What is known of every pair of values that the loop writes. *)
Context (good : pyval → pyval → Prop).
Hypothesis good_nothing : good (PInt 0) (PStr "").
Hypothesis good_found :
  ∀ n q r, search_pubs n q = Ok (Some r) → r ≠ ∅ →
    good (dict_get r "num_citations" (PInt 0)) (dict_get r "citedby_url" (PStr "")).

Lemma set_citations_run p c u st d :
  dicts st !! p = Some d →
  ∃ st',
    set_citations p c u st = Ok (tt, st') ∧
    dicts st' = <[p := cited c u d]> (dicts st) ∧
    lists st' = lists st ∧
    llm_calls st' = llm_calls st ∧
    stdout st' = stdout st.
Proof.
  intros Hd. unfold set_citations.
  eexists. split.
  - rewrite (bind_ok _ _ _ _ _ (dict_setitem_ok st p d _ _ Hd)).
    apply dict_setitem_ok. cbn. apply lookup_insert_eq.
  - cbn. by rewrite insert_insert_eq.
Qed.

Lemma write_citations_run p result st d :
  dicts st !! p = Some d →
  (∀ r, result = Some r → r ≠ ∅ →
    good (dict_get r "num_citations" (PInt 0)) (dict_get r "citedby_url" (PStr ""))) →
  ∃ st' c u,
    write_citations p result st = Ok (tt, st') ∧
    dicts st' = <[p := cited c u d]> (dicts st) ∧
    lists st' = lists st ∧
    llm_calls st' = llm_calls st ∧
    stdout st' = stdout st ∧
    good c u.
Proof.
  intros Hd Hgood. unfold write_citations.
  destruct result as [r|]; [destruct (decide (r = ∅)) as [->|Hr]|].
  - destruct (set_citations_run p (PInt 0) (PStr "") st d Hd)
      as (st' & ? & ? & ? & ? & ?). by exists st', (PInt 0), (PStr "").
  - destruct (set_citations_run p (dict_get r "num_citations" (PInt 0))
                (dict_get r "citedby_url" (PStr "")) st d Hd)
      as (st' & ? & ? & ? & ? & ?).
    eexists st', _, _. split_and!; try done. by apply Hgood.
  - destruct (set_citations_run p (PInt 0) (PStr "") st d Hd)
      as (st' & ? & ? & ? & ? & ?). by exists st', (PInt 0), (PStr "").
Qed.

Lemma look_up_cases d o :
  (∃ e, look_up d o = (Raise e, o))
  ∨ (∃ q, look_up d o
          = (search_pubs (searches o) q, Outside (S (searches o)) (slept o))).
Proof.
  unfold look_up. destruct (citation_query d) as [q|e]; [right|left]; by eexists.
Qed.

Lemma check_paper_run total i p o st d :
  dicts st !! p = Some d →
  is_Some (d !! "title") →
  ∃ o' st' c u,
    check_paper total i p o st = Ok (o', st') ∧
    dicts st' = <[p := cited c u d]> (dicts st) ∧
    lists st' = lists st ∧
    llm_calls st' = llm_calls st ∧
    good c u ∧
    (searches o ≤ searches o' ≤ S (searches o))%nat ∧
    slept o ≤ slept o' ≤ slept o + 2.
Proof.
  intros Hd [t Ht]. unfold check_paper.
  rewrite (bind_ok _ _ _ _ _ (read_dict_ok _ _ _ Hd)).
  unfold dict_getitem. rewrite Ht, bind_lift_ok.
  unfold mbind at 1, M_bind at 1. cbn [print].
  set (st0 := Store _ _ _ _).
  assert (dicts st0 !! p = Some d) as Hd0 by done.
  destruct (look_up_cases d o) as [[e He]|[q Hq]].
  - rewrite He.
    unfold mbind at 1, M_bind at 1. cbn [print].
    set (st1 := Store _ _ _ _).
    destruct (set_citations_run p (PInt 0) (PStr "") st1 d Hd0)
      as (st' & Hrun & ? & ? & ? & ?).
    exists o, st', (PInt 0), (PStr "").
    rewrite (bind_ok _ _ _ _ _ Hrun). split_and!; try done; lia.
  - rewrite Hq. destruct (search_pubs (searches o) q) as [result|e] eqn:Hs.
    + destruct (write_citations_run p result st0 d Hd0)
        as (st' & c & u & Hrun & ? & ? & ? & ? & ?).
      { intros r -> Hr. by eapply good_found. }
      eexists _, st', c, u.
      rewrite (bind_ok _ _ _ _ _ Hrun). split_and!; try done; cbn; lia.
    + unfold mbind at 1, M_bind at 1. cbn [print].
      set (st1 := Store _ _ _ _).
      destruct (set_citations_run p (PInt 0) (PStr "") st1 d Hd0)
        as (st' & Hrun & ? & ? & ? & ?).
      eexists _, st', (PInt 0), (PStr "").
      rewrite (bind_ok _ _ _ _ _ Hrun). split_and!; try done; cbn; lia.
Qed.

Lemma cited_other c u d k :
  k ≠ "citation_count" → k ≠ "citation_url" → cited c u d !! k = d !! k.
Proof. intros ??. unfold cited. by rewrite !lookup_insert_ne. Qed.

Lemma check_papers_run total xs : ∀ i o st,
  (∀ p, p ∈ xs → ∃ d, dicts st !! p = Some d ∧ is_Some (d !! "title")) →
  ∃ o' st',
    check_papers total i xs o st = Ok (o', st') ∧
    lists st' = lists st ∧
    llm_calls st' = llm_calls st ∧
    (∀ p, p ∉ xs → dicts st' !! p = dicts st !! p) ∧
    (∀ p d, dicts st !! p = Some d →
      ∃ d', dicts st' !! p = Some d' ∧
            ∀ k, k ≠ "citation_count" → k ≠ "citation_url" → d' !! k = d !! k) ∧
    (∀ p, p ∈ xs →
      ∃ d' c u, dicts st' !! p = Some d' ∧
                d' !! "citation_count" = Some c ∧
                d' !! "citation_url" = Some u ∧ good c u) ∧
    (searches o ≤ searches o' ≤ searches o + length xs)%nat ∧
    slept o ≤ slept o' ≤ slept o + 2 * Z.of_nat (length xs).
Proof.
  induction xs as [|x xs IH]; intros i o st Htitles.
  - exists o, st. split_and!; try done; try (simpl; lia).
    + intros p d Hd. by exists d.
    + intros p Hp. by apply elem_of_nil in Hp.
  - destruct (Htitles x) as (d & Hd & Ht); [by left|].
    destruct (check_paper_run total i x o st d Hd Ht)
      as (o1 & st1 & c & u & Hrun1 & Hd1 & Hl1 & Hc1 & Hgood & Hs1 & Hz1).
    assert (∀ p e, dicts st !! p = Some e →
      ∃ e', dicts st1 !! p = Some e' ∧
            ∀ k, k ≠ "citation_count" → k ≠ "citation_url" → e' !! k = e !! k)
      as Hframe1.
    { intros p e He. rewrite Hd1.
      destruct (decide (p = x)) as [->|Hne].
      - rewrite lookup_insert_eq. eexists. split; [done|].
        intros k ??. rewrite cited_other by done. congruence.
      - rewrite lookup_insert_ne by done. by exists e. }
    destruct (IH (S i) o1 st1)
      as (o' & st' & Hrun & Hl & Hc & Hout & Hframe & Hin & Hs & Hz).
    { intros p Hp. destruct (Htitles p) as (e & He & Hte); [by right|].
      destruct (Hframe1 p e He) as (e' & He' & Hk).
      exists e'. split; [done|]. by rewrite Hk. }
    exists o', st'. cbn [check_papers].
    rewrite (bind_ok _ _ _ _ _ Hrun1).
    split; [exact Hrun|]. split; [congruence|]. split; [congruence|].
    split; [|split; [|split; [|split]]].
    + intros p Hp. apply not_elem_of_cons in Hp as [Hne Hp].
      rewrite (Hout p Hp), Hd1. by apply lookup_insert_ne.
    + intros p e He. destruct (Hframe1 p e He) as (e1 & He1 & Hk1).
      destruct (Hframe p e1 He1) as (e' & He' & Hk').
      exists e'. split; [done|]. intros k ??. by rewrite Hk', Hk1.
    + intros p Hp. destruct (decide (p ∈ xs)) as [Hxs|Hxs]; [by apply Hin|].
      apply elem_of_cons in Hp as [->|Hp]; [|done].
      rewrite (Hout x Hxs), Hd1, lookup_insert_eq.
      exists (cited c u d), c, u. split; [done|]. unfold cited.
      split; [by rewrite lookup_insert_ne, lookup_insert_eq|].
      by rewrite lookup_insert_eq.
    + cbn [length]. lia.
    + cbn [length]. lia.
Qed.

Lemma get_citation_data_run papers ps max_papers o st :
  lists st !! papers = Some ps →
  (∀ p, p ∈ checked ps max_papers →
    ∃ d, dicts st !! p = Some d ∧ is_Some (d !! "title")) →
  ∃ o' st',
    get_citation_data papers max_papers o st = Ok ((papers, o'), st') ∧
    lists st' = lists (with_list st (checked ps max_papers)) ∧
    llm_calls st' = llm_calls st ∧
    (∀ p, p ∉ checked ps max_papers → dicts st' !! p = dicts st !! p) ∧
    (∀ p d, dicts st !! p = Some d →
      ∃ d', dicts st' !! p = Some d' ∧
            ∀ k, k ≠ "citation_count" → k ≠ "citation_url" → d' !! k = d !! k) ∧
    (∀ p, p ∈ checked ps max_papers →
      ∃ d' c u, dicts st' !! p = Some d' ∧
                d' !! "citation_count" = Some c ∧
                d' !! "citation_url" = Some u ∧ good c u) ∧
    (searches o ≤ searches o' ≤ searches o + length (checked ps max_papers))%nat ∧
    slept o ≤ slept o' ≤ slept o + 2 * Z.of_nat (length (checked ps max_papers)).
Proof.
  intros Hps Htitles.
  set (xs := checked ps max_papers) in *.
  set (st0 := with_list st xs).
  destruct (check_papers_run (length xs) xs 0%nat o st0 Htitles)
    as (o' & st' & Hrun & Hl & Hc & Hout & Hframe & Hin & Hs & Hz).
  exists o', st'. split; [|done].
  unfold get_citation_data.
  rewrite (bind_ok _ _ _ _ _ (list_slice_run _ _ _ _ _ Hps)).
  fold (checked ps max_papers). fold xs st0.
  rewrite (bind_ok _ _ _ _ _ (read_list_ok _ _ _ (with_list_new st xs))).
  by rewrite (bind_ok _ _ _ _ _ Hrun).
Qed.
End Citations.

Lemma checked_default ps : checked ps None = take 20 ps.
Proof. unfold checked. by rewrite slice_prefix. Qed.

(** X19. As long as every checked paper has a title, [get_citation_data]
    returns, whatever the searches do: what it returns is the list that
    it was given, with the same elements; every checked paper has a
    [citation_count] and a [citation_url]; no other key of any paper is
    written, the papers that are not checked are left as they were, and
    there is at most one search and one pause of two seconds for each
    checked paper. *)
Theorem get_citation_data_returns_input `{Scholar} papers ps max_papers o st :
  lists st !! papers = Some ps →
  (∀ p, p ∈ checked ps max_papers →
    ∃ d, dicts st !! p = Some d ∧ is_Some (d !! "title")) →
  ∃ o' st',
    ArxivClient.get_citation_data papers max_papers o st
    = Ok ((papers, o'), st') ∧
    lists st' !! papers = Some ps ∧
    (∀ p, p ∈ checked ps max_papers →
      ∃ d', dicts st' !! p = Some d' ∧
            is_Some (d' !! "citation_count") ∧
            is_Some (d' !! "citation_url")) ∧
    (∀ p d, dicts st !! p = Some d →
      ∃ d', dicts st' !! p = Some d' ∧
            ∀ k, k ≠ "citation_count" → k ≠ "citation_url" → d' !! k = d !! k) ∧
    (∀ p, p ∉ checked ps max_papers → dicts st' !! p = dicts st !! p) ∧
    (ArxivClient.searches o ≤ ArxivClient.searches o'
     ≤ ArxivClient.searches o + length (checked ps max_papers))%nat ∧
    ArxivClient.slept o ≤ ArxivClient.slept o'
    ≤ ArxivClient.slept o + 2 * Z.of_nat (length (checked ps max_papers)).
Proof.
  intros Hps Htitles.
  destruct (get_citation_data_run (λ _ _, True) I (λ _ _ _ _ _, I)
              papers ps max_papers o st Hps Htitles)
    as (o' & st' & Hrun & Hl & _ & Hout & Hframe & Hin & Hs & Hz).
  exists o', st'. split; [done|].
  split; [rewrite Hl; by apply with_list_old|].
  split; [|done].
  intros p Hp. destruct (Hin p Hp) as (d' & c & u & Hd' & Hc & Hu & _).
  exists d'. by rewrite Hc, Hu.
Qed.

Lemma check_papers_no_title `{Scholar} total xs : ∀ i o st,
  (∀ p, p ∈ xs → is_Some (dicts st !! p)) →
  (∃ p d, p ∈ xs ∧ dicts st !! p = Some d ∧ d !! "title" = None) →
  ArxivClient.check_papers total i xs o st = Raise (OtherError "KeyError").
Proof.
  induction xs as [|x xs IH]; intros i o st Hbound (p & d & Hp & Hd & Ht).
  { by apply elem_of_nil in Hp. }
  destruct (Hbound x) as [dx Hdx]; [by left|].
  cbn [ArxivClient.check_papers].
  destruct (dx !! "title") as [t|] eqn:Htx.
  - destruct (check_paper_run (λ _ _, True) I (λ _ _ _ _ _, I)
                total i x o st dx Hdx)
      as (o1 & st1 & c & u & Hrun1 & Hd1 & _); [by eexists|].
    rewrite (bind_ok _ _ _ _ _ Hrun1).
    assert (p ≠ x) as Hne by (intros ->; congruence).
    apply IH.
    + intros q Hq. rewrite Hd1.
      destruct (decide (q = x)) as [->|Hqx];
        [rewrite lookup_insert_eq; by eexists|].
      rewrite lookup_insert_ne by done. apply Hbound. by right.
    + exists p, d. apply elem_of_cons in Hp as [->|Hp]; [done|].
      split; [done|]. split; [|done].
      rewrite Hd1. by rewrite lookup_insert_ne.
  - apply bind_raise. unfold ArxivClient.check_paper.
    rewrite (bind_ok _ _ _ _ _ (read_dict_ok _ _ _ Hdx)).
    apply bind_raise. unfold dict_getitem. by rewrite Htx.
Qed.

(** X20. The title of the progress line is read outside the [try] block:
    when a checked paper has no [title], [get_citation_data] raises
    [KeyError], although the same lookup inside the block would have been
    caught. *)
Theorem get_citation_data_missing_title `{Scholar} papers ps max_papers o st :
  lists st !! papers = Some ps →
  (∀ p, p ∈ checked ps max_papers → is_Some (dicts st !! p)) →
  (∃ p d, p ∈ checked ps max_papers ∧ dicts st !! p = Some d ∧
          d !! "title" = None) →
  ArxivClient.get_citation_data papers max_papers o st
  = Raise (OtherError "KeyError").
Proof.
  intros Hps Hbound Hbad.
  unfold ArxivClient.get_citation_data.
  rewrite (bind_ok _ _ _ _ _ (list_slice_run _ _ _ _ _ Hps)).
  fold (checked ps max_papers).
  rewrite (bind_ok _ _ _ _ _ (read_list_ok _ _ _ (with_list_new st _))).
  apply bind_raise. by apply check_papers_no_title.
Qed.

(** X21. When no search finds a publication, each of them raising,
    returning nothing or returning an empty record, every checked paper
    ends with the citation count 0 and the empty citation URL. *)
Theorem get_citation_data_nothing_found `{Scholar} papers ps max_papers o st :
  lists st !! papers = Some ps →
  (∀ p, p ∈ checked ps max_papers →
    ∃ d, dicts st !! p = Some d ∧ is_Some (d !! "title")) →
  (∀ n q r, search_pubs n q = Ok (Some r) → r = ∅) →
  ∃ o' st',
    ArxivClient.get_citation_data papers max_papers o st
    = Ok ((papers, o'), st') ∧
    ∀ p, p ∈ checked ps max_papers →
      ∃ d', dicts st' !! p = Some d' ∧
            d' !! "citation_count" = Some (PInt 0) ∧
            d' !! "citation_url" = Some (PStr "").
Proof.
  intros Hps Htitles Hnone.
  destruct (get_citation_data_run (λ c u, c = PInt 0 ∧ u = PStr "")
              (conj eq_refl eq_refl)
              (λ n q r Hs Hr, False_ind _ (Hr (Hnone n q r Hs)))
              papers ps max_papers o st Hps Htitles)
    as (o' & st' & Hrun & _ & _ & _ & _ & Hin & _).
  exists o', st'. split; [done|].
  intros p Hp. destruct (Hin p Hp) as (d' & c & u & Hd' & Hc & Hu & -> & ->).
  by exists d'.
Qed.

Lemma sorted_get_score_run st key papers ps :
  lists st !! papers = Some ps →
  Forall (scored st key) ps →
  sorted papers (PaperRanker.get_score key) true st
  = Ok (fresh (dom (lists st)), with_list st (sort_desc (score st key) ps)).
Proof.
  intros Hps Hsc. unfold sorted.
  rewrite (bind_ok _ _ _ _ _ (read_list_ok _ _ _ Hps)).
  assert (Forall (λ p, is_Some (dicts st !! p)) ps) as Hbound.
  { eapply Forall_impl; [exact Hsc|]. by intros p [? _]. }
  rewrite (bind_ok _ _ _ _ _ (for_collect_get_score st _ ps Hbound)).
  rewrite zip_keys.
  rewrite (sort_keyed_desc _ (score st key)); last first.
  { eapply Forall_impl; [exact Hsc|]. intros p. apply scored_typed. }
  unfold mbind, M_bind, lift, alloc_list. by rewrite keyed_snd.
Qed.

(** X22. The end of [get_most_cited_papers]: when the counts that the
    searches report are integers, the papers come back in a new list, in
    non-increasing order of [citation_count], papers with equal counts in
    the order of the input. Only the first 20 papers are looked up: a
    paper behind them is ranked by the count that it had before, which is
    0 when it had none. *)
Theorem cite_and_sort_ranks `{Scholar} papers ps o st :
  lists st !! papers = Some ps →
  (∀ p, p ∈ take 20 ps → ∃ d, dicts st !! p = Some d ∧ is_Some (d !! "title")) →
  Forall (scored st "citation_count") ps →
  (∀ n q r, search_pubs n q = Ok (Some r) →
    is_Some (as_int (dict_get r "num_citations" (PInt 0)))) →
  ∃ out o' st' ranked,
    ArxivClient.cite_and_sort papers o st = Ok ((out, o'), st') ∧
    out ≠ papers ∧
    lists st' !! out = Some ranked ∧
    ranked ≡ₚ ps ∧
    StronglySorted
      (λ p q, score st' "citation_count" q ≤ score st' "citation_count" p)
      ranked ∧
    (∀ n : Z,
      filter (λ p, score st' "citation_count" p = n) ranked
      = filter (λ p, score st' "citation_count" p = n) ps) ∧
    (∀ p, p ∉ take 20 ps →
      score st' "citation_count" p = score st "citation_count" p).
Proof.
  intros Hps Htitles Hsc Hint.
  destruct (get_citation_data_run (λ c _, is_Some (as_int c))
              (mk_is_Some _ _ eq_refl) (λ n q r Hs _, Hint n q r Hs)
              papers ps None o st Hps)
    as (o' & st1 & Hrun & Hl & _ & Hout & Hframe & Hin & _).
  { intros p Hp. apply Htitles. by rewrite <-checked_default. }
  assert (lists st1 !! papers = Some ps) as Hps1.
  { rewrite Hl. by apply with_list_old. }
  assert (Forall (scored st1 "citation_count") ps) as Hsc1.
  { apply Forall_forall. intros p Hp.
    destruct (decide (p ∈ checked ps None)) as [Hc|Hc].
    - destruct (Hin p Hc) as (d' & c & u & Hd' & Hcount & _ & Hgood).
      split; [by eexists|]. unfold field, dict_get. by rewrite Hd'; cbn; rewrite Hcount.
    - rewrite Forall_forall in Hsc. destruct (Hsc p Hp) as [Hb Hi].
      unfold scored, field in *. by rewrite (Hout p Hc). }
  set (ranked := sort_desc (score st1 "citation_count") ps).
  exists (fresh (dom (lists st1))), o', (with_list st1 ranked), ranked.
  split.
  { unfold ArxivClient.cite_and_sort.
    rewrite (bind_ok _ _ _ _ _ Hrun). cbn [fst snd].
    change ArxivClient.citation_count with (PaperRanker.get_score "citation_count").
    by rewrite (bind_ok _ _ _ _ _ (sorted_get_score_run _ _ _ _ Hps1 Hsc1)). }
  split.
  { intros Heq. pose proof (fresh_list st1) as Hf. by rewrite Heq, Hps1 in Hf. }
  split; [apply with_list_new|].
  split; [apply sort_desc_perm|].
  split; [apply sort_desc_sorted|].
  split; [intros n; apply sort_desc_stable|].
  intros p Hp. rewrite <-checked_default in Hp.
  unfold score, field. cbn. by rewrite (Hout p Hp).
Qed.

(** ** The links of a paper *)

Lemma replace_from_absent old new s :
  contains old s = false → replace_from old new 0 s = s.
Proof.
  induction s as [|c s IH]; [done|].
  cbn [contains replace_from]. intros Hc.
  apply orb_false_elim in Hc as [-> Hc]. by rewrite IH.
Qed.

(** X23. The links that [_parse_arxiv_response] stores: where no [http://]
    follows, a leading [http://] becomes [https://], and a link that
    begins with [https://] is stored as it is. *)
Theorem secure_link_keeps_https (rest : string) :
  contains "http://" rest = false →
  ArxivClient.secure_link ("http://" +:+ rest) = "https://" +:+ rest
  ∧ ArxivClient.secure_link ("https://" +:+ rest) = "https://" +:+ rest.
Proof.
  intros Hrest. unfold ArxivClient.secure_link, str_replace. split.
  - assert (String.prefix "" rest = true) as Hend by by destruct rest.
    simpl. rewrite Hend. by rewrite (replace_from_absent _ _ _ Hrest).
  - apply replace_from_absent. simpl. by rewrite Hrest.
Qed.

(** X24. The [pdf_url] that [get_most_cited_papers] stores: every [http]
    gets an [s], also the one of a URL that begins with [https], which is
    stored with [httpss] in front. *)
Theorem cited_pdf_url_doubles_s (rest : string) :
  ArxivClient.cited_pdf_url ("http" +:+ rest)
  = "https" +:+ ArxivClient.cited_pdf_url rest
  ∧ ArxivClient.cited_pdf_url ("https" +:+ rest)
    = "httpss" +:+ ArxivClient.cited_pdf_url rest.
Proof. split; by destruct rest. Qed.

(** ** [get_pdf_content] *)

(** X25. [get_pdf_content] never raises, whatever the requests do, and
    touches no paper and no list; content that is not empty is the content
    of a [GET] request that went through, after one [HEAD] request. *)
Theorem get_pdf_content_never_raises `{Web} (pdf_url : string) st :
  ∃ content sent st',
    ArxivClient.get_pdf_content pdf_url st = Ok ((content, sent), st') ∧
    dicts st' = dicts st ∧
    lists st' = lists st ∧
    (content ≠ [] →
      http_get pdf_url = Ok content ∧
      sent = [ArxivClient.HEAD pdf_url; ArxivClient.GET pdf_url] ∧
      stdout st' = stdout st).
Proof.
  unfold ArxivClient.get_pdf_content, ArxivClient.on_exception.
  destruct (http_head pdf_url) as [h|e]; [|by eexists _, _, _].
  destruct (ArxivClient.size_check pdf_url h) as [[line|]|e];
    [by eexists _, _, _| |by eexists _, _, _].
  destruct (http_get pdf_url) as [content|e]; by eexists _, _, _.
Qed.

(** X26. A file whose [Content-Length] is above 20 MB (20 * 1024 * 1024
    bytes) is not downloaded: the result is empty and the only request
    sent is the [HEAD] request, also when the size cannot be printed. *)
Theorem get_pdf_content_skips_large `{Web} (pdf_url s : string) (n : Z) st :
  http_head pdf_url = Ok (Some s) →
  s ≠ "" →
  py_int s = Ok n →
  20 * 1024 * 1024 < n →
  ∃ st',
    ArxivClient.get_pdf_content pdf_url st
    = Ok (([], [ArxivClient.HEAD pdf_url]), st') ∧
    length (stdout st') = S (length (stdout st)).
Proof.
  intros Hhead Hs Hint Hn.
  unfold ArxivClient.get_pdf_content, ArxivClient.on_exception. rewrite Hhead.
  unfold ArxivClient.size_check. destruct s as [|c s]; [done|].
  rewrite Hint. cbn [mbind result_bind].
  replace (20 * 1024 * 1024 <? n) with true by (symmetry; apply Z.ltb_lt; lia).
  destruct (megabytes n) as [mb|e]; eexists; (split; [done|]); cbn;
    rewrite length_app; cbn; lia.
Qed.

(** X27. A file of at most 20 MB, or one whose size is not known because
    the header is missing or empty, is downloaded: the result is what the
    [GET] request returns, and nothing is printed. *)
Theorem get_pdf_content_downloads `{Web} (pdf_url : string) h content st :
  http_head pdf_url = Ok h →
  h = None ∨ h = Some "" ∨
    (∃ s n, h = Some s ∧ py_int s = Ok n ∧ n ≤ 20 * 1024 * 1024) →
  http_get pdf_url = Ok content →
  ArxivClient.get_pdf_content pdf_url st
  = Ok ((content, [ArxivClient.HEAD pdf_url; ArxivClient.GET pdf_url]), st).
Proof.
  intros Hhead Hh Hget.
  unfold ArxivClient.get_pdf_content. rewrite Hhead.
  assert (ArxivClient.size_check pdf_url h = Ok None) as ->.
  { destruct Hh as [->|[->|(s & n & -> & Hint & Hn)]]; [done..|].
    unfold ArxivClient.size_check. destruct s as [|c s]; [done|].
    rewrite Hint. cbn [mbind result_bind].
    by replace (20 * 1024 * 1024 <? n) with false
      by (symmetry; apply Z.ltb_ge; lia). }
  by rewrite Hget.
Qed.

(** ** The identifier of a paper *)

Lemma prefix_empty s : String.prefix "" s = true.
Proof. by destruct s. Qed.

Lemma split_from_absent sep s :
  contains sep s = false → split_from sep 0 s = [s].
Proof.
  induction s as [|c s IH]; [done|].
  cbn [contains split_from]. intros Hc.
  apply orb_false_elim in Hc as [-> Hc]. by rewrite IH.
Qed.

(** After a separator of one character, the last piece is what follows
    the last separator. *)
Lemma split_from_char (c : ascii) (pre rest : string) :
  contains (String c "") rest = false →
  ∃ pieces,
    split_from (String c "") 0 (pre +:+ String c rest) = pieces ++ [rest] ∧
    pieces ≠ [].
Proof.
  intros Hrest. induction pre as [|a pre (pieces & IH & Hne)].
  - exists [""]. split; [|done]. simpl.
    destruct (ascii_dec c c); [|done]. rewrite prefix_empty. cbn.
    by rewrite (split_from_absent _ _ Hrest).
  - simpl. destruct (ascii_dec c a).
    + destruct (String.prefix "" (pre +:+ String c rest)).
      * exists ("" :: pieces). cbn. by rewrite IH.
      * destruct pieces as [|p pieces]; [done|].
        rewrite IH. by exists (String a p :: pieces).
    + destruct pieces as [|p pieces]; [done|].
      rewrite IH. by exists (String a p :: pieces).
Qed.

Lemma append_assoc (a b c : string) : (a +:+ b) +:+ c = a +:+ b +:+ c.
Proof. induction a as [|x a IH]; [done|]. simpl. by rewrite IH. Qed.

Lemma contains_slash s :
  contains "/" s = false → contains "/abs/" s = false.
Proof.
  induction s as [|c s IH]; [done|].
  cbn [contains]. intros Hc.
  apply orb_false_elim in Hc as [Hp Hc]. rewrite IH by done.
  cbn [String.prefix] in Hp |- *. destruct (ascii_dec "/" c); [|done].
  by rewrite prefix_empty in Hp.
Qed.

Lemma contains_abs id : contains "/abs/" ("http://arxiv.org/abs/" +:+ id) = true.
Proof. simpl. rewrite prefix_empty. done. Qed.

Lemma parsed_id_abs id :
  contains "/abs/" id = false →
  ArxivClient.parsed_id ("http://arxiv.org/abs/" +:+ id) = Ok id.
Proof.
  intros Hid. unfold ArxivClient.parsed_id. rewrite contains_abs.
  unfold split_last. simpl. rewrite prefix_empty.
  by rewrite (split_from_absent _ _ Hid).
Qed.

Lemma cited_id_slash pre number :
  contains "/" number = false →
  ArxivClient.cited_id (pre +:+ "/" +:+ number) = Ok number.
Proof.
  intros Hn. unfold ArxivClient.cited_id, split_last.
  destruct (split_from_char "/" pre number Hn) as (pieces & Hsplit & _).
  change ("/" +:+ number) with (String "/" number).
  by rewrite Hsplit, last_last.
Qed.

(** X28. The two ways in which the client takes the identifier from an
    entry URL differ on identifiers of the old form, [archive/number]:
    [_parse_arxiv_response] stores the whole identifier,
    [get_most_cited_papers] only the number. On an identifier without a
    slash they agree. *)
Theorem paper_id_old_form (archive number : string) :
  contains "/" number = false →
  contains "/abs/" (archive +:+ "/" +:+ number) = false →
  ArxivClient.parsed_id ("http://arxiv.org/abs/" +:+ archive +:+ "/" +:+ number)
  = Ok (archive +:+ "/" +:+ number)
  ∧ ArxivClient.cited_id ("http://arxiv.org/abs/" +:+ archive +:+ "/" +:+ number)
    = Ok number
  ∧ ArxivClient.parsed_id ("http://arxiv.org/abs/" +:+ number) = Ok number
  ∧ ArxivClient.cited_id ("http://arxiv.org/abs/" +:+ number) = Ok number.
Proof.
  intros Hnumber Hold. split; [by apply parsed_id_abs|]. split.
  - rewrite <-append_assoc. by apply cited_id_slash.
  - split; [by apply parsed_id_abs, contains_slash|].
    by apply (cited_id_slash "http://arxiv.org/abs").
Qed.

(** ** The further properties at concrete inputs *)

Lemma odd_shelf_bound p :
  p ∈ [1; 2]%positive → is_Some (dicts Cases.odd_shelf !! p).
Proof.
  revert p. apply Forall_forall. repeat constructor; by eexists.
Defined.

Lemma odd_shelf_string :
  ∃ p, p ∈ [1; 2]%positive ∧
       as_int (field Cases.odd_shelf "combined_score" p) = None.
Proof. exists 2%positive. split; [by right; left|reflexivity]. Defined.

Lemma filter_by_minimum_score_type_error_witness :
  lists Cases.odd_shelf !! 10%positive = Some [1; 2]%positive ∧
  PaperRanker.filter_by_minimum_score (PaperRanker.Build 4) 10%positive
    Cases.odd_shelf = Raise TypeError.
Proof.
  split; [reflexivity|].
  exact (filter_by_minimum_score_type_error (PaperRanker.Build 4)
           Cases.odd_shelf 10%positive [1; 2]%positive
           eq_refl odd_shelf_bound odd_shelf_string).
Defined.

Lemma odd_shelf_kinds (c : nat) :
  ∃ p, p ∈ [1; 2]%positive ∧
       kind (field Cases.odd_shelf "combined_score" p) ≠ Some c.
Proof.
  destruct c as [|c].
  - exists 2%positive. split; [by right; left|by vm_compute].
  - exists 1%positive. split; [by left|by vm_compute].
Defined.

Lemma rank_papers_by_scores_type_error_witness :
  lists Cases.odd_shelf !! 10%positive = Some [1; 2]%positive ∧
  (2 ≤ length [1; 2]%positive)%nat ∧
  PaperRanker.rank_papers_by_scores (PaperRanker.Build 4) 10%positive
    Cases.odd_shelf = Raise TypeError.
Proof.
  split; [reflexivity|]. split; [simpl; lia|].
  exact (rank_papers_by_scores_type_error (PaperRanker.Build 4)
           Cases.odd_shelf 10%positive [1; 2]%positive
           eq_refl odd_shelf_bound ltac:(simpl; lia) odd_shelf_kinds).
Defined.

Lemma rank_papers_by_scores_short_witness :
  lists Cases.odd_shelf !! 11%positive = Some [2]%positive ∧
  (length [2]%positive ≤ 1)%nat ∧
  ∃ out st',
    PaperRanker.rank_papers_by_scores (PaperRanker.Build 4) 11%positive
      Cases.odd_shelf = Ok (out, st') ∧
    lists st' !! out = Some [2]%positive.
Proof.
  split; [reflexivity|]. split; [simpl; lia|].
  destruct (rank_papers_by_scores_short (PaperRanker.Build 4)
              Cases.odd_shelf 11%positive [2]%positive eq_refl
              (λ p Hp, odd_shelf_bound p (list_elem_of_further _ _ _ Hp))
              ltac:(simpl; lia))
    as (out & st' & Hrun & _ & Hout & _).
  by exists out, st'.
Defined.

Lemma rank_papers_by_scores_idempotent_witness :
  lists Examples.shelf !! 10%positive = Some [1; 2; 3; 4]%positive ∧
  ∃ once st1 twice st2 ranked,
    PaperRanker.rank_papers_by_scores (PaperRanker.Build 4) 10%positive
      Examples.shelf = Ok (once, st1) ∧
    PaperRanker.rank_papers_by_scores (PaperRanker.Build 4) once st1
    = Ok (twice, st2) ∧
    lists st1 !! once = Some ranked ∧
    lists st2 !! twice = Some ranked.
Proof.
  split; [reflexivity|].
  destruct (rank_papers_by_scores_idempotent (PaperRanker.Build 4)
              Examples.shelf 10%positive [1; 2; 3; 4]%positive
              eq_refl shelf_scored)
    as (once & st1 & twice & st2 & ranked & H1 & H2 & H3 & H4 & _).
  by exists once, st1, twice, st2, ranked.
Defined.

Lemma filter_rank_commute_witness :
  lists Examples.shelf !! 10%positive = Some [1; 2; 3; 4]%positive ∧
  ∃ filtered st1 fr st2 ranked st1' rf st2' result,
    PaperRanker.filter_by_minimum_score (PaperRanker.Build 4) 10%positive
      Examples.shelf = Ok (filtered, st1) ∧
    PaperRanker.rank_papers_by_scores (PaperRanker.Build 4) filtered st1
    = Ok (fr, st2) ∧
    PaperRanker.rank_papers_by_scores (PaperRanker.Build 4) 10%positive
      Examples.shelf = Ok (ranked, st1') ∧
    PaperRanker.filter_by_minimum_score (PaperRanker.Build 4) ranked st1'
    = Ok (rf, st2') ∧
    lists st2 !! fr = Some result ∧
    lists st2' !! rf = Some result.
Proof.
  split; [reflexivity|].
  exact (filter_rank_commute (PaperRanker.Build 4)
           Examples.shelf 10%positive [1; 2; 3; 4]%positive
           eq_refl shelf_scored).
Defined.

Lemma select_top_papers_negative_witness :
  lists Examples.shelf !! 10%positive = Some [1; 2; 3; 4]%positive ∧
  -1 < 0 ∧
  ∃ out st' top,
    PaperRanker.select_top_papers (PaperRanker.Build 4) 10%positive
      (Some (-1)) Examples.shelf = Ok (out, st') ∧
    lists st' !! out = Some top ∧
    length top = 2%nat.
Proof.
  split; [reflexivity|]. split; [done|].
  destruct (select_top_papers_negative (PaperRanker.Build 4)
              Examples.shelf 10%positive [1; 2; 3; 4]%positive (-1)
              eq_refl shelf_scored ltac:(done))
    as (out & st' & kept & ranked & top
        & Hrun & Hout & -> & _ & _ & _ & _ & Hlen).
  exists out, st', top. split; [done|]. split; [done|].
  rewrite Hlen. by vm_compute.
Defined.

Lemma select_top_papers_leaves_store_witness :
  lists Examples.shelf !! 10%positive = Some [1; 2; 3; 4]%positive ∧
  ∃ out st',
    PaperRanker.select_top_papers (PaperRanker.Build 4) 10%positive None
      Examples.shelf = Ok (out, st') ∧
    lists st' !! 10%positive = Some [1; 2; 3; 4]%positive ∧
    dicts st' = dicts Examples.shelf.
Proof.
  split; [reflexivity|].
  destruct (select_top_papers_leaves_store (PaperRanker.Build 4)
              Examples.shelf 10%positive [1; 2; 3; 4]%positive None
              eq_refl shelf_scored)
    as (out & st' & Hrun & _ & Hlists & Hdicts & _).
  exists out, st'. split; [done|]. split; [|done].
  by apply Hlists.
Defined.


Lemma pair_shelf_swapped_small key :
  score_key key → Forall (small Cases.pair_shelf_swapped key) [1; 2]%positive.
Proof.
  intros [->|[->| ->]]; repeat constructor; try by eexists.
  all: by vm_compute.
Defined.

Lemma get_selection_stats_order_free_witness :
  lists Cases.pair_shelf_swapped !! 10%positive = Some [1; 2]%positive ∧
  lists Cases.pair_shelf_swapped !! 12%positive = Some [2; 1]%positive ∧
  [1; 2]%positive ≡ₚ [2; 1]%positive ∧
  ∃ s,
    PaperRanker.get_selection_stats (PaperRanker.Build 4) 10%positive
      Cases.pair_shelf_swapped = Ok (s, Cases.pair_shelf_swapped) ∧
    PaperRanker.get_selection_stats (PaperRanker.Build 4) 12%positive
      Cases.pair_shelf_swapped = Ok (s, Cases.pair_shelf_swapped).
Proof.
  split; [reflexivity|]. split; [reflexivity|]. split; [apply perm_swap|].
  exact (get_selection_stats_order_free (PaperRanker.Build 4)
           Cases.pair_shelf_swapped 10%positive 12%positive
           [1; 2]%positive [2; 1]%positive
           eq_refl eq_refl (perm_swap _ _ _)
           (pair_shelf_swapped_small _ (or_introl eq_refl))
           (pair_shelf_swapped_small _ (or_intror (or_introl eq_refl)))
           (pair_shelf_swapped_small _ (or_intror (or_intror eq_refl)))).
Defined.

Lemma odd_shelf_none :
  ∃ p, p ∈ [1; 2]%positive ∧
       as_int (field Cases.odd_shelf "relevance_score" p) = None.
Proof. exists 2%positive. split; [by right; left|reflexivity]. Defined.

Lemma get_selection_stats_type_error_witness :
  lists Cases.odd_shelf !! 10%positive = Some [1; 2]%positive ∧
  PaperRanker.get_selection_stats (PaperRanker.Build 4) 10%positive
    Cases.odd_shelf = Raise TypeError.
Proof.
  split; [reflexivity|].
  exact (get_selection_stats_type_error (PaperRanker.Build 4)
           Cases.odd_shelf 10%positive [1; 2]%positive
           eq_refl odd_shelf_bound (or_introl odd_shelf_none)).
Defined.

Lemma batch_score_papers_requests_witness :
  0 < GeminiClient.batch_size (GeminiClient.Build "gemini" 3) ∧
  lists Examples.shelf !! 10%positive = Some [1; 2; 3; 4]%positive ∧
  ∃ out st',
    @GeminiClient.batch_score_papers (Fake.canned Examples.replies)
      (GeminiClient.Build "gemini" 3) 10%positive [] None Examples.shelf
    = Ok (out, st') ∧
    llm_calls st' = 4%nat.
Proof.
  split; [done|]. split; [reflexivity|].
  exact (@batch_score_papers_requests (Fake.canned Examples.replies)
           (GeminiClient.Build "gemini" 3) Examples.shelf 10%positive
           [1; 2; 3; 4]%positive [] None Examples.reply_scores
           ltac:(done) eq_refl shelf_bound replies_recovered).
Defined.


Lemma batch_score_papers_zero_batch_size_witness :
  GeminiClient.batch_size (GeminiClient.Build "gemini" 0) = 0 ∧
  lists Examples.pair_shelf !! 11%positive = Some [] ∧
  @GeminiClient.batch_score_papers (Fake.canned Examples.replies)
    (GeminiClient.Build "gemini" 0) 11%positive [] None Examples.pair_shelf
  = Raise ValueError.
Proof.
  split; [reflexivity|]. split; [reflexivity|].
  exact (@batch_score_papers_zero_batch_size (Fake.canned Examples.replies)
           (GeminiClient.Build "gemini" 0) Examples.pair_shelf 11%positive
           [] [] None eq_refl eq_refl).
Defined.

Lemma batch_score_papers_negative_batch_size_witness :
  GeminiClient.batch_size (GeminiClient.Build "gemini" (-1)) < 0 ∧
  lists Examples.shelf !! 10%positive = Some [1; 2; 3; 4]%positive ∧
  ∃ out st',
    @GeminiClient.batch_score_papers (Fake.canned Examples.replies)
      (GeminiClient.Build "gemini" (-1)) 10%positive [] None Examples.shelf
    = Ok (out, st') ∧
    lists st' !! out = Some [] ∧
    llm_calls st' = llm_calls Examples.shelf.
Proof.
  split; [done|]. split; [reflexivity|].
  destruct (@batch_score_papers_negative_batch_size
              (Fake.canned Examples.replies)
              (GeminiClient.Build "gemini" (-1)) Examples.shelf 10%positive
              [1; 2; 3; 4]%positive [] None ltac:(done) eq_refl)
    as (out & st' & Hrun & _ & Hout & _ & Hcalls & _).
  by exists out, st'.
Defined.

Lemma one_reply_recovered (i : nat) (d : pydict) :
  (i < 1)%nat →
  ∃ r,
    @request_scoring (Fake.canned [Fake.reply_325])
      (llm_calls Examples.shelf + i) "gemini" d [] None = Ok r ∧
    @GeminiClient.parse_scoring_response (Fake.canned [Fake.reply_325]) r
    = Ok (PDict (Examples.reply_scores i)).
Proof.
  intros Hi. destruct i as [|i]; [|lia].
  eexists; split; [reflexivity|by vm_compute].
Defined.

Lemma batch_score_papers_propagates_witness :
  0 < GeminiClient.batch_size (GeminiClient.Build "gemini" 3) ∧
  lists Examples.shelf !! 10%positive = Some [1; 2; 3; 4]%positive ∧
  (1 < length [1; 2; 3; 4]%positive)%nat ∧
  (∀ d, @scoring (Fake.canned [Fake.reply_325])
          (llm_calls Examples.shelf + 1) "gemini" d [] None
        = Raise (OtherError "ServerError")) ∧
  @GeminiClient.batch_score_papers (Fake.canned [Fake.reply_325])
    (GeminiClient.Build "gemini" 3) 10%positive [] None Examples.shelf
  = Raise (OtherError "ServerError").
Proof.
  split; [done|]. split; [reflexivity|]. split; [simpl; lia|].
  split; [reflexivity|].
  exact (@batch_score_papers_propagates (Fake.canned [Fake.reply_325])
           (GeminiClient.Build "gemini" 3) Examples.shelf 10%positive
           [1; 2; 3; 4]%positive [] None Examples.reply_scores 1
           (OtherError "ServerError")
           ltac:(done) eq_refl shelf_bound ltac:(simpl; lia)
           one_reply_recovered (λ d, eq_refl)).
Defined.

Lemma score_paper_relevance_no_text_witness :
  @GeminiClient.generate_content Cases.silent
    (GeminiClient.Build "gemini" 16) 1%positive [] None Examples.shelf
  = Ok (Response None, Examples.shelf_asked) ∧
  text (Response None) = None ∧
  @GeminiClient.score_paper_relevance Cases.silent
    (GeminiClient.Build "gemini" 16) 1%positive [] None Examples.shelf
  = Raise TypeError.
Proof.
  split; [reflexivity|]. split; [reflexivity|].
  exact (@score_paper_relevance_no_text Cases.silent
           (GeminiClient.Build "gemini" 16) 1%positive [] None
           Examples.shelf (Response None) Examples.shelf_asked
           eq_refl eq_refl).
Defined.

Lemma score_paper_relevance_other_error_witness :
  @GeminiClient.generate_content Cases.deep
    (GeminiClient.Build "gemini" 16) 1%positive [] None Examples.shelf
  = Ok (Response (Some "{}"), Examples.shelf_asked) ∧
  re_search "{}" = Some "{}" ∧
  @json_loads Cases.deep "{}" = Raise (OtherError "RecursionError") ∧
  OtherError "RecursionError" ≠ JSONDecodeError ∧
  @GeminiClient.score_paper_relevance Cases.deep
    (GeminiClient.Build "gemini" 16) 1%positive [] None Examples.shelf
  = Raise (OtherError "RecursionError").
Proof.
  split; [reflexivity|]. split; [reflexivity|]. split; [reflexivity|].
  split; [done|].
  exact (@score_paper_relevance_other_error Cases.deep
           (GeminiClient.Build "gemini" 16) 1%positive [] None
           Examples.shelf (Response (Some "{}")) Examples.shelf_asked
           "{}" "{}" (OtherError "RecursionError")
           eq_refl eq_refl eq_refl eq_refl ltac:(done)).
Defined.

Lemma desk_titles p :
  p ∈ [1; 2]%positive →
  ∃ d, dicts Cases.desk !! p = Some d ∧ is_Some (d !! "title").
Proof.
  revert p. apply Forall_forall. repeat constructor.
  - exists (Cases.paper (Some "Sorting") ["Ada"; "Bob"]).
    split; [reflexivity|by eexists].
  - exists (Cases.paper (Some "Searching") []).
    split; [reflexivity|by eexists].
Defined.

Lemma get_citation_data_returns_input_witness :
  lists Cases.desk !! 10%positive = Some [1; 2]%positive ∧
  ∃ o' st',
    @ArxivClient.get_citation_data Cases.library 10%positive None
      (ArxivClient.Outside 0 0) Cases.desk
    = Ok ((10%positive, o'), st') ∧
    lists st' !! 10%positive = Some [1; 2]%positive.
Proof.
  split; [reflexivity|].
  destruct (@get_citation_data_returns_input Cases.library 10%positive
              [1; 2]%positive None (ArxivClient.Outside 0 0) Cases.desk
              eq_refl desk_titles)
    as (o' & st' & Hrun & Hlist & _).
  exists o', st'. split; [exact Hrun|exact Hlist].
Defined.

Lemma desk_bound p :
  p ∈ [1; 2; 3]%positive → is_Some (dicts Cases.desk !! p).
Proof.
  revert p. apply Forall_forall. repeat constructor; by eexists.
Defined.

Lemma desk_untitled :
  ∃ p d, p ∈ [1; 2; 3]%positive ∧ dicts Cases.desk !! p = Some d ∧
         d !! "title" = None.
Proof.
  exists 3%positive, (Cases.paper None ["Cy"]).
  split; [by do 2 right; left|]. split; reflexivity.
Defined.

Lemma get_citation_data_missing_title_witness :
  lists Cases.desk !! 11%positive = Some [1; 2; 3]%positive ∧
  @ArxivClient.get_citation_data Cases.library 11%positive None
    (ArxivClient.Outside 0 0) Cases.desk
  = Raise (OtherError "KeyError").
Proof.
  split; [reflexivity|].
  exact (@get_citation_data_missing_title Cases.library 11%positive
           [1; 2; 3]%positive None (ArxivClient.Outside 0 0) Cases.desk
           eq_refl desk_bound desk_untitled).
Defined.

Lemma get_citation_data_nothing_found_witness :
  lists Cases.desk !! 10%positive = Some [1; 2]%positive ∧
  ∃ o' st',
    @ArxivClient.get_citation_data Cases.nothing 10%positive None
      (ArxivClient.Outside 0 0) Cases.desk
    = Ok ((10%positive, o'), st') ∧
    ∃ d', dicts st' !! 1%positive = Some d' ∧
          d' !! "citation_count" = Some (PInt 0).
Proof.
  split; [reflexivity|].
  destruct (@get_citation_data_nothing_found Cases.nothing 10%positive
              [1; 2]%positive None (ArxivClient.Outside 0 0) Cases.desk
              eq_refl desk_titles ltac:(discriminate))
    as (o' & st' & Hrun & Hzero).
  exists o', st'. split; [exact Hrun|].
  destruct (Hzero 1%positive) as (d' & Hd' & Hc & _); [by left|].
  exists d'. split; [exact Hd'|exact Hc].
Defined.

Lemma desk_uncited :
  Forall (scored Cases.desk "citation_count") [1; 2]%positive.
Proof. repeat constructor; by eexists. Defined.

Lemma library_counts (n : nat) (q : string) (r : pydict) :
  @search_pubs Cases.library n q = Ok (Some r) →
  is_Some (as_int (dict_get r "num_citations" (PInt 0))).
Proof.
  destruct n as [|[|n]]; [|discriminate..].
  intros [= <-]. by eexists.
Defined.

Lemma cite_and_sort_ranks_witness :
  lists Cases.desk !! 10%positive = Some [1; 2]%positive ∧
  Forall (scored Cases.desk "citation_count") [1; 2]%positive ∧
  ∃ out o' st' ranked,
    @ArxivClient.cite_and_sort Cases.library 10%positive
      (ArxivClient.Outside 0 0) Cases.desk = Ok ((out, o'), st') ∧
    lists st' !! out = Some ranked ∧
    ranked ≡ₚ [1; 2]%positive.
Proof.
  split; [reflexivity|]. split; [exact desk_uncited|].
  destruct (@cite_and_sort_ranks Cases.library 10%positive [1; 2]%positive
              (ArxivClient.Outside 0 0) Cases.desk
              eq_refl desk_titles desk_uncited library_counts)
    as (out & o' & st' & ranked & Hrun & _ & Hout & Hperm & _).
  exists out, o', st', ranked.
  split; [exact Hrun|]. split; [exact Hout|exact Hperm].
Defined.

Lemma secure_link_keeps_https_witness :
  contains "http://" "arxiv.org/abs/2401.00001v1" = false ∧
  ArxivClient.secure_link "http://arxiv.org/abs/2401.00001v1"
  = "https://arxiv.org/abs/2401.00001v1" ∧
  ArxivClient.secure_link "https://arxiv.org/abs/2401.00001v1"
  = "https://arxiv.org/abs/2401.00001v1".
Proof.
  split; [reflexivity|].
  exact (secure_link_keeps_https "arxiv.org/abs/2401.00001v1" eq_refl).
Defined.

Lemma pair_shelf_bound p :
  p ∈ [1; 2]%positive → is_Some (dicts Examples.pair_shelf !! p).
Proof.
  revert p. apply Forall_forall. repeat constructor; by eexists.
Defined.

Lemma no_usable_replies (i : nat) (d : pydict) :
  (i < length [1; 2]%positive)%nat →
  ∃ r,
    @request_scoring (Fake.canned ["no json here"; "{invalid json}"])
      (llm_calls Examples.pair_shelf + i) "gemini" d [] None = Ok r ∧
    @GeminiClient.parse_scoring_response
      (Fake.canned ["no json here"; "{invalid json}"]) r
    = Ok (PDict (Examples.reply_scores (S i))).
Proof.
  intros Hi.
  destruct i as [|[|i]]; [| |simpl in Hi; lia];
    (eexists; split; [reflexivity|by vm_compute]).
Defined.

Lemma no_usable_replies_low (i : nat) :
  (i < length [1; 2]%positive)%nat →
  ∃ z, dict_get (Examples.reply_scores (S i)) "combined_score" (PInt 2) = PInt z ∧
       z < PaperRanker.min_combined_score (PaperRanker.__init__ None).
Proof.
  intros Hi.
  destruct i as [|[|i]]; [| |simpl in Hi; lia]; by exists 2.
Defined.

Lemma select_top_papers_after_low_scores_witness :
  0 < GeminiClient.batch_size (GeminiClient.Build "gemini" 16) ∧
  lists Examples.pair_shelf !! 10%positive = Some [1; 2]%positive ∧
  ∃ scored_papers st1 out st2,
    @GeminiClient.batch_score_papers
      (Fake.canned ["no json here"; "{invalid json}"])
      (GeminiClient.Build "gemini" 16) 10%positive [] None Examples.pair_shelf
    = Ok (scored_papers, st1) ∧
    PaperRanker.select_top_papers (PaperRanker.__init__ None) scored_papers
      None st1 = Ok (out, st2) ∧
    lists st2 !! out = Some [].
Proof.
  split; [done|]. split; [reflexivity|].
  destruct (@select_top_papers_after_low_scores
              (Fake.canned ["no json here"; "{invalid json}"])
              (GeminiClient.Build "gemini" 16) (PaperRanker.__init__ None)
              Examples.pair_shelf 10%positive [1; 2]%positive [] None
              (λ i, Examples.reply_scores (S i)) None
              ltac:(done) eq_refl pair_shelf_bound no_usable_replies
              no_usable_replies_low)
    as (sp & st1 & out & st2 & Hrun & _ & Hsel & Hout).
  exists sp, st1, out, st2.
  split; [exact Hrun|]. split; [exact Hsel|exact Hout].
Defined.

Lemma get_pdf_content_skips_large_witness :
  @http_head Cases.server "https://arxiv.org/pdf/1" = Ok (Some "30000000") ∧
  @py_int Cases.server "30000000" = Ok 30000000 ∧
  20 * 1024 * 1024 < 30000000 ∧
  ∃ st',
    @ArxivClient.get_pdf_content Cases.server "https://arxiv.org/pdf/1"
      Examples.shelf
    = Ok (([], [ArxivClient.HEAD "https://arxiv.org/pdf/1"]), st').
Proof.
  split; [reflexivity|]. split; [reflexivity|]. split; [lia|].
  destruct (@get_pdf_content_skips_large Cases.server
              "https://arxiv.org/pdf/1" "30000000" 30000000 Examples.shelf
              eq_refl ltac:(discriminate) eq_refl ltac:(lia))
    as (st' & Hrun & _).
  exists st'. exact Hrun.
Defined.

Lemma get_pdf_content_downloads_witness :
  @http_head Cases.server "https://arxiv.org/pdf/2" = Ok (Some "20971520") ∧
  @py_int Cases.server "20971520" = Ok (20 * 1024 * 1024) ∧
  @ArxivClient.get_pdf_content Cases.server "https://arxiv.org/pdf/2"
    Examples.shelf
  = Ok (([Byte.x25; Byte.x50; Byte.x44; Byte.x46],
         [ArxivClient.HEAD "https://arxiv.org/pdf/2";
          ArxivClient.GET "https://arxiv.org/pdf/2"]),
        Examples.shelf).
Proof.
  split; [reflexivity|]. split; [reflexivity|].
  exact (@get_pdf_content_downloads Cases.server "https://arxiv.org/pdf/2"
           (Some "20971520") [Byte.x25; Byte.x50; Byte.x44; Byte.x46]
           Examples.shelf eq_refl
           (or_intror (or_intror
              (ex_intro _ "20971520"
                 (ex_intro _ (20 * 1024 * 1024)
                    (conj eq_refl (conj eq_refl (Z.le_refl _)))))))
           eq_refl).
Defined.

Lemma paper_id_old_form_witness :
  contains "/" "9901001v1" = false ∧
  contains "/abs/" ("hep-th" +:+ "/" +:+ "9901001v1") = false ∧
  ArxivClient.parsed_id "http://arxiv.org/abs/hep-th/9901001v1"
  = Ok "hep-th/9901001v1" ∧
  ArxivClient.cited_id "http://arxiv.org/abs/hep-th/9901001v1"
  = Ok "9901001v1".
Proof.
  split; [reflexivity|]. split; [reflexivity|].
  destruct (paper_id_old_form "hep-th" "9901001v1" eq_refl eq_refl)
    as (Hparsed & Hcited & _).
  split; [exact Hparsed|exact Hcited].
Defined.

(** ** Further runs of the clients *)

(** Two papers are looked up: the first is found with 12 citations; the
    second has no author, so that no search is sent for it, and it gets
    the count 0. The list that comes back is the list passed in. *)
Example cite_desk :
  Cases.citation_outcome
    (@ArxivClient.get_citation_data Cases.library 11%positive (Some 2)
       (ArxivClient.Outside 0 0) Cases.desk)
  = Some (11%positive, Some [1; 2; 3]%positive,
          [[Some (PInt 12); Some (PStr "/scholar?cites=1")];
           [Some (PInt 0); Some (PStr "")];
           [None; None]],
          1%nat, 2,
          ["Checking citations for paper 1/2: Sorting";
           "Checking citations for paper 2/2: Searching";
           "Error fetching citation data: Cannot Fetch from Google Scholar."]).
Proof. by vm_compute. Qed.
